(** * AI Marketing Content Gallery: the ingestion function and the viewer

    A shallow embedding of
    - [content-generator-function/main.py]: the storage-triggered function
      [process_csv_and_generate_content] with its nested helper
      [move_to_failed_bucket];
    - [frontend-app/app.py]: the dashboard query and the grid rendering.

    The function talks to three managed services (object storage, the
    generative models, the warehouse).  Their answers are not the program's
    to decide, so they are oracles over an abstract world [W]; every call
    the program makes is written to a trace of events, and the properties
    below are statements about that trace and about the returned values.
    The viewer draws with Streamlit inside a [try]: whether a drawing call
    returns or raises is an oracle as well, and a run of the viewer is the
    list of what it has shown. *)

From Stdlib Require Import List NArith ZArith Bool Lia.
From Stdlib.Strings Require Import String Ascii Byte.
From Stdlib Require Import DecimalString Permutation Sorted.
Import ListNotations.

Set Implicit Arguments.

(** ** Python values *)

Module Py.

(** A [str] is a sequence of code points. *)
Definition str := list N.

(** A Rocq literal read as a [str]. *)
Definition lit (s : string) : str :=
  map N_of_ascii (list_ascii_of_string s).

Definition bytes := list byte.

(** [str.isspace] per code point, as [str.strip()] without argument uses
    it (CPython's [_PyUnicode_IsWhitespace]). *)
Definition is_space (c : N) : bool :=
  ((9 <=? c) && (c <=? 13) || (28 <=? c) && (c <=? 32)
   || (c =? 133) || (c =? 160) || (c =? 5760)
   || (8192 <=? c) && (c <=? 8202)
   || (c =? 8232) || (c =? 8233) || (c =? 8239) || (c =? 8287)
   || (c =? 12288))%N.

Fixpoint lstrip (s : str) : str :=
  match s with
  | c :: s' => if is_space c then lstrip s' else s
  | [] => []
  end.

Definition rstrip (s : str) : str := rev (lstrip (rev s)).

(** [s.strip()] *)
Definition strip (s : str) : str := rstrip (lstrip s).

(** [s.startswith(p)]; also SQL's [s LIKE 'p%']. *)
Fixpoint startswith (p s : str) : bool :=
  match p, s with
  | [], _ => true
  | a :: p', b :: s' => (a =? b)%N && startswith p' s'
  | _ :: _, [] => false
  end.

(** [needle in hay] *)
Fixpoint contains (needle hay : str) : bool :=
  startswith needle hay ||
  match hay with
  | [] => false
  | _ :: hay' => contains needle hay'
  end.

(** [s.replace(' ', '_')] *)
Definition replace_space (s : str) : str :=
  map (fun c => if (c =? 32)%N then 95%N else c) s.

(** [str(n)] for an [int]. *)
Definition str_of_int (z : Z) : str :=
  lit (NilZero.string_of_int (Z.to_int z)).

(** Truth value of a [str]. *)
Definition nonempty (s : str) : bool :=
  match s with [] => false | _ :: _ => true end.

(** Truth value of [os.environ.get(..)]: [None] and [""] are false. *)
Definition truthy (o : option str) : bool :=
  match o with Some s => nonempty s | None => false end.

(** [f"{x}"] for a value that is a [str] or [None]. *)
Definition fmt (o : option str) : str :=
  match o with Some s => s | None => lit "None" end.

(** Exceptions: every one below derives from [Exception]. *)
Inductive exn : Type :=
| StopIteration
| ValueError (msg : str)
| KeyError (key : str)
| LibraryError (what : str).   (* raised inside a client library or a service *)

Inductive result (A : Type) : Type :=
| Ok (a : A)
| Raise (e : exn).
Arguments Ok {A} a.
Arguments Raise {A} e.

(** What reading an attribute of a library object does: [hasattr] is false
    exactly when the read raises [AttributeError]; any other exception
    goes through [hasattr]. *)
Inductive attr (A : Type) : Type :=
| AttrMissing
| AttrRaises (e : exn)
| AttrValue (a : A).
Arguments AttrMissing {A}.
Arguments AttrRaises {A} e.
Arguments AttrValue {A} a.

End Py.
Import Py.

(** ** The ingestion function ([content-generator-function/main.py]) *)

Module Pipeline.

(** The seven values read with [os.environ.get] (lines 30-36). *)
Record config : Type := {
  GCP_PROJECT_ID : option str;
  GCP_REGION : option str;
  BQ_DATASET : option str;
  BQ_TABLE : option str;
  FAILED_BUCKET_NAME : option str;
  PRODUCT_IMAGES_BUCKET_NAME : option str;
  GOOGLE_API_KEY : option str
}.

(** [cloud_event.data], read at the keys ["bucket"] and ["name"]; [None]
    is an absent key, whose subscript raises [KeyError]. *)
Record event_data : Type := {
  data_bucket : option str;
  data_name : option str
}.

(** A [datetime] as the function uses it: [int(d.timestamp())] and
    [d.isoformat()]. *)
Record datetime : Type := {
  timestamp_int : Z;
  isoformat : str
}.

(** A part of a generative response.  [inline_data] is a protobuf message
    field: read on a part that does not set it, it is the empty message,
    whose [data] is [b""]. *)
Inductive part : Type :=
| PartText (text : str)
| PartInlineData (mime_type : str) (data : bytes).

Definition inline_data_data (p : part) : bytes :=
  match p with
  | PartInlineData _ d => d
  | PartText _ => []
  end.

(** Does the part carry inline binary data? *)
Definition carries_image (p : part) : bool :=
  match p with
  | PartInlineData _ (_ :: _) => true
  | _ => false
  end.

(** The text model's response: [.text] is a property that may raise. *)
Record text_response : Type := { resp_text : result str }.

(** The image model's response, read at [.parts]. *)
Record image_response : Type := { resp_parts : attr (list part) }.

(** The dict appended to [rows_to_insert] (lines 146-153). *)
Record GeneratedRecord : Type := {
  product_name : str;
  keywords : str;
  generated_content : str;
  generated_image_url : str;
  source_file : str;
  processed_at : str
}.

Inductive level : Type := INFO | WARNING | ERROR.

(** The logging calls, one constructor per call site. *)
Inductive log_msg : Type :=
| MsgStarted                                          (* line 18 *)
| MsgMissingApiKey                                    (* line 39 *)
| MsgTriggered (bucket name : str)                    (* line 55 *)
| MsgFailedBucketUnset                                (* line 60 *)
| MsgMoved (name failed_bucket dest_name : str)       (* line 70 *)
| MsgMoveFailed (name : str) (e : exn)                (* line 72 *)
| MsgSkippingMalformed (lineno : nat) (name : str) (row : list str)
                                                      (* line 89 *)
| MsgTextFailed (product : str) (e : exn)             (* line 107 *)
| MsgImageFailed (product : str) (e : exn)            (* line 141 *)
| MsgNoValidRows (name : str)                         (* line 156 *)
| MsgCritical (name : str) (e : exn)                  (* line 159 *)
| MsgInserted (n : nat)                               (* line 169 *)
| MsgInsertErrors (errors : list str)                 (* line 171 *)
| MsgInsertFailed (e : exn)                           (* line 173 *)
| MsgFatal (e : exn).                                 (* line 176 *)

(** What an invocation does to the outside, in order. *)
Inductive event : Type :=
| ELog (lvl : level) (msg : log_msg)
| EDownload (bucket name : str)
| ETextCall (prompt : str)
| EImageCall (prompt : str)
| EUpload (bucket : option str) (blob_name : str) (data : bytes)
          (content_type : str)
| ECopy (src_bucket name dst_bucket new_name : str)
| EDelete (bucket name : str)
| EInsert (table_id : str) (rows : list GeneratedRecord).

(** The value the entry point returns: [None] at the two bare [return]s,
    ["OK"] at the end. *)
Inductive retval : Type := RetNone | RetOK.

(** The outside world.  [W] is its state; a call may change it and may
    raise.  [csv_reader] is [csv.reader] over the whole text: the rows it
    yields, then either the end of the input ([None]) or the exception the
    iteration raises after them.  [bucket] is [storage_client.bucket(name)]:
    it makes no request, but the library checks the name and may raise.
    [str_lower] is [str.lower] and [public_url] the blob property of that
    name; both are pure. *)
Record Services (W : Type) : Type := {
  lazy_imports : W -> result unit * W;                    (* lines 22-27 *)
  init_clients : str -> W -> result unit * W;             (* lines 43-49 *)
  bucket : option str -> result unit;             (* lines 63, 64, 77, 131 *)
  download_as_text : str -> str -> W -> result str * W;   (* line 79 *)
  csv_reader : str -> list (list str) * option exn;       (* line 81 *)
  generate_text : str -> W -> result text_response * W;   (* line 104 *)
  generate_image : str -> W -> result image_response * W; (* line 114 *)
  utcnow : W -> datetime * W;                             (* lines 129, 152 *)
  upload_from_file :
    option str -> str -> bytes -> str -> W -> result unit * W; (* line 133 *)
  public_url : option str -> str -> str;                  (* line 135 *)
  copy_blob : str -> str -> str -> str -> W -> result str * W; (* line 68 *)
  delete_blob : str -> str -> W -> result unit * W;       (* line 69 *)
  insert_rows_json :
    str -> list GeneratedRecord -> W -> result (list str) * W; (* line 167 *)
  str_lower : str -> str
}.

(** The three marker strings and the failure text. *)
Definition text_failed : str := lit "Error: Text generation failed.".
Definition no_image : str := lit "Error: No image returned.".
Definition image_failed : str := lit "Error: Image generation failed.".
Definition skipped : str := lit "Skipped: Text generation failed.".

Section Handler.

Variable W : Type.
Variable svc : Services W.
Variable cfg : config.

(** A computation: from a world to the events it caused, the world after,
    and a value or a raised exception. *)
Definition M (A : Type) : Type := W -> list event * W * result A.

Definition ret {A} (a : A) : M A := fun w => ([], w, Ok a).

Definition raise {A} (e : exn) : M A := fun w => ([], w, Raise e).

Definition bind {A B} (m : M A) (k : A -> M B) : M B :=
  fun w =>
    match m w with
    | (t, w', Ok a) => let '(t', w'', r) := k a w' in (t ++ t', w'', r)
    | (t, w', Raise e) => (t, w', Raise e)
    end.

(** [try: m except Exception as e: h e] *)
Definition try_except {A} (m : M A) (h : exn -> M A) : M A :=
  fun w =>
    match m w with
    | (t, w', Ok a) => (t, w', Ok a)
    | (t, w', Raise e) => let '(t', w'', r) := h e w' in (t ++ t', w'', r)
    end.

(** A call to the outside, written to the trace before it is made. *)
Definition call {A} (ev : event) (f : W -> result A * W) : M A :=
  fun w => let (r, w') := f w in ([ev], w', r).

(** A call that leaves no event. *)
Definition quiet {A} (f : W -> result A * W) : M A :=
  fun w => let (r, w') := f w in ([], w', r).

Definition log (lvl : level) (msg : log_msg) : M unit :=
  fun w => ([ELog lvl msg], w, Ok tt).

Definition now : M datetime :=
  fun w => let (d, w') := utcnow svc w in ([], w', Ok d).

Definition of_result {A} (r : result A) : M A :=
  match r with Ok a => ret a | Raise e => raise e end.

Local Notation "x <- m ;; k" := (bind m (fun x => k))
  (at level 61, m at next level, right associativity).
Local Notation "m ;;; k" := (bind m (fun _ => k))
  (at level 61, right associativity).

(** [move_to_failed_bucket] (lines 57-72). *)
Definition move_to_failed_bucket (bucket_name file_name : str) : M unit :=
  match FAILED_BUCKET_NAME cfg with
  | Some ((_ :: _) as failed) =>
      of_result (bucket svc (Some bucket_name)) ;;;
      of_result (bucket svc (Some failed)) ;;;
      try_except
        (dest <- call (ECopy bucket_name file_name failed file_name)
                      (copy_blob svc bucket_name file_name failed file_name) ;;
         call (EDelete bucket_name file_name)
              (delete_blob svc bucket_name file_name) ;;;
         log INFO (MsgMoved file_name failed dest))
        (fun e => log ERROR (MsgMoveFailed file_name e))
  | _ => log ERROR MsgFailedBucketUnset
  end.

(** The two prompts (lines 103 and 113), the object name (line 129), the
    source locator (line 151), the table id (line 166) and the message of
    the [ValueError] of line 85. *)
Definition text_prompt (product_name keywords : str) : str :=
  lit "Write a short, exciting marketing description for a product named '"
  ++ product_name ++ lit "' that is '" ++ keywords
  ++ lit "'. The description should be one paragraph.".

Definition image_prompt (product_name generated_text : str) : str :=
  lit "A professional, high-resolution marketing photo, studio lighting, of: "
  ++ product_name ++ lit ", " ++ firstn 100 generated_text.

Definition image_blob_name (product_name : str) (d : datetime) : str :=
  str_lower svc (replace_space product_name)
  ++ lit "_" ++ str_of_int (timestamp_int d) ++ lit ".png".

Definition source_locator (bucket_name file_name : str) : str :=
  lit "gs://" ++ bucket_name ++ lit "/" ++ file_name.

Definition table_id : str :=
  fmt (GCP_PROJECT_ID cfg) ++ lit "." ++ fmt (BQ_DATASET cfg)
  ++ lit "." ++ fmt (BQ_TABLE cfg).

Definition no_header (file_name : str) : exn :=
  ValueError (lit "CSV file '" ++ file_name
              ++ lit "' is empty or has no header.").

(** The test of line 111. *)
Definition text_ok (generated_text : str) : bool :=
  nonempty generated_text && negb (contains (lit "Error:") generated_text).

(** The text step (lines 102-108). *)
Definition text_step (product_name keywords : str) : M str :=
  try_except
    (text_response <- call (ETextCall (text_prompt product_name keywords))
                           (generate_text svc
                              (text_prompt product_name keywords)) ;;
     text <- of_result (resp_text text_response) ;;
     ret (strip text))
    (fun e => log ERROR (MsgTextFailed product_name e) ;;; ret text_failed).

(** The body of the [try] of the image step (lines 113-137). *)
Definition image_attempt (product_name generated_text : str) : M str :=
  image_response <- call (EImageCall (image_prompt product_name generated_text))
                         (generate_image svc
                            (image_prompt product_name generated_text)) ;;
  match resp_parts image_response with
  | AttrMissing => ret no_image
  | AttrRaises e => raise e
  | AttrValue [] => ret no_image
  | AttrValue (first :: _) =>
      let image_bytes := inline_data_data first in
      d <- now ;;
      let name := image_blob_name product_name d in
      of_result (bucket svc (PRODUCT_IMAGES_BUCKET_NAME cfg)) ;;;
      call (EUpload (PRODUCT_IMAGES_BUCKET_NAME cfg) name image_bytes
                    (lit "image/png"))
           (upload_from_file svc (PRODUCT_IMAGES_BUCKET_NAME cfg) name
                             image_bytes (lit "image/png")) ;;;
      ret (public_url svc (PRODUCT_IMAGES_BUCKET_NAME cfg) name)
  end.

(** The image step (lines 111-144). *)
Definition image_step (product_name generated_text : str) : M str :=
  if text_ok generated_text then
    try_except
      (image_attempt product_name generated_text)
      (fun e => log ERROR (MsgImageFailed product_name e) ;;; ret image_failed)
  else ret skipped.

(** A field of a data row, trimmed (lines 92-93). *)
Definition field (n : nat) (row : list str) : str := strip (nth n row []).

(** One turn of the loop (lines 88-153): [None] at a [continue], the
    appended dict otherwise. *)
Definition process_row (bucket_name file_name : str) (i : nat)
    (row : list str) : M (option GeneratedRecord) :=
  if List.length row <? 2 then
    log WARNING (MsgSkippingMalformed (i + 2) file_name row) ;;; ret None
  else
    let product_name := field 0 row in
    let keywords := field 1 row in
    if negb (nonempty product_name) && negb (nonempty keywords) then ret None
    else
      generated_text <- text_step product_name keywords ;;
      generated_image_url <- image_step product_name generated_text ;;
      d <- now ;;
      ret (Some {| product_name := product_name;
                   keywords := keywords;
                   generated_content := generated_text;
                   generated_image_url := generated_image_url;
                   source_file := source_locator bucket_name file_name;
                   processed_at := isoformat d |}).

(** The loop of line 87 over the rows the reader yields, [i] being the
    index [enumerate] gives and [rows_to_insert] the list built so far. *)
Fixpoint process_rows (bucket_name file_name : str) (i : nat)
    (rows : list (list str)) (rows_to_insert : list GeneratedRecord)
    : M (list GeneratedRecord) :=
  match rows with
  | [] => ret rows_to_insert
  | row :: rest =>
      r <- process_row bucket_name file_name i row ;;
      process_rows bucket_name file_name (S i) rest
        (match r with
         | Some rec => rows_to_insert ++ [rec]
         | None => rows_to_insert
         end)
  end.

(** The [try] body of step 7 (lines 77-156). *)
Definition process_file (bucket_name file_name : str)
    : M (list GeneratedRecord) :=
  of_result (bucket svc (Some bucket_name)) ;;;
  csv_content <- call (EDownload bucket_name file_name)
                      (download_as_text svc bucket_name file_name) ;;
  match csv_reader svc csv_content with
  | ([], None) => raise (no_header file_name)
  | ([], Some e) => raise e
  | (_header :: data, stop) =>
      rows_to_insert <- process_rows bucket_name file_name 0 data [] ;;
      match stop with Some e => raise e | None => ret tt end ;;;
      match rows_to_insert with
      | [] => log WARNING (MsgNoValidRows file_name)
      | _ :: _ => ret tt
      end ;;;
      ret rows_to_insert
  end.

(** Step 8 (lines 164-173). *)
Definition save_to_bigquery (rows_to_insert : list GeneratedRecord) : M unit :=
  match rows_to_insert with
  | [] => ret tt
  | _ :: _ =>
      try_except
        (errors <- call (EInsert table_id rows_to_insert)
                        (insert_rows_json svc table_id rows_to_insert) ;;
         match errors with
         | [] => log INFO (MsgInserted (List.length rows_to_insert))
         | _ :: _ => log ERROR (MsgInsertErrors errors)
         end)
        (fun e => log ERROR (MsgInsertFailed e))
  end.

(** [data[key]] *)
Definition subscript (key : string) (v : option str) : M str :=
  match v with Some s => ret s | None => raise (KeyError (lit key)) end.

(** The body of the outer [try] (lines 22-173). *)
Definition handler_body (data : event_data) : M retval :=
  quiet (lazy_imports svc) ;;;
  match GOOGLE_API_KEY cfg with
  | Some ((_ :: _) as key) =>
      quiet (init_clients svc key) ;;;
      bucket_name <- subscript "bucket" (data_bucket data) ;;
      file_name <- subscript "name" (data_name data) ;;
      log INFO (MsgTriggered bucket_name file_name) ;;;
      r <- try_except
             (rows <- process_file bucket_name file_name ;; ret (Some rows))
             (fun e =>
                log ERROR (MsgCritical file_name e) ;;;
                move_to_failed_bucket bucket_name file_name ;;;
                ret None) ;;
      match r with
      | None => ret RetNone
      | Some rows_to_insert =>
          save_to_bigquery rows_to_insert ;;; ret RetOK
      end
  | _ => log ERROR MsgMissingApiKey ;;; ret RetNone
  end.

(** The entry point (lines 11-178). *)
Definition process_csv_and_generate_content (data : event_data) : M retval :=
  log INFO MsgStarted ;;;
  try_except (handler_body data)
             (fun e => log ERROR (MsgFatal e) ;;; ret RetOK).

End Handler.

(** What the trace of an invocation holds. *)
Definition is_log (ev : event) : bool :=
  match ev with ELog _ _ => true | _ => false end.
Definition is_download (ev : event) : bool :=
  match ev with EDownload _ _ => true | _ => false end.
Definition is_text_call (ev : event) : bool :=
  match ev with ETextCall _ => true | _ => false end.
Definition is_image_call (ev : event) : bool :=
  match ev with EImageCall _ => true | _ => false end.
Definition is_upload (ev : event) : bool :=
  match ev with EUpload _ _ _ _ => true | _ => false end.
Definition is_copy (ev : event) : bool :=
  match ev with ECopy _ _ _ _ => true | _ => false end.
Definition is_delete (ev : event) : bool :=
  match ev with EDelete _ _ => true | _ => false end.
Definition is_insert (ev : event) : bool :=
  match ev with EInsert _ _ => true | _ => false end.

Definition count (p : event -> bool) (t : list event) : nat :=
  List.length (filter p t).

(** The components of what a computation returns. *)
Definition trace_of {W A} (x : list event * W * result A) : list event :=
  fst (fst x).
Definition world_of {W A} (x : list event * W * result A) : W :=
  snd (fst x).
Definition result_of {W A} (x : list event * W * result A) : result A :=
  snd x.

(** *** What the properties speak of *)

Section Vocabulary.

Variable W : Type.
Variable svc : Services W.
Variable cfg : config.

(** Every event a computation causes satisfies [P], from any world. *)
Definition everywhere {A} (P : event -> Prop) (m : M W A) : Prop :=
  forall w, Forall P (trace_of (m w)).

(** A computation that returns, from any world. *)
Definition returns {A} (m : M W A) : Prop :=
  forall w, exists a, result_of (m w) = Ok a.

(** A data row that yields a record, as the design words it: at least
    two fields, and the first or the second not empty once trimmed. *)
Definition emits_record (row : list str) : bool :=
  (2 <=? List.length row)
  && (nonempty (strip (nth 0 row [])) || nonempty (strip (nth 1 row []))).

(** The key of a record and of the row it comes from. *)
Definition record_key (r : GeneratedRecord) : str * str :=
  (product_name r, keywords r).
Definition row_key (row : list str) : str * str :=
  (strip (nth 0 row []), strip (nth 1 row [])).

(** An upload of the image of the product [pn]: to the images container,
    as [image/png], under the product name with spaces replaced by
    underscores, lowercased, then an underscore, an integer in decimal
    and [.png]. *)
Definition upload_named (pn : str) (ev : event) : Prop :=
  match ev with
  | EUpload bucket name _ content_type =>
      bucket = PRODUCT_IMAGES_BUCKET_NAME cfg /\
      content_type = lit "image/png" /\
      exists ts : Z,
        name = str_lower svc (replace_space pn) ++ lit "_"
               ++ str_of_int ts ++ lit ".png"
  | _ => True
  end.

(** The events a turn of the loop on the product [pn] can cause. *)
Definition row_event (pn : str) (ev : event) : Prop :=
  match ev with
  | ELog _ _ | ETextCall _ | EImageCall _ => True
  | EUpload _ _ _ _ => upload_named pn ev
  | _ => False
  end.

End Vocabulary.

End Pipeline.

(** ** The viewer ([frontend-app/app.py]) *)

Module Gallery.

(** Modelled from the spec: the warehouse table's schema is not in the
    repository.  Section 6 gives its columns: [product_name], [keywords]
    and [generated_content] are strings; [generated_image_url] is the one
    column the query tests for NULL, so it is optional here;
    [processed_at] is a timestamp, kept as the instant it denotes. *)
Record table_row : Type := {
  product_name : str;
  keywords : str;
  generated_content : str;
  generated_image_url : option str;
  processed_at : Z
}.

(** A row of the result: the four selected columns (line 23). *)
Record result_row : Type := {
  r_product_name : str;
  r_keywords : str;
  r_generated_content : str;
  r_generated_image_url : option str
}.

Definition select (r : table_row) : result_row :=
  {| r_product_name := product_name r;
     r_keywords := keywords r;
     r_generated_content := generated_content r;
     r_generated_image_url := generated_image_url r |}.

(** [WHERE generated_image_url IS NOT NULL
      AND generated_image_url NOT LIKE 'Error%'] (lines 25-26). *)
Definition where_clause (r : table_row) : bool :=
  match generated_image_url r with
  | None => false
  | Some url => negb (startswith (lit "Error") url)
  end.

(** [ORDER BY processed_at DESC] (line 27), by insertion; rows of equal
    [processed_at] keep their order in the table. *)
Fixpoint insert_desc (r : table_row) (l : list table_row) : list table_row :=
  match l with
  | [] => [r]
  | x :: l' =>
      if (processed_at x <? processed_at r)%Z then r :: l
      else x :: insert_desc r l'
  end.

Definition order_by_processed_at_desc (l : list table_row) : list table_row :=
  fold_right insert_desc [] l.

(** [r1] is at least as recent as [r2]. *)
Definition desc (r1 r2 : table_row) : Prop :=
  (processed_at r2 <= processed_at r1)%Z.

(** The rows the query keeps, before the projection: filter, order,
    [LIMIT 20] (lines 24-28). *)
Definition selected (table : list table_row) : list table_row :=
  firstn 20 (order_by_processed_at_desc (filter where_clause table)).

(** The query of lines 22-29. *)
Definition query (table : list table_row) : list result_row :=
  map select (selected table).

(** The Streamlit calls of one card (lines 38-45); [WriteText] is made inside
    the expander that the call before it opens. *)
Inductive st_call : Type :=
| Subheader (text : str)                   (* line 38 *)
| Image (url : str)                        (* line 40 *)
| Markdown (text : str)                    (* line 42 *)
| Expander (label : str)                   (* line 43 *)
| WriteText (body : str)                   (* line 44 *)
| Divider.                                 (* line 45 *)

(** The calls the body of the loop makes for one row, in order. *)
Definition card (row : result_row) : list st_call :=
  [Subheader (r_product_name row)]
  ++ match r_generated_image_url row with
     | Some ((_ :: _) as url) => [Image url]
     | _ => []
     end
  ++ [Markdown (lit "**Keywords:** " ++ r_keywords row);
      Expander (lit "Read Marketing Copy");
      WriteText (r_generated_content row);
      Divider].

(** [enumerate(results)] *)
Fixpoint enumerate {A} (i : nat) (l : list A) : list (nat * A) :=
  match l with
  | [] => []
  | a :: l' => (i, a) :: enumerate (S i) l'
  end.

(** Lines 34-45: the column each row goes to, [cols[i % 3]]. *)
Definition placements (results : list result_row) : list (nat * result_row) :=
  map (fun ir => (fst ir mod 3, snd ir)) (enumerate 0 results).

(** The three values read with [os.environ.get] (lines 6-8). *)
Record config : Type := {
  PROJECT_ID : option str;
  DATASET_ID : option str;
  TABLE_ID : option str
}.

(** What a run of the script does, in order. *)
Inductive ui : Type :=
| PageHeader (table : str)                 (* lines 10-13 *)
| ErrorPanel                               (* lines 16 and 48 *)
| RunQuery (table : str)                   (* line 31 *)
| Columns (n : nat)                        (* line 34 *)
| InColumn (col : nat) (c : st_call).      (* lines 37-45 *)

(** The Streamlit library as the [try] of line 18 meets it: whether a
    call returns ([true]) or raises, after what the run has done so far.
    The calls outside the [try] (lines 10-16 and 48) have no handler in
    the script; they are taken to return. *)
Definition streamlit : Type := list ui -> ui -> bool.

(** Calls made one after the other, [done] being what the run has done
    so far: a call that returns is added to it, the first that raises
    ends them.  The boolean tells whether every call returned. *)
Fixpoint draw (st : streamlit) (done calls : list ui) : list ui * bool :=
  match calls with
  | [] => (done, true)
  | c :: rest =>
      if st done c then draw st (done ++ [c]) rest else (done, false)
  end.

(** The loop of lines 36-45 over the rows and their columns: the card of
    a row is drawn after the cards of the rows before it, and an
    exception leaves the loop. *)
Fixpoint render (st : streamlit) (done : list ui)
    (placed : list (nat * result_row)) : list ui * bool :=
  match placed with
  | [] => (done, true)
  | (col, row) :: rest =>
      match draw st done (map (InColumn col) (card row)) with
      | (done', true) => render st done' rest
      | (done', false) => (done', false)
      end
  end.

Definition table_name (cfg : config) : str :=
  fmt (PROJECT_ID cfg) ++ lit "." ++ fmt (DATASET_ID cfg)
  ++ lit "." ++ fmt (TABLE_ID cfg).

(** What the warehouse does in a run: creating the client raises
    (line 19), the query raises (lines 31-32), or the query runs over the
    table and its result, of 20 rows at most, is read to its end. *)
Inductive warehouse : Type :=
| ClientRaises
| QueryRaises
| Table (rows : list table_row).

(** The script (lines 10-48).  An exception raised inside the [try], by
    the client, the query or a Streamlit call, is caught at line 47 and
    shown as an error panel below what is already drawn. *)
Definition app (st : streamlit) (cfg : config) (wh : warehouse) : list ui :=
  let header := [PageHeader (table_name cfg)] in
  if negb (truthy (PROJECT_ID cfg)) || negb (truthy (DATASET_ID cfg))
     || negb (truthy (TABLE_ID cfg))
  then header ++ [ErrorPanel]
  else
    match wh with
    | ClientRaises => header ++ [ErrorPanel]
    | QueryRaises => header ++ [RunQuery (table_name cfg); ErrorPanel]
    | Table table =>
        let queried := header ++ [RunQuery (table_name cfg)] in
        match draw st queried [Columns 3] with
        | (done, true) =>
            match render st done (placements (query table)) with
            | (shown, true) => shown
            | (shown, false) => shown ++ [ErrorPanel]
            end
        | (done, false) => done ++ [ErrorPanel]
        end
    end.

Definition is_query (u : ui) : bool :=
  match u with RunQuery _ => true | _ => false end.

End Gallery.

(** ** Sample worlds

    A world whose answers are fixed in advance, to run the function on
    concrete inputs.  Its state is the clock, in seconds; every reading
    advances it by one. *)

Module Sample.
Import Pipeline.

Record script : Type := {
  imports : result unit;
  clients : result unit;
  download : result str;
  stop : option exn;
  text : str -> result text_response;
  image : str -> result image_response;
  upload : result unit;
  copy : result str;
  delete : result unit;
  insert : result (list str)
}.

(** The check of a bucket name, on ASCII names: absent, or beginning and
    ending with a letter or a digit. *)
Definition ascii_alnum (c : N) : bool :=
  ((48 <=? c) && (c <=? 57) || (65 <=? c) && (c <=? 90)
   || (97 <=? c) && (c <=? 122))%N.

Definition bad_name : exn :=
  ValueError (lit "Bucket names must start and end with a number or letter.").

Definition check_name (name : option str) : result unit :=
  match name with
  | None => Ok tt
  | Some [] => Raise (LibraryError (lit "IndexError"))
  | Some ((c :: _) as n) =>
      if ascii_alnum c && ascii_alnum (last n c) then Ok tt else Raise bad_name
  end.

(** [csv.reader] on a text without quotes and carriage returns: one row
    per line, its fields between the commas, no field for an empty line. *)
Fixpoint split_on (sep : N) (s cur : str) : list str :=
  match s with
  | [] => [rev cur]
  | c :: s' =>
      if (c =? sep)%N then rev cur :: split_on sep s' []
      else split_on sep s' (c :: cur)
  end.

Definition lines (content : str) : list str :=
  let l := split_on 10 content [] in
  match last l [] with
  | [] => removelast l
  | _ :: _ => l
  end.

Definition split_csv (content : str) : list (list str) :=
  map (fun line => match line with
                   | [] => []
                   | _ :: _ => split_on 44 line []
                   end) (lines content).

Definition nl : str := [10%N].

(** [str.lower] on the letters A-Z. *)
Definition ascii_lower (s : str) : str :=
  map (fun c => if ((65 <=? c) && (c <=? 90))%N then (c + 32)%N else c) s.

Definition services (s : script) : Services Z := {|
  lazy_imports := fun w => (imports s, w);
  init_clients := fun _ w => (clients s, w);
  bucket := check_name;
  download_as_text := fun _ _ w => (download s, w);
  csv_reader := fun content => (split_csv content, stop s);
  generate_text := fun prompt w => (text s prompt, w);
  generate_image := fun prompt w => (image s prompt, w);
  utcnow := fun w => ({| timestamp_int := w;
                         isoformat := lit "2023-11-14T22:13:20" |},
                      (w + 1)%Z);
  upload_from_file := fun _ _ _ _ w => (upload s, w);
  public_url := fun b n =>
    lit "https://storage.googleapis.com/" ++ fmt b ++ lit "/" ++ n;
  copy_blob := fun _ _ _ _ w => (copy s, w);
  delete_blob := fun _ _ w => (delete s, w);
  insert_rows_json := fun _ _ w => (insert s, w);
  str_lower := ascii_lower
|}.

(** Everything configured. *)
Definition cfg_full : config := {|
  GCP_PROJECT_ID := Some (lit "proj");
  GCP_REGION := Some (lit "us-central1");
  BQ_DATASET := Some (lit "marketing");
  BQ_TABLE := Some (lit "content");
  FAILED_BUCKET_NAME := Some (lit "failed");
  PRODUCT_IMAGES_BUCKET_NAME := Some (lit "images");
  GOOGLE_API_KEY := Some (lit "key")
|}.

(** The same without a quarantine container. *)
Definition cfg_no_quarantine : config := {|
  GCP_PROJECT_ID := Some (lit "proj");
  GCP_REGION := Some (lit "us-central1");
  BQ_DATASET := Some (lit "marketing");
  BQ_TABLE := Some (lit "content");
  FAILED_BUCKET_NAME := None;
  PRODUCT_IMAGES_BUCKET_NAME := Some (lit "images");
  GOOGLE_API_KEY := Some (lit "key")
|}.

(** The same without an API key. *)
Definition cfg_no_key : config := {|
  GCP_PROJECT_ID := Some (lit "proj");
  GCP_REGION := Some (lit "us-central1");
  BQ_DATASET := Some (lit "marketing");
  BQ_TABLE := Some (lit "content");
  FAILED_BUCKET_NAME := Some (lit "failed");
  PRODUCT_IMAGES_BUCKET_NAME := Some (lit "images");
  GOOGLE_API_KEY := None
|}.

Definition upload_event : event_data := {|
  data_bucket := Some (lit "uploads");
  data_name := Some (lit "products.csv")
|}.

(** A notification that lacks the key "name". *)
Definition nameless_event : event_data := {|
  data_bucket := Some (lit "uploads");
  data_name := None
|}.

Definition png : bytes := [x89; x50; x4e; x47].

(** A world where everything works: the file holds [content], the text
    model answers with a sentence, the image model with one part of
    inline data. *)
Definition happy (content : str) : script := {|
  imports := Ok tt;
  clients := Ok tt;
  download := Ok content;
  stop := None;
  text := fun _ => Ok {| resp_text := Ok (lit " A fine product. ") |};
  image := fun _ =>
    Ok {| resp_parts := AttrValue [PartInlineData (lit "image/png") png] |};
  upload := Ok tt;
  copy := Ok (lit "products.csv");
  delete := Ok tt;
  insert := Ok []
|}.

(** The example of section 8 of the design: a header, one product, one
    row of empty fields. *)
Definition widget_csv : str :=
  lit "name,keywords" ++ nl ++ lit "Widget,durable|blue" ++ nl
  ++ lit ",," ++ nl.

Definition widget_rows : list (list str) :=
  [ [lit "name"; lit "keywords"];
    [lit "Widget"; lit "durable|blue"];
    [lit ""; lit ""; lit ""] ].

(** The image model answers with a sentence first and the picture
    second. *)
Definition text_then_image : script := {|
  imports := Ok tt;
  clients := Ok tt;
  download := Ok widget_csv;
  stop := None;
  text := fun _ => Ok {| resp_text := Ok (lit "A fine product.") |};
  image := fun _ =>
    Ok {| resp_parts :=
            AttrValue [PartText (lit "Here is your image.");
                       PartInlineData (lit "image/png") png] |};
  upload := Ok tt;
  copy := Ok (lit "products.csv");
  delete := Ok tt;
  insert := Ok []
|}.

(** The image model answers with a sentence and no picture. *)
Definition text_only : script := {|
  imports := Ok tt;
  clients := Ok tt;
  download := Ok widget_csv;
  stop := None;
  text := fun _ => Ok {| resp_text := Ok (lit "A fine product.") |};
  image := fun _ =>
    Ok {| resp_parts := AttrValue [PartText (lit "I cannot draw that.")] |};
  upload := Ok tt;
  copy := Ok (lit "products.csv");
  delete := Ok tt;
  insert := Ok []
|}.

(** A header, a row of blank fields and a row of one field. *)
Definition blank_csv : str :=
  lit "name,keywords" ++ nl ++ lit " ,,x" ++ nl ++ lit "lonely" ++ nl.

Definition blank_rows : list (list str) :=
  [ [lit "name"; lit "keywords"];
    [lit " "; lit ""; lit "x"];
    [lit "lonely"] ].

(** The download raises. *)
Definition unreadable : script := {|
  imports := Ok tt;
  clients := Ok tt;
  download := Raise (LibraryError (lit "NotFound"));
  stop := None;
  text := fun _ => Raise (LibraryError (lit "unused"));
  image := fun _ => Raise (LibraryError (lit "unused"));
  upload := Ok tt;
  copy := Ok (lit "products.csv");
  delete := Ok tt;
  insert := Ok []
|}.

(** The download raises, and so does the copy to the quarantine
    container. *)
Definition read_only : script := {|
  imports := Ok tt;
  clients := Ok tt;
  download := Raise (LibraryError (lit "NotFound"));
  stop := None;
  text := fun _ => Raise (LibraryError (lit "unused"));
  image := fun _ => Raise (LibraryError (lit "unused"));
  upload := Ok tt;
  copy := Raise (LibraryError (lit "Forbidden"));
  delete := Ok tt;
  insert := Ok []
|}.

(** The text model raises; everything else works. *)
Definition silent : script := {|
  imports := Ok tt;
  clients := Ok tt;
  download := Ok widget_csv;
  stop := None;
  text := fun _ => Raise (LibraryError (lit "Unavailable"));
  image := fun _ =>
    Ok {| resp_parts := AttrValue [PartInlineData (lit "image/png") png] |};
  upload := Ok tt;
  copy := Ok (lit "products.csv");
  delete := Ok tt;
  insert := Ok []
|}.

(** The text model answers with a sentence that holds "Error:". *)
Definition wordy : script := {|
  imports := Ok tt;
  clients := Ok tt;
  download := Ok widget_csv;
  stop := None;
  text := fun _ =>
    Ok {| resp_text := Ok (lit " Say goodbye to Error: 404 pages. ") |};
  image := fun _ =>
    Ok {| resp_parts := AttrValue [PartInlineData (lit "image/png") png] |};
  upload := Ok tt;
  copy := Ok (lit "products.csv");
  delete := Ok tt;
  insert := Ok []
|}.

(** A warehouse of [n] rows, row [k] processed at instant [k]; every
    fifth row carries the marker of a failed image step. *)
Definition stored_row (k : nat) : Gallery.table_row := {|
  Gallery.product_name := lit "item " ++ str_of_int (Z.of_nat k);
  Gallery.keywords := lit "sturdy";
  Gallery.generated_content := lit "A fine product.";
  Gallery.generated_image_url :=
    Some (if k mod 5 =? 0 then image_failed
          else lit "https://storage.googleapis.com/images/item.png");
  Gallery.processed_at := Z.of_nat k
|}.

Definition stored (n : nat) : list Gallery.table_row :=
  map stored_row (seq 1 n).

(** A row whose text step failed, and a table that holds it. *)
Definition skipped_row : Gallery.table_row := {|
  Gallery.product_name := lit "Widget";
  Gallery.keywords := lit "durable|blue";
  Gallery.generated_content := text_failed;
  Gallery.generated_image_url := Some skipped;
  Gallery.processed_at := 7
|}.

Definition small_table : list Gallery.table_row :=
  [stored_row 3; skipped_row; stored_row 5].

(** Everything works, but the reader raises after the last row. *)
Definition torn : script := {|
  imports := Ok tt;
  clients := Ok tt;
  download := Ok widget_csv;
  stop := Some (LibraryError (lit "csv.Error"));
  text := fun _ => Ok {| resp_text := Ok (lit " A fine product. ") |};
  image := fun _ =>
    Ok {| resp_parts := AttrValue [PartInlineData (lit "image/png") png] |};
  upload := Ok tt;
  copy := Ok (lit "products.csv");
  delete := Ok tt;
  insert := Ok []
|}.

(** The rows of [small_table] in another order. *)
Definition shuffled_table : list Gallery.table_row :=
  [stored_row 5; stored_row 3; skipped_row].

(** A viewer without a table. *)
Definition viewer_without_table : Gallery.config := {|
  Gallery.PROJECT_ID := Some (lit "proj");
  Gallery.DATASET_ID := Some (lit "marketing");
  Gallery.TABLE_ID := None
|}.

(** A viewer with everything configured. *)
Definition viewer : Gallery.config := {|
  Gallery.PROJECT_ID := Some (lit "proj");
  Gallery.DATASET_ID := Some (lit "marketing");
  Gallery.TABLE_ID := Some (lit "content")
|}.

(** A Streamlit that draws what it is given, except that [st.image]
    raises on a string that is not a URL: it takes it for the path of a
    file, and there is no such file. *)
Definition is_url (s : str) : bool :=
  startswith (lit "http://") s || startswith (lit "https://") s.

Definition streamlit : Gallery.streamlit :=
  fun _ call =>
    match call with
    | Gallery.InColumn _ (Gallery.Image url) => is_url url
    | _ => true
    end.

(** A Streamlit that draws whatever it is given. *)
Definition lenient : Gallery.streamlit := fun _ _ => true.

(** An older row whose text step failed, and a table with two such
    rows. *)
Definition older_skipped_row : Gallery.table_row := {|
  Gallery.product_name := lit "Gadget";
  Gallery.keywords := lit "compact";
  Gallery.generated_content := text_failed;
  Gallery.generated_image_url := Some skipped;
  Gallery.processed_at := 2
|}.

Definition two_skips_table : list Gallery.table_row :=
  [older_skipped_row; stored_row 3; skipped_row].

End Sample.

(** ** More of what the properties speak of *)

Module Terms.
Import Pipeline.

(** The events of the row loop: logging, the two models, uploads. *)
Definition row_class (ev : event) : bool :=
  is_log ev || is_text_call ev || is_image_call ev || is_upload ev.

(** A text without white space at either end. *)
Definition trimmed (s : str) : Prop := strip s = s.

(** A warning of line 89. *)
Definition is_malformed_warning (ev : event) : bool :=
  match ev with
  | ELog WARNING (MsgSkippingMalformed _ _ _) => true
  | _ => false
  end.

(** The warnings of line 89 that a run of the loop owes: one for each
    row of fewer than two fields, with the index of the row plus 2. *)
Fixpoint malformed_warnings (file_name : str) (i : nat)
    (rows : list (list str)) : list event :=
  match rows with
  | [] => []
  | row :: rest =>
      (if List.length row <? 2
       then [ELog WARNING (MsgSkippingMalformed (i + 2) file_name row)]
       else [])
      ++ malformed_warnings file_name (S i) rest
  end.

(** What holds of a record made from a row of the file [file_name] of
    the bucket [bucket_name]: it names its source; its two fields and its
    content are trimmed; one of the two fields is not empty; and a
    content that fails the test of line 111 goes with the skip marker. *)
Definition record_ok (bucket_name file_name : str) (rec : GeneratedRecord)
    : Prop :=
  source_file rec = lit "gs://" ++ bucket_name ++ lit "/" ++ file_name /\
  trimmed (product_name rec) /\ trimmed (keywords rec) /\
  trimmed (generated_content rec) /\
  (product_name rec <> [] \/ keywords rec <> []) /\
  (text_ok (generated_content rec) = false ->
   generated_image_url rec = skipped).

(** The rows the grid shows in column [c], from the top. *)
Definition column (c : nat) (results : list Gallery.result_row)
    : list Gallery.result_row :=
  map snd (filter (fun p => fst p =? c) (Gallery.placements results)).

(** The calls the loop makes for rows placed in columns when each call
    returns: the card of each row in its column, row after row. *)
Definition cards (placed : list (nat * Gallery.result_row))
    : list Gallery.ui :=
  flat_map (fun cr => map (Gallery.InColumn (fst cr)) (Gallery.card (snd cr)))
           placed.

(** A warehouse row the gallery is meant to show: its image URL is not
    NULL and does not begin with "Error". *)
Definition qualifies (r : Gallery.table_row) : Prop :=
  exists url,
    Gallery.generated_image_url r = Some url /\
    ~ exists rest, url = lit "Error" ++ rest.

(** A row of the result that shows the four columns of a warehouse
    row. *)
Definition shows (row : Gallery.result_row) (r : Gallery.table_row) : Prop :=
  Gallery.r_product_name row = Gallery.product_name r /\
  Gallery.r_keywords row = Gallery.keywords r /\
  Gallery.r_generated_content row = Gallery.generated_content r /\
  Gallery.r_generated_image_url row = Gallery.generated_image_url r.

(** The card of a row in the column [col], as the design describes it:
    the subject name, the image when the row has a URL, the keyword
    list, the panel that unfolds to the full text, and a divider. *)
Definition card_in (col : nat) (row : Gallery.result_row)
    : list Gallery.ui :=
  Gallery.InColumn col (Gallery.Subheader (Gallery.r_product_name row))
  :: match Gallery.r_generated_image_url row with
     | Some (c :: url) => [Gallery.InColumn col (Gallery.Image (c :: url))]
     | Some [] | None => []
     end
  ++ [Gallery.InColumn col
        (Gallery.Markdown (lit "**Keywords:** " ++ Gallery.r_keywords row));
      Gallery.InColumn col (Gallery.Expander (lit "Read Marketing Copy"));
      Gallery.InColumn col
        (Gallery.WriteText (Gallery.r_generated_content row));
      Gallery.InColumn col Gallery.Divider].

(** The cards of the rows of a result from the index [i] on, the row at
    index [i] in column [i mod 3]. *)
Fixpoint grid_from (i : nat) (results : list Gallery.result_row)
    : list Gallery.ui :=
  match results with
  | [] => []
  | row :: rest => card_in (i mod 3) row ++ grid_from (S i) rest
  end.

(** The whole grid of a result: the three columns, then the card of
    every row, the row at index [i] in column [i mod 3]. *)
Definition grid (results : list Gallery.result_row) : list Gallery.ui :=
  Gallery.Columns 3 :: grid_from 0 results.

(** Each of [calls] returns when they are made in turn after [done]. *)
Definition all_return (st : Gallery.streamlit) (done calls : list Gallery.ui)
    : Prop :=
  forall pre c post, calls = pre ++ c :: post -> st (done ++ pre) c = true.

(** What a run has done when the grid begins: the header and the
    query. *)
Definition queried (cfg : Gallery.config) : list Gallery.ui :=
  [Gallery.PageHeader (fmt (Gallery.PROJECT_ID cfg) ++ lit "."
                       ++ fmt (Gallery.DATASET_ID cfg) ++ lit "."
                       ++ fmt (Gallery.TABLE_ID cfg));
   Gallery.RunQuery (fmt (Gallery.PROJECT_ID cfg) ++ lit "."
                     ++ fmt (Gallery.DATASET_ID cfg) ++ lit "."
                     ++ fmt (Gallery.TABLE_ID cfg))].

(** A call of the row loop that works for the outside: a model call or
    an upload. *)
Definition is_row_work (ev : event) : bool :=
  is_text_call ev || is_image_call ev || is_upload ev.

(** An upload of a product image whose name is stamped by the clock: to
    the images container, as [image/png], under a product name with
    spaces replaced by underscores, lowercased, then an underscore, the
    integer timestamp of a clock reading taken in the world the
    image-model call for that product had just left, and [.png]. *)
Definition upload_stamped {W} (svc : Services W) (cfg : config) (ev : event)
    : Prop :=
  match ev with
  | EUpload bucket name _ content_type =>
      bucket = PRODUCT_IMAGES_BUCKET_NAME cfg /\
      content_type = lit "image/png" /\
      exists product text w1 response w2 d w3,
        generate_image svc (image_prompt product text) w1
        = (Ok response, w2) /\
        utcnow svc w2 = (d, w3) /\
        name = str_lower svc (replace_space product) ++ lit "_"
               ++ str_of_int (timestamp_int d) ++ lit ".png"
  | _ => True
  end.

End Terms.
Import Terms.

(** ** Properties *)

Import Pipeline.

(** *** Computations and their traces *)

Section Facts.

Variable W : Type.
Variable svc : Services W.
Variable cfg : config.

Lemma everywhere_ret A P (a : A) : everywhere P (@ret W A a).
Proof. intros w; constructor. Qed.

Lemma everywhere_raise A P e : everywhere P (@raise W A e).
Proof. intros w; constructor. Qed.

Lemma everywhere_bind A B P (m : M W A) (k : A -> M W B) :
  everywhere P m -> (forall a, everywhere P (k a)) -> everywhere P (bind m k).
Proof.
  intros Hm Hk w. specialize (Hm w). unfold bind, trace_of in *.
  destruct (m w) as [[t w'] [a|e]]; simpl in *; auto.
  specialize (Hk a w'). destruct (k a w') as [[t' w''] r]; simpl in *.
  apply Forall_app; auto.
Qed.

Lemma everywhere_try A P (m : M W A) (h : exn -> M W A) :
  everywhere P m -> (forall e, everywhere P (h e)) ->
  everywhere P (try_except m h).
Proof.
  intros Hm Hh w. specialize (Hm w). unfold try_except, trace_of in *.
  destruct (m w) as [[t w'] [a|e]]; simpl in *; auto.
  specialize (Hh e w'). destruct (h e w') as [[t' w''] r]; simpl in *.
  apply Forall_app; auto.
Qed.

Lemma everywhere_call A P ev (f : W -> result A * W) :
  P ev -> everywhere P (call ev f).
Proof.
  intros H w. unfold call, trace_of. destruct (f w); simpl. auto.
Qed.

Lemma everywhere_quiet A P (f : W -> result A * W) : everywhere P (quiet f).
Proof.
  intros w. unfold quiet, trace_of. destruct (f w); simpl. constructor.
Qed.

Lemma everywhere_log P lvl msg :
  P (ELog lvl msg) -> everywhere P (@log W lvl msg).
Proof. intros H w. unfold log, trace_of; simpl. auto. Qed.

Lemma everywhere_now P : everywhere P (now svc).
Proof.
  intros w. unfold now, trace_of. destruct (utcnow svc w); simpl. constructor.
Qed.

Lemma everywhere_of_result A P (r : result A) : everywhere P (@of_result W A r).
Proof. destruct r; [apply everywhere_ret | apply everywhere_raise]. Qed.

Lemma returns_ret A (a : A) : returns (@ret W A a).
Proof. intros w; eexists; reflexivity. Qed.

Lemma returns_bind A B (m : M W A) (k : A -> M W B) :
  returns m -> (forall a, returns (k a)) -> returns (bind m k).
Proof.
  intros Hm Hk w. destruct (Hm w) as [a Ha]. unfold bind, result_of in *.
  destruct (m w) as [[t w'] r]; simpl in *; subst r.
  destruct (Hk a w') as [b Hb]. unfold result_of in Hb.
  destruct (k a w') as [[t' w''] r]; simpl in *. eauto.
Qed.

Lemma returns_try A (m : M W A) (h : exn -> M W A) :
  (forall e, returns (h e)) -> returns (try_except m h).
Proof.
  intros Hh w. unfold try_except, result_of.
  destruct (m w) as [[t w'] [a|e]]; simpl; eauto.
  destruct (Hh e w') as [b Hb]. unfold result_of in Hb.
  destruct (h e w') as [[t' w''] r]; simpl in *. eauto.
Qed.

Lemma returns_log lvl msg : returns (@log W lvl msg).
Proof. intros w; eexists; reflexivity. Qed.

Lemma returns_now : returns (now svc).
Proof.
  intros w. unfold now, result_of. destruct (utcnow svc w); simpl; eauto.
Qed.

Lemma count_app p t1 t2 : count p (t1 ++ t2) = count p t1 + count p t2.
Proof. unfold count. rewrite filter_app, length_app. reflexivity. Qed.

Lemma count_zero p t :
  Forall (fun ev => p ev = false) t -> count p t = 0.
Proof.
  unfold count. induction 1 as [|ev t H _ IH]; simpl; auto.
  rewrite H. exact IH.
Qed.

(** *** The steps of a row *)

Lemma text_step_returns pn kw : returns (text_step svc pn kw).
Proof.
  unfold text_step. apply returns_try. intros e.
  apply returns_bind; [apply returns_log | intros; apply returns_ret].
Qed.

Lemma image_step_returns pn txt : returns (image_step svc cfg pn txt).
Proof.
  unfold image_step. destruct (text_ok txt); [|apply returns_ret].
  apply returns_try. intros e.
  apply returns_bind; [apply returns_log | intros; apply returns_ret].
Qed.

Lemma process_row_returns b f i row : returns (process_row svc cfg b f i row).
Proof.
  unfold process_row. destruct (List.length row <? 2).
  - apply returns_bind; [apply returns_log | intros; apply returns_ret].
  - destruct (negb _ && negb _); [apply returns_ret|].
    apply returns_bind; [apply text_step_returns | intros txt].
    apply returns_bind; [apply image_step_returns | intros url].
    apply returns_bind; [apply returns_now | intros d; apply returns_ret].
Qed.

Lemma process_rows_returns b f rows : forall i acc,
  returns (process_rows svc cfg b f i rows acc).
Proof.
  induction rows as [|row rest IH]; intros i acc; simpl.
  - apply returns_ret.
  - apply returns_bind; [apply process_row_returns | intros r; apply IH].
Qed.

End Facts.

(** Walks a computation, leaving to [tac] what is asked of each event. *)
Ltac walk tac :=
  repeat first
    [ match goal with |- forall _, _ => intro end
    | match goal with |- everywhere _ (if ?c then _ else _) => destruct c end
    | match goal with |- everywhere _ (match ?c with _ => _ end) =>
        destruct c end
    | apply everywhere_ret | apply everywhere_raise | apply everywhere_now
    | apply everywhere_of_result | apply everywhere_quiet
    | apply everywhere_log; tac | apply everywhere_call; tac
    | apply everywhere_bind | apply everywhere_try ].

(** *** Rows and records *)

Section Rows.

Variable W : Type.
Variable svc : Services W.
Variable cfg : config.

Lemma returns_run A (m : M W A) :
  returns m -> forall w, exists t w' a, m w = (t, w', Ok a).
Proof.
  intros H w. destruct (H w) as [a Ha]. unfold result_of in Ha.
  destruct (m w) as [[t w'] r]; simpl in Ha; subst r. eauto.
Qed.

(** One turn of the loop returns a record exactly for the rows that
    [emits_record] keeps, and the record carries the two trimmed fields. *)
Lemma process_row_record b f i row w :
  exists t w' r,
    process_row svc cfg b f i row w = (t, w', Ok r) /\
    match r with
    | Some rec => emits_record row = true /\ record_key rec = row_key row
    | None => emits_record row = false
    end.
Proof.
  unfold process_row, emits_record.
  change (strip (nth 0 row [])) with (field 0 row).
  change (strip (nth 1 row [])) with (field 1 row).
  destruct (List.length row <? 2) eqn:Hlen.
  - apply Nat.ltb_lt in Hlen.
    assert (Hle : (2 <=? List.length row) = false) by (apply Nat.leb_gt; lia).
    rewrite Hle. do 3 eexists. split; [reflexivity | reflexivity].
  - apply Nat.ltb_ge in Hlen.
    assert (Hle : (2 <=? List.length row) = true) by (apply Nat.leb_le; lia).
    rewrite Hle.
    destruct (nonempty (field 0 row)) eqn:Hp;
      destruct (nonempty (field 1 row)) eqn:Hk; cbn [negb andb orb];
      try (destruct (returns_run (text_step_returns svc (field 0 row)
                                    (field 1 row)) w) as (t1 & w1 & txt & E1);
           destruct (returns_run (image_step_returns svc cfg (field 0 row)
                                    txt) w1) as (t2 & w2 & url & E2);
           unfold bind; rewrite E1, E2; unfold now, ret;
           destruct (utcnow svc w2) as [d w3];
           do 3 eexists; split; [reflexivity | split; reflexivity]).
    do 3 eexists. split; reflexivity.
Qed.

Lemma process_rows_records b f rows : forall i acc w,
  exists t w' out,
    process_rows svc cfg b f i rows acc w = (t, w', Ok out) /\
    map record_key out
    = map record_key acc ++ map row_key (filter emits_record rows).
Proof.
  induction rows as [|row rest IH]; intros i acc w; simpl.
  - exists [], w, acc. rewrite app_nil_r. split; reflexivity.
  - destruct (process_row_record b f i row w) as (t & w1 & r & E & Hr).
    unfold bind. rewrite E.
    destruct r as [rec|].
    + destruct Hr as [Hv Hkey]. rewrite Hv.
      destruct (IH (S i) (acc ++ [rec]) w1) as (t' & w2 & out & E' & Hout).
      rewrite E'. exists (t ++ t'), w2, out. split; [reflexivity|].
      rewrite Hout, map_app. simpl. rewrite Hkey, <- app_assoc. reflexivity.
    + rewrite Hr.
      destruct (IH (S i) acc w1) as (t' & w2 & out & E' & Hout).
      rewrite E'. exists (t ++ t'), w2, out. split; [reflexivity | exact Hout].
Qed.

End Rows.

(** C1.  For every file that is reached and downloaded and whose reader
    yields a header and then the data rows [data]: the loop over [data]
    returns a
    batch with one record per data row that has at least two fields of
    which at least one of the first two is not empty once trimmed
    ([emits_record]), in the order of the rows, each carrying the two
    trimmed fields; the other rows add nothing.  The batch is what the
    file step returns when the reader ends, and nothing is returned when
    the reader raises after [data]. *)
Theorem C1_one_record_per_valid_row :
  forall W (svc : Services W) cfg b f w content w1 header data stop,
    bucket svc (Some b) = Ok tt ->
    download_as_text svc b f w = (Ok content, w1) ->
    csv_reader svc content = (header :: data, stop) ->
    exists t w' recs,
      process_rows svc cfg b f 0 data [] w1 = (t, w', Ok recs) /\
      List.length recs = List.length (filter emits_record data) /\
      map record_key recs = map row_key (filter emits_record data) /\
      result_of (process_file svc cfg b f w)
      = match stop with None => Ok recs | Some e => Raise e end.
Proof.
  intros W svc cfg b f w content w1 header data stop Hbk Hd Hr.
  destruct (process_rows_records svc cfg b f data 0 [] w1)
    as (t & w' & recs & E & Hkeys).
  simpl in Hkeys. exists t, w', recs. split; [exact E|].
  split; [|split; [exact Hkeys|]].
  - rewrite <- (length_map record_key recs), Hkeys, length_map. reflexivity.
  - unfold process_file, bind, call. rewrite Hbk. simpl. rewrite Hd, Hr, E.
    destruct stop as [e|]; [reflexivity|].
    unfold ret. destruct recs; reflexivity.
Qed.

(** The example of section 8: the header, ("Widget", "durable|blue") and a
    row of three empty fields give one record. *)
Lemma C1_widget_example :
  exists t w' recs,
    process_rows (Sample.services (Sample.happy Sample.widget_csv))
      Sample.cfg_full (lit "uploads") (lit "products.csv") 0
      (tl Sample.widget_rows) [] 1700000000%Z = (t, w', Ok recs) /\
    List.length recs = 1 /\
    map record_key recs = [(lit "Widget", lit "durable|blue")] /\
    result_of (process_file (Sample.services (Sample.happy Sample.widget_csv))
                 Sample.cfg_full (lit "uploads") (lit "products.csv")
                 1700000000%Z) = Ok recs.
Proof.
  exact (@C1_one_record_per_valid_row Z
           (Sample.services (Sample.happy Sample.widget_csv))
           Sample.cfg_full (lit "uploads") (lit "products.csv")
           1700000000%Z Sample.widget_csv 1700000000%Z
           (hd [] Sample.widget_rows) (tl Sample.widget_rows) None
           eq_refl eq_refl eq_refl).
Defined.

(** *** Strings *)

Lemma startswith_spec p : forall s,
  startswith p s = true <-> exists rest, s = p ++ rest.
Proof.
  induction p as [|a p IH]; intros s; simpl.
  - split; [intros _; exists s; reflexivity | reflexivity].
  - destruct s as [|b s].
    + split; [discriminate | intros (rest & H); discriminate].
    + rewrite andb_true_iff, N.eqb_eq, IH. split.
      * intros (-> & rest & ->). exists rest. reflexivity.
      * intros (rest & [= -> ->]).
        split; [reflexivity | exists rest; reflexivity].
Qed.

Lemma contains_spec needle : forall hay,
  contains needle hay = true <->
  exists before after, hay = before ++ needle ++ after.
Proof.
  induction hay as [|c hay IH]; simpl; rewrite orb_true_iff, startswith_spec.
  - split.
    + intros [(rest & H) | H]; [|discriminate]. exists [], rest. exact H.
    + intros (before & after & H). left.
      destruct before; [exists after; exact H | discriminate].
  - rewrite IH. split.
    + intros [(rest & H) | (before & after & ->)].
      * exists [], rest. exact H.
      * exists (c :: before), after. reflexivity.
    + intros (before & after & H). destruct before as [|c' before].
      * left. exists after. exact H.
      * right. injection H as _ ->. exists before, after. reflexivity.
Qed.

(** The text recorded when the text model fails does not pass the test of
    line 111. *)
Lemma text_failed_not_ok : text_ok text_failed = false.
Proof. reflexivity. Qed.

(** *** The image step *)

Section ImageStep.

Variable W : Type.
Variable svc : Services W.
Variable cfg : config.

Lemma text_step_no_image pn kw :
  everywhere (fun ev => is_image_call ev = false) (text_step svc pn kw).
Proof.
  unfold text_step. apply everywhere_try.
  - apply everywhere_bind; [apply everywhere_call; reflexivity | intros r].
    apply everywhere_bind; [apply everywhere_of_result | intros t].
    apply everywhere_ret.
  - intros e. apply everywhere_bind; [apply everywhere_log; reflexivity|].
    intros _. apply everywhere_ret.
Qed.

(** The image model is called once when the test of line 111 passes and
    not at all otherwise, where the field gets the skip marker. *)
Lemma image_step_run pn txt w :
  exists t w' url,
    image_step svc cfg pn txt w = (t, w', Ok url) /\
    if text_ok txt then count is_image_call t = 1
    else t = [] /\ w' = w /\ url = skipped.
Proof.
  unfold image_step. destruct (text_ok txt).
  - unfold try_except, image_attempt, bind, call.
    destruct (generate_image svc (image_prompt pn txt) w) as [[resp|e] w1].
    + destruct (resp_parts resp) as [|e|[|p ps]]; simpl;
        try (do 3 eexists; split; reflexivity).
      unfold now. destruct (utcnow svc w1) as [d w2]. simpl.
      destruct (bucket svc (PRODUCT_IMAGES_BUCKET_NAME cfg)) as [[]|e]; simpl;
        [|do 3 eexists; split; reflexivity].
      destruct (upload_from_file svc _ _ _ _ w2) as [[[]|e] w3]; simpl;
        do 3 eexists; split; reflexivity.
    + simpl. do 3 eexists; split; reflexivity.
  - exists [], w, skipped. repeat split.
Qed.

End ImageStep.

(** C2.  In every turn of the loop that appends a record, the image model
    is called once when the generated text is not empty and does not
    contain "Error:", and not at all otherwise; in the latter case the
    record's [generated_image_url] is the skip marker.  A turn that
    appends no record calls no model, and no turn raises. *)
Theorem C2_image_call_iff_text_ok :
  forall W (svc : Services W) cfg b f i row w,
    match process_row svc cfg b f i row w with
    | (t, _, Ok (Some rec)) =>
        let text := generated_content rec in
        let passes := nonempty text && negb (contains (lit "Error:") text) in
        count is_image_call t = (if passes then 1 else 0) /\
        (passes = false -> generated_image_url rec = skipped)
    | (t, _, Ok None) => count is_image_call t = 0
    | (_, _, Raise _) => False
    end.
Proof.
  intros W svc cfg b f i row w. unfold process_row.
  destruct (List.length row <? 2); [reflexivity|].
  destruct (negb _ && negb _); [reflexivity|].
  destruct (returns_run (text_step_returns svc (field 0 row) (field 1 row)) w)
    as (t1 & w1 & txt & E1).
  pose proof (text_step_no_image svc (field 0 row) (field 1 row) w) as Ht.
  unfold trace_of in Ht. rewrite E1 in Ht. simpl in Ht.
  destruct (image_step_run svc cfg (field 0 row) txt w1)
    as (t2 & w2 & url & E2 & Hi).
  unfold bind. rewrite E1, E2. unfold now, ret.
  destruct (utcnow svc w2) as [d w3]. simpl.
  rewrite !app_nil_r, count_app, (count_zero _ Ht).
  fold (text_ok txt). destruct (text_ok txt).
  - split; [exact Hi | discriminate].
  - destruct Hi as (-> & _ & ->). split; [reflexivity | reflexivity].
Qed.

(** *** The invocation *)

Section Invocation.

Variable W : Type.
Variable svc : Services W.
Variable cfg : config.

Lemma bind_ret A B (a : A) (k : A -> M W B) w : bind (ret a) k w = k a w.
Proof. unfold bind, ret. destruct (k a w) as [[t w'] r]. reflexivity. Qed.

Lemma bind_log B lvl msg (k : unit -> M W B) w :
  bind (log lvl msg) k w
  = let '(t, w', r) := k tt w in (ELog lvl msg :: t, w', r).
Proof. unfold bind, log. destruct (k tt w) as [[t w'] r]. reflexivity. Qed.

Lemma bind_quiet A B (f : W -> result A * W) (k : A -> M W B) w a w1 :
  f w = (Ok a, w1) -> bind (quiet f) k w = k a w1.
Proof.
  intros H. unfold bind, quiet. rewrite H.
  destruct (k a w1) as [[t w'] r]. reflexivity.
Qed.

Lemma save_returns rows : returns (save_to_bigquery svc cfg rows).
Proof.
  unfold save_to_bigquery. destruct rows; [apply returns_ret|].
  apply returns_try. intros e. apply returns_log.
Qed.

(** The invocation on the path past the configuration test: the file step
    runs in the world [w2] the clients leave; its batch goes to the
    warehouse step, its exception to the quarantine operation, and an
    exception of that operation to the handler of line 175. *)
Lemma handler_run data w key b f w1 w2 :
  lazy_imports svc w = (Ok tt, w1) ->
  GOOGLE_API_KEY cfg = Some key -> nonempty key = true ->
  init_clients svc key w1 = (Ok tt, w2) ->
  data_bucket data = Some b -> data_name data = Some f ->
  process_csv_and_generate_content svc cfg data w =
  match process_file svc cfg b f w2 with
  | (t, w3, Ok rows) =>
      let '(t', w4, _) := save_to_bigquery svc cfg rows w3 in
      ([ELog INFO MsgStarted; ELog INFO (MsgTriggered b f)] ++ t ++ t',
       w4, Ok RetOK)
  | (t, w3, Raise e) =>
      match move_to_failed_bucket svc cfg b f w3 with
      | (t', w4, Ok _) =>
          ([ELog INFO MsgStarted; ELog INFO (MsgTriggered b f)] ++ t
           ++ [ELog ERROR (MsgCritical f e)] ++ t', w4, Ok RetNone)
      | (t', w4, Raise e') =>
          ([ELog INFO MsgStarted; ELog INFO (MsgTriggered b f)] ++ t
           ++ [ELog ERROR (MsgCritical f e)] ++ t'
           ++ [ELog ERROR (MsgFatal e')], w4, Ok RetOK)
      end
  end.
Proof.
  intros Hi Hk Hne Hc Hb Hf.
  unfold process_csv_and_generate_content, handler_body.
  rewrite Hk, Hb, Hf. destruct key as [|c key]; [discriminate|].
  rewrite bind_log. unfold try_except at 1.
  rewrite bind_quiet with (1 := Hi). rewrite bind_quiet with (1 := Hc).
  unfold subscript. rewrite !bind_ret, bind_log.
  unfold bind at 1. unfold try_except at 1. unfold bind at 1.
  destruct (process_file svc cfg b f w2) as [[t w3] [rows|e]].
  - destruct (returns_run (@save_returns rows) w3) as (t' & w4 & [] & E).
    unfold bind, ret. cbv beta iota. rewrite E. cbv beta iota.
    rewrite !app_nil_r. reflexivity.
  - unfold bind, ret, log. cbv beta iota.
    destruct (move_to_failed_bucket svc cfg b f w3) as [[t' w4] [u|e']];
      cbv beta iota; rewrite ?app_nil_r; simpl; rewrite <- ?app_assoc;
      reflexivity.
Qed.

(** The invocation without a usable API key. *)
Lemma handler_no_key data w :
  truthy (GOOGLE_API_KEY cfg) = false ->
  process_csv_and_generate_content svc cfg data w =
  match lazy_imports svc w with
  | (Ok _, w1) =>
      ([ELog INFO MsgStarted; ELog ERROR MsgMissingApiKey], w1, Ok RetNone)
  | (Raise e, w1) =>
      ([ELog INFO MsgStarted; ELog ERROR (MsgFatal e)], w1, Ok RetOK)
  end.
Proof.
  intros Hk. unfold process_csv_and_generate_content, handler_body.
  unfold bind, log, try_except, quiet, ret.
  destruct (lazy_imports svc w) as [[u|e] w1]; [|reflexivity].
  destruct (GOOGLE_API_KEY cfg) as [[|c key]|]; try discriminate; reflexivity.
Qed.

(** The file step and the quarantine operation never reach the
    warehouse. *)
Lemma process_row_no_insert b f i row :
  everywhere (fun ev => is_insert ev = false) (process_row svc cfg b f i row).
Proof.
  unfold process_row, text_step, image_step, image_attempt.
  walk reflexivity.
Qed.

Lemma process_rows_no_insert b f rows : forall i acc,
  everywhere (fun ev => is_insert ev = false)
             (process_rows svc cfg b f i rows acc).
Proof.
  induction rows as [|row rest IH]; intros i acc; simpl.
  - apply everywhere_ret.
  - apply everywhere_bind; [apply process_row_no_insert | intros r; apply IH].
Qed.

Lemma process_file_no_insert b f :
  everywhere (fun ev => is_insert ev = false) (process_file svc cfg b f).
Proof.
  unfold process_file.
  apply everywhere_bind; [apply everywhere_of_result | intros _].
  apply everywhere_bind; [apply everywhere_call; reflexivity | intros content].
  destruct (csv_reader svc content) as [[|h data] [e|]];
    try apply everywhere_raise;
    (apply everywhere_bind; [apply process_rows_no_insert | intros recs]);
    walk reflexivity.
Qed.

Lemma move_no_insert b f :
  everywhere (fun ev => is_insert ev = false)
             (move_to_failed_bucket svc cfg b f).
Proof.
  unfold move_to_failed_bucket.
  destruct (FAILED_BUCKET_NAME cfg) as [[|c q]|]; walk reflexivity.
Qed.

(** When the file step raises: the handle of the bucket could not be
    made, or the download raised, or the reader had no first row (it
    ended, which line 85 turns into a [ValueError], or it raised), or it
    raised after the rows it yielded.  A failure inside a row is not
    among the causes. *)
Theorem process_file_raises b f w e :
  result_of (process_file svc cfg b f w) = Raise e <->
  bucket svc (Some b) = Raise e \/
  bucket svc (Some b) = Ok tt /\
  ((exists w1, download_as_text svc b f w = (Raise e, w1)) \/
   (exists content w1,
      download_as_text svc b f w = (Ok content, w1) /\
      (csv_reader svc content = ([], None) /\ e = no_header f \/
       exists rows, csv_reader svc content = (rows, Some e)))).
Proof.
  unfold process_file, bind, call, result_of, of_result.
  destruct (bucket svc (Some b)) as [[]|e0]; simpl.
  2: { split.
       - intros [= ->]. left. reflexivity.
       - intros [[= ->] | [[=] _]]. reflexivity. }
  destruct (download_as_text svc b f w) as [[content|e0] w1]; simpl.
  - destruct (csv_reader svc content) as [[|h data] stop] eqn:Hr.
    + destruct stop as [e1|]; unfold raise; simpl; split.
      * intros [= ->]. right. split; [reflexivity|]. right.
        exists content, w1. eauto.
      * intros [[=] | [_ [(w2 & [=])
                 | (c & w2 & [= <- <-] & [[Hc _] | (rows & Hc)])]]];
          congruence.
      * intros [= <-]. right. split; [reflexivity|]. right.
        exists content, w1. eauto.
      * intros [[=] | [_ [(w2 & [=])
                 | (c & w2 & [= <- <-] & [[_ ->] | (rows & Hc)])]]];
          congruence.
    + destruct (process_rows_records svc cfg b f data 0 [] w1)
        as (t & w2 & recs & E & _).
      rewrite E. destruct stop as [e1|]; unfold raise, ret; simpl; split.
      * intros [= ->]. right. split; [reflexivity|]. right.
        exists content, w1. eauto.
      * intros [[=] | [_ [(w3 & [=])
                 | (c & w3 & [= <- <-] & [[Hc _] | (rows & Hc)])]]];
          congruence.
      * destruct recs; simpl; discriminate.
      * intros [[=] | [_ [(w3 & [=])
                 | (c & w3 & [= <- <-] & [[Hc _] | (rows & Hc)])]]];
          congruence.
  - split.
    + intros [= ->]. right. split; [reflexivity|]. left. exists w1. reflexivity.
    + intros [[=] | [_ [(w2 & [= -> _]) | (c & w2 & [=] & _)]]]. reflexivity.
Qed.

End Invocation.

(** *** The shape of the events *)

Section Events.

Variable W : Type.
Variable svc : Services W.
Variable cfg : config.

Lemma everywhere_impl A (P Q : event -> Prop) (m : M W A) :
  (forall ev, P ev -> Q ev) -> everywhere P m -> everywhere Q m.
Proof.
  intros H Hm w. eapply Forall_impl; [exact H | apply Hm].
Qed.

Lemma process_row_events b f i row :
  everywhere (row_event svc cfg (field 0 row)) (process_row svc cfg b f i row).
Proof.
  unfold process_row, text_step, image_step, image_attempt.
  walk ltac:(first [exact I
                   | split; [reflexivity | split; [reflexivity|]];
                     eexists; reflexivity]).
Qed.

Lemma invocation_returns data :
  returns (process_csv_and_generate_content svc cfg data).
Proof.
  unfold process_csv_and_generate_content.
  apply returns_bind; [apply returns_log | intros _].
  apply returns_try. intros e.
  apply returns_bind; [apply returns_log | intros _; apply returns_ret].
Qed.

End Events.

(** *** Files that fail and files that are empty *)

Section Files.

Variable W : Type.
Variable svc : Services W.
Variable cfg : config.

(** The quarantine operation, case by case. *)
Lemma move_run b f w :
  move_to_failed_bucket svc cfg b f w =
  match FAILED_BUCKET_NAME cfg with
  | Some ((_ :: _) as q) =>
      match bucket svc (Some b) with
      | Raise e => ([], w, Raise e)
      | Ok _ =>
          match bucket svc (Some q) with
          | Raise e => ([], w, Raise e)
          | Ok _ =>
              match copy_blob svc b f q f w with
              | (Raise e, w1) =>
                  ([ECopy b f q f; ELog ERROR (MsgMoveFailed f e)], w1, Ok tt)
              | (Ok dest, w1) =>
                  match delete_blob svc b f w1 with
                  | (Raise e, w2) =>
                      ([ECopy b f q f; EDelete b f;
                        ELog ERROR (MsgMoveFailed f e)], w2, Ok tt)
                  | (Ok _, w2) =>
                      ([ECopy b f q f; EDelete b f;
                        ELog INFO (MsgMoved f q dest)], w2, Ok tt)
                  end
              end
          end
      end
  | _ => ([ELog ERROR MsgFailedBucketUnset], w, Ok tt)
  end.
Proof.
  unfold move_to_failed_bucket.
  destruct (FAILED_BUCKET_NAME cfg) as [[|c q]|]; try reflexivity.
  unfold try_except, bind, call, log, of_result. cbv beta iota zeta.
  destruct (bucket svc (Some b)) as [[]|e]; [|reflexivity].
  match goal with
  | |- context [bucket svc ?name] => destruct (bucket svc name) as [[]|e]
  end; [|reflexivity]. simpl.
  match goal with
  | |- context [copy_blob svc b f ?q' f w] =>
      destruct (copy_blob svc b f q' f w) as [[dest|e] w1]
  end; [|reflexivity].
  destruct (delete_blob svc b f w1) as [[u|e] w2]; reflexivity.
Qed.

(** A row that [emits_record] drops causes at most a warning and leaves
    the world as it was. *)
Lemma process_row_skip b f i row w :
  emits_record row = false ->
  exists t,
    process_row svc cfg b f i row w = (t, w, Ok None) /\
    Forall (fun ev => is_log ev = true) t.
Proof.
  unfold process_row, emits_record, field. intros H.
  destruct (List.length row <? 2) eqn:Hlen.
  - eexists. split; [reflexivity|]. repeat constructor.
  - apply Nat.ltb_ge in Hlen.
    assert (Hle : (2 <=? List.length row) = true) by (apply Nat.leb_le; lia).
    rewrite Hle in H. simpl in H. apply orb_false_elim in H as [-> ->].
    exists []. split; [reflexivity | constructor].
Qed.

Lemma process_rows_skip b f rows : forall i acc w,
  filter emits_record rows = [] ->
  exists t,
    process_rows svc cfg b f i rows acc w = (t, w, Ok acc) /\
    Forall (fun ev => is_log ev = true) t.
Proof.
  induction rows as [|row rest IH]; intros i acc w H; simpl in *.
  - exists []. split; [reflexivity | constructor].
  - destruct (emits_record row) eqn:Hrow; [discriminate|].
    destruct (@process_row_skip b f i row w Hrow) as (t & E & Ht).
    destruct (IH (S i) acc w H) as (t' & E' & Ht').
    unfold bind. rewrite E, E'. exists (t ++ t').
    split; [reflexivity | apply Forall_app; auto].
Qed.

End Files.

(** C3.  The image step on a response whose first part is a sentence and
    whose second part is the picture: the bytes of the picture are not
    read; what goes to the images container is the empty [inline_data] of
    the first part, and the record gets the public URL of that empty
    object.  On a response that has a sentence and no picture the same
    empty object is uploaded and its URL recorded, where "Error: No image
    returned." was due. *)
Theorem C3_only_first_part_is_read :
  let url :=
    lit "https://storage.googleapis.com/images/widget_1700000000.png" in
  let empty_upload :=
    EUpload (Some (lit "images")) (lit "widget_1700000000.png") []
            (lit "image/png") in
  let run s :=
    image_step (Sample.services s) Sample.cfg_full (lit "Widget")
               (lit "A fine product.") 1700000000%Z in
  (existsb carries_image
     [PartText (lit "Here is your image.");
      PartInlineData (lit "image/png") Sample.png] = true /\
   filter is_upload (trace_of (run Sample.text_then_image)) = [empty_upload] /\
   result_of (run Sample.text_then_image) = Ok url) /\
  (existsb carries_image [PartText (lit "I cannot draw that.")] = false /\
   filter is_upload (trace_of (run Sample.text_only)) = [empty_upload] /\
   result_of (run Sample.text_only) = Ok url).
Proof. vm_compute. repeat split. Qed.

(** What the image step does, once the test of line 111 has passed.  The
    model is called with the prompt of line 113.  An exception of the
    call, of reading [.parts], of making the bucket handle or of the
    upload is logged and recorded as "Error: Image generation failed.".
    A response without [.parts], or with none, is recorded as "Error: No
    image returned." and uploads nothing.  Otherwise the [inline_data] of
    the first part is uploaded and the public URL of the object
    recorded.  In every case the step returns. *)
Theorem image_step_outcomes :
  forall W (svc : Services W) cfg pn txt w,
    text_ok txt = true ->
    let out := image_step svc cfg pn txt w in
    let prompt := image_prompt pn txt in
    let images := PRODUCT_IMAGES_BUCKET_NAME cfg in
    let failed e :=
      result_of out = Ok image_failed /\
      trace_of out = [EImageCall prompt; ELog ERROR (MsgImageFailed pn e)] in
    match generate_image svc prompt w with
    | (Raise e, _) => failed e
    | (Ok resp, w1) =>
        match resp_parts resp with
        | AttrMissing | AttrValue [] =>
            result_of out = Ok no_image /\ trace_of out = [EImageCall prompt]
        | AttrRaises e => failed e
        | AttrValue (first :: _) =>
            let name := image_blob_name svc pn (fst (utcnow svc w1)) in
            let sent := EUpload images name (inline_data_data first)
                                (lit "image/png") in
            match bucket svc images with
            | Raise e => failed e
            | Ok _ =>
                match upload_from_file svc images name
                        (inline_data_data first) (lit "image/png")
                        (snd (utcnow svc w1)) with
                | (Ok _, _) =>
                    result_of out = Ok (public_url svc images name) /\
                    trace_of out = [EImageCall prompt; sent]
                | (Raise e, _) =>
                    result_of out = Ok image_failed /\
                    trace_of out = [EImageCall prompt; sent;
                                    ELog ERROR (MsgImageFailed pn e)]
                end
            end
        end
    end.
Proof.
  intros W svc cfg pn txt w Hok. cbv zeta.
  unfold image_step. rewrite Hok.
  unfold try_except, image_attempt, bind, call, now, of_result.
  destruct (generate_image svc (image_prompt pn txt) w) as [[resp|e] w1];
    [|split; reflexivity].
  destruct (resp_parts resp) as [|e|[|first rest]]; try (split; reflexivity).
  destruct (utcnow svc w1) as [d w2]. simpl fst. simpl snd.
  destruct (bucket svc (PRODUCT_IMAGES_BUCKET_NAME cfg)) as [[]|e];
    [|split; reflexivity].
  simpl.
  destruct (upload_from_file svc _ _ _ _ w2) as [[u|e] w3]; split; reflexivity.
Qed.

(** The image step at work: one part of inline data, uploaded under
    "widget_1700000000.png". *)
Lemma image_step_example :
  let out := image_step (Sample.services (Sample.happy Sample.widget_csv))
               Sample.cfg_full (lit "Widget") (lit "A fine product.")
               1700000000%Z in
  result_of out
  = Ok (lit "https://storage.googleapis.com/images/widget_1700000000.png") /\
  filter is_upload (trace_of out)
  = [EUpload (Some (lit "images")) (lit "widget_1700000000.png") Sample.png
             (lit "image/png")].
Proof.
  pose proof (@image_step_outcomes Z
                (Sample.services (Sample.happy Sample.widget_csv))
                Sample.cfg_full (lit "Widget") (lit "A fine product.")
                1700000000%Z eq_refl) as H.
  cbv zeta in H. destruct H as [H1 H2].
  split; [exact H1 | rewrite H2; reflexivity].
Defined.

(** C4, as stated, fails: the download raises and no quarantine container
    is configured; the invocation logs the two errors and ends, and the
    file is neither copied nor deleted. *)
Lemma C4_not_quarantined_without_container :
  let svc := Sample.services Sample.unreadable in
  let out := process_csv_and_generate_content svc Sample.cfg_no_quarantine
               Sample.upload_event 1700000000%Z in
  result_of (process_file svc Sample.cfg_no_quarantine (lit "uploads")
               (lit "products.csv") 1700000000%Z)
  = Raise (LibraryError (lit "NotFound")) /\
  trace_of out
  = [ELog INFO MsgStarted;
     ELog INFO (MsgTriggered (lit "uploads") (lit "products.csv"));
     EDownload (lit "uploads") (lit "products.csv");
     ELog ERROR (MsgCritical (lit "products.csv")
                             (LibraryError (lit "NotFound")));
     ELog ERROR MsgFailedBucketUnset] /\
  count is_copy (trace_of out) = 0 /\
  count is_delete (trace_of out) = 0.
Proof. vm_compute. repeat split. Qed.

(** C4, amended.  When the file step raises (the bucket handle, the
    download, the header or the iteration: [process_file_raises]), the
    invocation logs the error and runs the quarantine operation once;
    nothing is inserted.  It returns [None] when the operation returns;
    an exception of the operation is logged as fatal.  With a quarantine
    container configured and the two bucket handles made, the operation
    returns, it starts with the copy to that container under the same
    name, and the delete of the source follows when the copy succeeds. *)
Theorem C4_file_error_runs_quarantine :
  forall W (svc : Services W) cfg data w key b f w1 w2 e,
    lazy_imports svc w = (Ok tt, w1) ->
    GOOGLE_API_KEY cfg = Some key -> nonempty key = true ->
    init_clients svc key w1 = (Ok tt, w2) ->
    data_bucket data = Some b -> data_name data = Some f ->
    result_of (process_file svc cfg b f w2) = Raise e ->
    let out := process_csv_and_generate_content svc cfg data w in
    let failed := process_file svc cfg b f w2 in
    let moved := move_to_failed_bucket svc cfg b f (world_of failed) in
    trace_of out
    = [ELog INFO MsgStarted; ELog INFO (MsgTriggered b f)]
      ++ trace_of failed ++ [ELog ERROR (MsgCritical f e)] ++ trace_of moved
      ++ match result_of moved with
         | Ok _ => []
         | Raise e' => [ELog ERROR (MsgFatal e')]
         end /\
    result_of out
    = match result_of moved with
      | Ok _ => Ok RetNone
      | Raise _ => Ok RetOK
      end /\
    count is_insert (trace_of out) = 0 /\
    (forall q, FAILED_BUCKET_NAME cfg = Some q -> nonempty q = true ->
       bucket svc (Some b) = Ok tt -> bucket svc (Some q) = Ok tt ->
       result_of moved = Ok tt /\
       match copy_blob svc b f q f (world_of failed) with
       | (Ok _, _) =>
           exists lvl msg,
             trace_of moved = [ECopy b f q f; EDelete b f; ELog lvl msg]
       | (Raise e', _) =>
           trace_of moved = [ECopy b f q f; ELog ERROR (MsgMoveFailed f e')]
       end).
Proof.
  intros W svc cfg data w key b f w1 w2 e Hi Hk Hne Hc Hb Hf He
         out failed moved.
  pose proof (handler_run svc cfg data w Hi Hk Hne Hc Hb Hf) as Hrun.
  pose proof (process_file_no_insert svc cfg b f w2) as Hpf.
  subst out failed moved. unfold result_of, trace_of, world_of in *.
  destruct (process_file svc cfg b f w2) as [[t w3] r]; simpl in *. subst r.
  pose proof (move_no_insert svc cfg b f w3) as Hmv.
  pose proof (move_run svc cfg b f w3) as Hm.
  unfold trace_of in Hmv.
  destruct (move_to_failed_bucket svc cfg b f w3) as [[t' w4] r'].
  rewrite Hrun. simpl in *.
  split; [|split; [|split]].
  - destruct r'; simpl; rewrite ?app_nil_r; reflexivity.
  - destruct r'; reflexivity.
  - apply count_zero.
    destruct r' as [u|e']; simpl;
      (constructor; [reflexivity|]); (constructor; [reflexivity|]);
      (apply Forall_app; split; [exact Hpf|]); (constructor; [reflexivity|]).
    + exact Hmv.
    + apply Forall_app. split; [exact Hmv | repeat constructor].
  - intros q Hq Hqne Hb1 Hb2. rewrite Hq in Hm.
    destruct q as [|c q]; [discriminate|]. rewrite Hb1, Hb2 in Hm.
    destruct (copy_blob svc b f (c :: q) f w3) as [[dest|e'] w5].
    + destruct (delete_blob svc b f w5) as [[u|e'] w6];
        injection Hm as -> _ ->; (split; [reflexivity|]).
      * exists INFO, (MsgMoved f (c :: q) dest). reflexivity.
      * exists ERROR, (MsgMoveFailed f e'). reflexivity.
    + injection Hm as -> _ ->. split; reflexivity.
Qed.

(** C4 at work: the download raises with everything configured; the file
    is copied to the quarantine container under its name, deleted from
    the source, and nothing is inserted. *)
Lemma C4_quarantined_example :
  let svc := Sample.services Sample.unreadable in
  let out := process_csv_and_generate_content svc Sample.cfg_full
               Sample.upload_event 1700000000%Z in
  result_of out = Ok RetNone /\
  trace_of out
  = [ELog INFO MsgStarted;
     ELog INFO (MsgTriggered (lit "uploads") (lit "products.csv"));
     EDownload (lit "uploads") (lit "products.csv");
     ELog ERROR (MsgCritical (lit "products.csv")
                             (LibraryError (lit "NotFound")));
     ECopy (lit "uploads") (lit "products.csv") (lit "failed")
           (lit "products.csv");
     EDelete (lit "uploads") (lit "products.csv");
     ELog INFO (MsgMoved (lit "products.csv") (lit "failed")
                         (lit "products.csv"))] /\
  count is_insert (trace_of out) = 0.
Proof.
  pose proof (@C4_file_error_runs_quarantine Z
                (Sample.services Sample.unreadable) Sample.cfg_full
                Sample.upload_event 1700000000%Z (lit "key") (lit "uploads")
                (lit "products.csv") 1700000000%Z 1700000000%Z
                (LibraryError (lit "NotFound"))
                eq_refl eq_refl eq_refl eq_refl eq_refl eq_refl eq_refl) as H.
  cbv zeta in H. destruct H as (H1 & H2 & H3 & _).
  split; [exact H2 | split; [exact H1 | exact H3]].
Defined.

(** C6.  Without an API key (absent, or present and empty) the invocation
    logs and ends: either the error of line 39 and the return of line 40,
    or, when the imports of lines 22-27 raise before the key is looked
    at, the fatal error of line 176.  Either way the clients are not
    created, no file is downloaded, no model is called, nothing is
    uploaded or inserted, and nothing is copied or deleted. *)
Theorem C6_no_key_no_processing :
  forall W (svc : Services W) cfg data w,
    truthy (GOOGLE_API_KEY cfg) = false ->
    let out := process_csv_and_generate_content svc cfg data w in
    (trace_of out = [ELog INFO MsgStarted; ELog ERROR MsgMissingApiKey] /\
     result_of out = Ok RetNone
     \/
     exists e,
       fst (lazy_imports svc w) = Raise e /\
       trace_of out = [ELog INFO MsgStarted; ELog ERROR (MsgFatal e)] /\
       result_of out = Ok RetOK) /\
    world_of out = snd (lazy_imports svc w) /\
    count is_download (trace_of out) = 0 /\
    count is_text_call (trace_of out) = 0 /\
    count is_image_call (trace_of out) = 0 /\
    count is_upload (trace_of out) = 0 /\
    count is_insert (trace_of out) = 0 /\
    count is_copy (trace_of out) = 0 /\
    count is_delete (trace_of out) = 0.
Proof.
  intros W svc cfg data w Hk out. subst out.
  rewrite (handler_no_key svc cfg data w Hk).
  destruct (lazy_imports svc w) as [[u|e] w1]; simpl.
  - split; [left; split; reflexivity | repeat split].
  - split; [right; exists e; repeat split | repeat split].
Qed.

(** C6 at work: the key is absent, everything else is in place. *)
Lemma C6_no_key_example :
  let out := process_csv_and_generate_content
               (Sample.services (Sample.happy Sample.widget_csv))
               Sample.cfg_no_key Sample.upload_event 1700000000%Z in
  trace_of out = [ELog INFO MsgStarted; ELog ERROR MsgMissingApiKey] /\
  result_of out = Ok RetNone.
Proof.
  pose proof (@C6_no_key_no_processing Z
                (Sample.services (Sample.happy Sample.widget_csv))
                Sample.cfg_no_key Sample.upload_event 1700000000%Z
                eq_refl) as H.
  cbv zeta in H. destruct H as [[H | (e & He & _)] _].
  - exact H.
  - discriminate He.
Defined.

(** C7.  Without a quarantine container (absent, or empty) the
    quarantine operation logs an error, calls nothing, leaves the world
    as it was and returns.  With one, once the two bucket handles of
    lines 63-64 are made, it copies and then deletes; an exception of the
    copy or of the delete is logged as an error and ends the operation
    there, which returns all the same.  The invocation as a whole
    returns whatever the services do. *)
Theorem C7_quarantine_never_raises :
  forall W (svc : Services W) cfg b f w,
    let out := move_to_failed_bucket svc cfg b f w in
    (truthy (FAILED_BUCKET_NAME cfg) = false ->
     result_of out = Ok tt /\
     trace_of out = [ELog ERROR MsgFailedBucketUnset] /\ world_of out = w) /\
    (forall q, FAILED_BUCKET_NAME cfg = Some q -> nonempty q = true ->
       bucket svc (Some b) = Ok tt -> bucket svc (Some q) = Ok tt ->
       result_of out = Ok tt /\
       match copy_blob svc b f q f w with
       | (Raise e, _) =>
           trace_of out = [ECopy b f q f; ELog ERROR (MsgMoveFailed f e)]
       | (Ok dest, w1) =>
           match delete_blob svc b f w1 with
           | (Raise e, _) =>
               trace_of out
               = [ECopy b f q f; EDelete b f; ELog ERROR (MsgMoveFailed f e)]
           | (Ok _, _) =>
               trace_of out
               = [ECopy b f q f; EDelete b f; ELog INFO (MsgMoved f q dest)]
           end
       end) /\
    (forall data w0,
       exists r,
         result_of (process_csv_and_generate_content svc cfg data w0) = Ok r).
Proof.
  intros W svc cfg b f w out. subst out. rewrite move_run.
  split; [|split].
  - intros H. destruct (FAILED_BUCKET_NAME cfg) as [[|c q]|];
      try discriminate; repeat split; reflexivity.
  - intros q Hq Hne Hb1 Hb2. rewrite Hq. destruct q as [|c q]; [discriminate|].
    rewrite Hb1, Hb2.
    destruct (copy_blob svc b f (c :: q) f w) as [[dest|e] w1];
      [|split; reflexivity].
    destruct (delete_blob svc b f w1) as [[u|e] w2]; split; reflexivity.
  - intros data w0. apply invocation_returns.
Qed.

(** C7 at work: the quarantine container is configured and the copy
    raises; the operation logs the error and returns, and the source is
    not deleted. *)
Lemma C7_copy_raises_example :
  let out := move_to_failed_bucket (Sample.services Sample.read_only)
               Sample.cfg_full (lit "uploads") (lit "products.csv")
               1700000000%Z in
  result_of out = Ok tt /\
  trace_of out
  = [ECopy (lit "uploads") (lit "products.csv") (lit "failed")
           (lit "products.csv");
     ELog ERROR (MsgMoveFailed (lit "products.csv")
                               (LibraryError (lit "Forbidden")))].
Proof.
  exact (proj1 (proj2 (@C7_quarantine_never_raises Z
                         (Sample.services Sample.read_only) Sample.cfg_full
                         (lit "uploads") (lit "products.csv") 1700000000%Z))
               (lit "failed") eq_refl eq_refl eq_refl eq_refl).
Defined.

(** C8.  A file that is reached and downloaded, has a header and no data
    row that
    [emits_record] keeps: the invocation warns that no valid row was
    processed and returns "OK"; besides the download it only logs, so
    nothing is inserted, copied or deleted, and no model is called. *)
Theorem C8_empty_file_is_not_quarantined :
  forall W (svc : Services W) cfg data w key b f w1 w2 content w3 header rows,
    lazy_imports svc w = (Ok tt, w1) ->
    GOOGLE_API_KEY cfg = Some key -> nonempty key = true ->
    init_clients svc key w1 = (Ok tt, w2) ->
    data_bucket data = Some b -> data_name data = Some f ->
    bucket svc (Some b) = Ok tt ->
    download_as_text svc b f w2 = (Ok content, w3) ->
    csv_reader svc content = (header :: rows, None) ->
    filter emits_record rows = [] ->
    let out := process_csv_and_generate_content svc cfg data w in
    result_of out = Ok RetOK /\
    In (ELog WARNING (MsgNoValidRows f)) (trace_of out) /\
    Forall (fun ev => is_log ev = true \/ ev = EDownload b f) (trace_of out) /\
    count is_insert (trace_of out) = 0 /\
    count is_copy (trace_of out) = 0 /\
    count is_delete (trace_of out) = 0.
Proof.
  intros W svc cfg data w key b f w1 w2 content w3 header rows
         Hi Hk Hne Hc Hb Hf Hbk Hd Hr Hrows out.
  subst out. rewrite (handler_run svc cfg data w Hi Hk Hne Hc Hb Hf).
  destruct (process_rows_skip svc cfg b f rows 0 [] w3 Hrows) as (t & E & Ht).
  unfold process_file, bind, call. rewrite Hbk. simpl. rewrite Hd, Hr, E.
  simpl. rewrite !app_nil_r. unfold trace_of. simpl fst.
  assert (Hall : Forall (fun ev => is_log ev = true \/ ev = EDownload b f)
                   (ELog INFO MsgStarted :: ELog INFO (MsgTriggered b f)
                    :: EDownload b f
                    :: t ++ [ELog WARNING (MsgNoValidRows f)])).
  { constructor; [left; reflexivity|]. constructor; [left; reflexivity|].
    constructor; [right; reflexivity|]. apply Forall_app. split.
    - eapply Forall_impl; [|exact Ht]. intros ev H. left. exact H.
    - constructor; [left; reflexivity | constructor]. }
  split; [reflexivity|]. split; [|split; [exact Hall|]].
  - right. right. right. apply in_or_app. right. left. reflexivity.
  - repeat split; apply count_zero;
      (eapply Forall_impl; [|exact Hall]); intros ev [H | ->];
      try reflexivity; destruct ev; try discriminate; reflexivity.
Qed.

(** C8 at work: a header, a row of empty fields and a row of one field. *)
Lemma C8_blank_rows_example :
  let out := process_csv_and_generate_content
               (Sample.services (Sample.happy Sample.blank_csv))
               Sample.cfg_full Sample.upload_event 1700000000%Z in
  result_of out = Ok RetOK /\
  In (ELog WARNING (MsgNoValidRows (lit "products.csv"))) (trace_of out) /\
  count is_insert (trace_of out) = 0 /\
  count is_copy (trace_of out) = 0 /\
  count is_delete (trace_of out) = 0.
Proof.
  pose proof (@C8_empty_file_is_not_quarantined Z
                (Sample.services (Sample.happy Sample.blank_csv))
                Sample.cfg_full Sample.upload_event 1700000000%Z
                (lit "key") (lit "uploads") (lit "products.csv")
                1700000000%Z 1700000000%Z Sample.blank_csv 1700000000%Z
                (hd [] Sample.blank_rows) (tl Sample.blank_rows)
                eq_refl eq_refl eq_refl eq_refl eq_refl eq_refl eq_refl
                eq_refl eq_refl eq_refl) as H.
  cbv zeta in H. destruct H as (H1 & H2 & _ & H3 & H4 & H5).
  repeat split; assumption.
Defined.

(** *** The names of the uploaded images *)

Section Stamps.

Variable W : Type.
Variable svc : Services W.
Variable cfg : config.

(** The text step leaves the world the text model left, and uploads
    nothing. *)
Lemma text_step_world pn kw w :
  exists t txt,
    text_step svc pn kw w
    = (t, snd (generate_text svc (text_prompt pn kw) w), Ok txt) /\
    Forall (fun ev => is_upload ev = false) t.
Proof.
  unfold text_step, try_except, bind, call, of_result, log, ret, raise.
  destruct (generate_text svc (text_prompt pn kw) w) as [[resp|e] w1];
    cbn [snd].
  - destruct (resp_text resp) as [txt|e]; simpl; do 2 eexists;
      (split; [reflexivity | repeat constructor]).
  - simpl. do 2 eexists. split; [reflexivity | repeat constructor].
Qed.

(** An upload of the image step is named after the clock reading taken
    in the world the image model left. *)
Lemma image_step_upload pn txt w container name data content_type :
  In (EUpload container name data content_type)
     (trace_of (image_step svc cfg pn txt w)) ->
  container = PRODUCT_IMAGES_BUCKET_NAME cfg /\
  content_type = lit "image/png" /\
  exists response w2 d w3,
    generate_image svc (image_prompt pn txt) w = (Ok response, w2) /\
    utcnow svc w2 = (d, w3) /\
    name = str_lower svc (replace_space pn) ++ lit "_"
           ++ str_of_int (timestamp_int d) ++ lit ".png".
Proof.
  unfold image_step. destruct (text_ok txt); [|intros []].
  unfold try_except, image_attempt, bind, call, trace_of.
  destruct (generate_image svc (image_prompt pn txt) w)
    as [[resp|e] w1] eqn:Hg.
  2: { simpl. intros H. repeat (destruct H as [H | H]; [discriminate H|]).
       destruct H. }
  destruct (resp_parts resp) as [|e|[|p ps]].
  1-3: simpl; intros H; repeat (destruct H as [H | H]; [discriminate H|]);
       destruct H.
  unfold now. destruct (utcnow svc w1) as [d w2] eqn:Hd.
  unfold of_result, ret, raise.
  destruct (bucket svc (PRODUCT_IMAGES_BUCKET_NAME cfg)) as [[]|e].
  2: { simpl. intros H. repeat (destruct H as [H | H]; [discriminate H|]).
       destruct H. }
  destruct (upload_from_file svc _ _ _ _ w2) as [[[]|e] w3]; simpl.
  all: intros [H | [H | H]];
    [discriminate H | |
     try contradiction; try (destruct H as [H | []]; discriminate H)].
  all: injection H as <- <- <- <-; split; [reflexivity|];
    split; [reflexivity|]; exists resp, w1, d, w2;
    split; [reflexivity|]; split; [exact Hd | reflexivity].
Qed.

(** An upload of a turn of the loop is an upload of its image step, run
    in the world the text model left. *)
Lemma process_row_upload b f i row w container name data content_type :
  In (EUpload container name data content_type)
     (trace_of (process_row svc cfg b f i row w)) ->
  exists txt,
    In (EUpload container name data content_type)
       (trace_of (image_step svc cfg (strip (nth 0 row [])) txt
                    (snd (generate_text svc
                            (text_prompt (strip (nth 0 row []))
                                         (strip (nth 1 row []))) w)))).
Proof.
  unfold process_row, field.
  destruct (List.length row <? 2).
  { simpl. intros [H | []]. discriminate H. }
  destruct (negb _ && negb _); [intros []|].
  destruct (text_step_world (strip (nth 0 row [])) (strip (nth 1 row [])) w)
    as (t1 & txt & E1 & Hno).
  unfold bind at 1. rewrite E1. intros H. exists txt. revert H.
  unfold bind, now, ret, trace_of.
  destruct (image_step svc cfg _ txt _) as [[t2 w2] [url|e]]; simpl.
  - destruct (utcnow svc w2) as [d w3]. simpl. rewrite !app_nil_r.
    intros H. apply in_app_or in H as [H | H]; [|exact H].
    rewrite Forall_forall in Hno. apply Hno in H. discriminate H.
  - intros H. apply in_app_or in H as [H | H]; [|exact H].
    rewrite Forall_forall in Hno. apply Hno in H. discriminate H.
Qed.

(** An event of the loop is an event of the turn of one of its rows, run
    in the world the turns of the rows before it left. *)
Lemma process_rows_turns b f rows : forall i acc w ev,
  In ev (trace_of (process_rows svc cfg b f i rows acc w)) ->
  exists k row,
    nth_error rows k = Some row /\
    In ev (trace_of
             (process_row svc cfg b f (i + k) row
                (world_of (process_rows svc cfg b f i (firstn k rows)
                             acc w)))).
Proof.
  induction rows as [|row rest IH]; intros i acc w ev; [intros []|].
  cbn [process_rows]. unfold bind at 1, trace_of at 1.
  destruct (process_row svc cfg b f i row w) as [[t1 w1] [r|e]] eqn:E1.
  - set (acc' := match r with Some rec => acc ++ [rec] | None => acc end).
    destruct (process_rows svc cfg b f (S i) rest acc' w1)
      as [[t2 w2] r2] eqn:E2.
    cbn [fst]. intros H. apply in_app_or in H as [H | H].
    + exists 0, row. split; [reflexivity|].
      rewrite Nat.add_0_r. cbn [firstn process_rows]. unfold ret, world_of.
      cbn [fst snd]. rewrite E1. exact H.
    + destruct (IH (S i) acc' w1 ev) as (k & row' & Hk & Hin).
      { rewrite E2. exact H. }
      exists (S k), row'. split; [exact Hk|].
      replace (i + S k) with (S i + k) by lia.
      cbn [firstn process_rows]. unfold bind at 1. rewrite E1.
      fold acc'. unfold world_of in *.
      destruct (process_rows svc cfg b f (S i) (firstn k rest) acc' w1)
        as [[t3 w3] r3].
      exact Hin.
  - cbn [fst]. intros H. exists 0, row. split; [reflexivity|].
    rewrite Nat.add_0_r. cbn [firstn process_rows]. unfold ret, world_of.
    cbn [fst snd]. rewrite E1. exact H.
Qed.

Lemma process_row_stamped b f i row :
  everywhere (upload_stamped svc cfg) (process_row svc cfg b f i row).
Proof.
  intros w. apply Forall_forall. intros [] Hin; try exact I.
  apply process_row_upload in Hin as (txt & Hin).
  apply image_step_upload in Hin
    as (Hb & Hc & resp & w2 & d & w3 & H1 & H2 & H3).
  split; [exact Hb|]. split; [exact Hc|].
  exists (strip (nth 0 row [])). do 6 eexists.
  split; [exact H1|]. split; [exact H2 | exact H3].
Qed.

Lemma process_rows_stamped b f rows : forall i acc,
  everywhere (upload_stamped svc cfg) (process_rows svc cfg b f i rows acc).
Proof.
  induction rows as [|row rest IH]; intros i acc; simpl.
  - apply everywhere_ret.
  - apply everywhere_bind; [apply process_row_stamped | intros r; apply IH].
Qed.

Lemma process_file_stamped b f :
  everywhere (upload_stamped svc cfg) (process_file svc cfg b f).
Proof.
  unfold process_file.
  apply everywhere_bind; [apply everywhere_of_result | intros _].
  apply everywhere_bind; [apply everywhere_call; exact I | intros content].
  destruct (csv_reader svc content) as [[|h data] [e|]];
    try apply everywhere_raise;
    (apply everywhere_bind; [apply process_rows_stamped | intros recs]);
    walk ltac:(exact I).
Qed.

Lemma invocation_stamped data :
  everywhere (upload_stamped svc cfg)
             (process_csv_and_generate_content svc cfg data).
Proof.
  unfold process_csv_and_generate_content, handler_body, subscript.
  apply everywhere_bind; [apply everywhere_log; exact I | intros _].
  apply everywhere_try; [|walk ltac:(exact I)].
  apply everywhere_bind; [apply everywhere_quiet | intros _].
  destruct (GOOGLE_API_KEY cfg) as [[|c key]|].
  1, 3: walk ltac:(exact I).
  apply everywhere_bind; [apply everywhere_quiet | intros _].
  apply everywhere_bind; [destruct (data_bucket data); walk idtac | intros b].
  apply everywhere_bind; [destruct (data_name data); walk idtac | intros f].
  apply everywhere_bind; [apply everywhere_log; exact I | intros _].
  apply everywhere_bind.
  - apply everywhere_try.
    + apply everywhere_bind; [apply process_file_stamped|].
      intros rows. apply everywhere_ret.
    + intros e. apply everywhere_bind; [apply everywhere_log; exact I|].
      intros _. apply everywhere_bind; [|intros _; apply everywhere_ret].
      unfold move_to_failed_bucket.
      destruct (FAILED_BUCKET_NAME cfg) as [[|c' q]|]; walk ltac:(exact I).
  - intros [rows|]; [|apply everywhere_ret].
    apply everywhere_bind; [|intros _; apply everywhere_ret].
    unfold save_to_bigquery. destruct rows; walk ltac:(exact I).
Qed.

End Stamps.

(** C9.  Every upload of a turn of the loop goes to the images container
    as [image/png], under the row's trimmed first field with spaces
    replaced by underscores, lowercased, followed by an underscore, the
    integer timestamp in decimal and [.png], where the timestamp is that
    of the clock as read in the world the image-model call of this turn
    left, itself made in the world the text-model call of this turn left.
    Every upload of the loop is the upload of the turn of one of its
    rows, run in the world the turns before it left; and every upload of
    an invocation has such a name, stamped by a clock reading that
    follows an image-model call. *)
Theorem C9_image_object_name :
  forall W (svc : Services W) cfg,
    (forall b f i row w container name data content_type,
       In (EUpload container name data content_type)
          (trace_of (process_row svc cfg b f i row w)) ->
       container = PRODUCT_IMAGES_BUCKET_NAME cfg /\
       content_type = lit "image/png" /\
       let product := strip (nth 0 row []) in
       let keywords := strip (nth 1 row []) in
       exists text response w2 d w3,
         generate_image svc (image_prompt product text)
           (snd (generate_text svc (text_prompt product keywords) w))
         = (Ok response, w2) /\
         utcnow svc w2 = (d, w3) /\
         name = str_lower svc (replace_space product) ++ lit "_"
                ++ str_of_int (timestamp_int d) ++ lit ".png") /\
    (forall b f rows w container name data content_type,
       In (EUpload container name data content_type)
          (trace_of (process_rows svc cfg b f 0 rows [] w)) ->
       exists k row,
         nth_error rows k = Some row /\
         In (EUpload container name data content_type)
            (trace_of
               (process_row svc cfg b f k row
                  (world_of (process_rows svc cfg b f 0 (firstn k rows)
                               [] w))))) /\
    (forall ev_data w container name data content_type,
       In (EUpload container name data content_type)
          (trace_of (process_csv_and_generate_content svc cfg ev_data w)) ->
       container = PRODUCT_IMAGES_BUCKET_NAME cfg /\
       content_type = lit "image/png" /\
       exists product text w1 response w2 d w3,
         generate_image svc (image_prompt product text) w1
         = (Ok response, w2) /\
         utcnow svc w2 = (d, w3) /\
         name = str_lower svc (replace_space product) ++ lit "_"
                ++ str_of_int (timestamp_int d) ++ lit ".png").
Proof.
  intros W svc cfg. split; [|split].
  - intros b f i row w container name data ct Hin.
    apply process_row_upload in Hin as (txt & Hin).
    apply image_step_upload in Hin
      as (Hb & Hc & resp & w2 & d & w3 & H1 & H2 & H3).
    split; [exact Hb|]. split; [exact Hc|].
    exists txt, resp, w2, d, w3.
    split; [exact H1|]. split; [exact H2 | exact H3].
  - intros b f rows w container name data ct Hin.
    apply process_rows_turns in Hin as (k & row & Hk & Hin).
    exists k, row. split; [exact Hk | exact Hin].
  - intros ev_data w container name data ct Hin.
    pose proof (invocation_stamped svc cfg ev_data w) as H.
    rewrite Forall_forall in H. exact (H _ Hin).
Qed.

(** C9 at work: the product "Blue Widget", with the text model called at
    second 1700000000 and the clock read after the image model: the upload
    is that of [blue_widget_1700000000.png], and 1700000000 is the
    reading of the clock. *)
Lemma C9_blue_widget_example :
  let svc := Sample.services (Sample.happy Sample.widget_csv) in
  let upload := EUpload (Some (lit "images"))
                        (lit "blue_widget_1700000000.png") Sample.png
                        (lit "image/png") in
  In upload
     (trace_of (process_row svc Sample.cfg_full (lit "uploads")
                  (lit "products.csv") 0
                  [lit " Blue Widget "; lit "sturdy"] 1700000000%Z)) /\
  exists text response w2 d w3,
    generate_image svc (image_prompt (lit "Blue Widget") text)
      (snd (generate_text svc
              (text_prompt (lit "Blue Widget") (lit "sturdy")) 1700000000%Z))
    = (Ok response, w2) /\
    utcnow svc w2 = (d, w3) /\
    timestamp_int d = 1700000000%Z /\
    lit "blue_widget_1700000000.png"
    = Sample.ascii_lower (replace_space (lit "Blue Widget")) ++ lit "_"
      ++ str_of_int (timestamp_int d) ++ lit ".png".
Proof.
  cbv zeta.
  assert (Hin : In (EUpload (Some (lit "images"))
                            (lit "blue_widget_1700000000.png") Sample.png
                            (lit "image/png"))
                   (trace_of
                      (process_row
                         (Sample.services (Sample.happy Sample.widget_csv))
                         Sample.cfg_full (lit "uploads") (lit "products.csv")
                         0 [lit " Blue Widget "; lit "sturdy"]
                         1700000000%Z)))
    by (vm_compute; right; right; left; reflexivity).
  split; [exact Hin|].
  destruct (proj1 (@C9_image_object_name Z
                     (Sample.services (Sample.happy Sample.widget_csv))
                     Sample.cfg_full) _ _ _ _ _ _ _ _ _ Hin)
    as (_ & _ & txt & resp & w2 & d & w3 & H1 & H2 & H3).
  exists txt, resp, w2, d, w3.
  split; [exact H1|]. split; [exact H2|]. split; [|exact H3].
  cbn in H1. injection H1 as _ <-. cbn in H2. injection H2 as <- _.
  reflexivity.
Defined.

(** *** The query and the grid *)

Module GalleryFacts.
Import Gallery.

Lemma insert_desc_perm r l : Permutation (insert_desc r l) (r :: l).
Proof.
  induction l as [|x l IH]; simpl; [reflexivity|].
  destruct (processed_at x <? processed_at r)%Z; [reflexivity|].
  rewrite IH. apply perm_swap.
Qed.

Lemma insert_desc_sorted r l :
  StronglySorted desc l -> StronglySorted desc (insert_desc r l).
Proof.
  induction 1 as [|x l Hs IH Hx]; simpl.
  - repeat constructor.
  - destruct (processed_at x <? processed_at r)%Z eqn:Hlt.
    + apply Z.ltb_lt in Hlt. constructor; [constructor; assumption|].
      constructor; [unfold desc; lia|].
      eapply Forall_impl; [|exact Hx]. unfold desc. intros y Hy. lia.
    + apply Z.ltb_ge in Hlt. constructor; [exact IH|].
      eapply Permutation_Forall; [symmetry; apply insert_desc_perm|].
      constructor; [exact Hlt | exact Hx].
Qed.

Lemma order_perm l : Permutation (order_by_processed_at_desc l) l.
Proof.
  induction l as [|r l IH]; simpl; [reflexivity|].
  rewrite insert_desc_perm. constructor. exact IH.
Qed.

Lemma order_sorted l : StronglySorted desc (order_by_processed_at_desc l).
Proof.
  induction l as [|r l IH]; simpl; [constructor|].
  apply insert_desc_sorted. exact IH.
Qed.

Lemma sorted_app_inv (R : table_row -> table_row -> Prop) l1 : forall l2,
  StronglySorted R (l1 ++ l2) ->
  StronglySorted R l1 /\ StronglySorted R l2 /\
  forall x y, In x l1 -> In y l2 -> R x y.
Proof.
  induction l1 as [|a l1 IH]; simpl; intros l2 H.
  - repeat split; [constructor | exact H | intros x y []].
  - inversion H as [|a' l' Hs Ha]; subst.
    destruct (IH l2 Hs) as (H1 & H2 & H12).
    apply Forall_app in Ha as [Ha1 Ha2].
    repeat split; [constructor; assumption | exact H2|].
    intros x y [<- | Hx] Hy.
    + rewrite Forall_forall in Ha2. auto.
    + auto.
Qed.

Lemma nth_error_enumerate A (l : list A) : forall k i,
  nth_error (enumerate k l) i
  = option_map (fun a => (k + i, a)) (nth_error l i).
Proof.
  induction l as [|a l IH]; intros k [|i]; simpl; try reflexivity.
  - rewrite Nat.add_0_r. reflexivity.
  - rewrite IH. replace (S k + i) with (k + S i) by lia. reflexivity.
Qed.

(** The row at index [i] goes to column [i mod 3]. *)
Lemma placements_nth results i :
  nth_error (placements results) i
  = option_map (fun row => (i mod 3, row)) (nth_error results i).
Proof.
  unfold placements. rewrite nth_error_map, nth_error_enumerate.
  destruct (nth_error results i); reflexivity.
Qed.

Lemma grid_from_spec results u : forall k,
  In u (grid_from k results) <->
  exists i row,
    nth_error results i = Some row /\ In u (card_in ((k + i) mod 3) row).
Proof.
  induction results as [|r results IH]; intros k; cbn [grid_from].
  - split; [intros [] | intros ([|i] & row & H & _); discriminate H].
  - rewrite in_app_iff, IH. split.
    + intros [H | (i & row & Hi & H)].
      * exists 0, r. rewrite Nat.add_0_r. auto.
      * exists (S i), row. replace (k + S i) with (S k + i) by lia. auto.
    + intros ([|i] & row & Hi & H).
      * injection Hi as <-. rewrite Nat.add_0_r in H. auto.
      * right. exists i, row. replace (S k + i) with (k + S i) by lia. auto.
Qed.

(** The grid holds the columns and, for the row at each index [i], the
    calls of its card in column [i mod 3]. *)
Lemma grid_spec results u :
  In u (grid results) <->
  u = Columns 3 \/
  exists i row,
    nth_error results i = Some row /\ In u (card_in (i mod 3) row).
Proof.
  unfold grid. cbn [In]. rewrite grid_from_spec. cbn [plus].
  split; (intros [H | H]; [left; symmetry; exact H | right; exact H]).
Qed.

Lemma card_in_no_query col row : filter is_query (card_in col row) = [].
Proof.
  unfold card_in. destruct (r_generated_image_url row) as [[|c url]|];
    reflexivity.
Qed.

Lemma grid_no_query results : filter is_query (grid results) = [].
Proof.
  unfold grid. cbn [filter is_query]. generalize 0.
  induction results as [|r results IH]; intros k; [reflexivity|].
  cbn [grid_from]. rewrite filter_app, card_in_no_query. apply IH.
Qed.

(** The calls the loop makes for a row are those of its card. *)
Lemma card_calls col row : map (InColumn col) (card row) = card_in col row.
Proof.
  unfold card, card_in. destruct (r_generated_image_url row) as [[|c url]|];
    reflexivity.
Qed.

(** The calls the loop makes over the placed rows are those of the
    grid. *)
Lemma cards_grid results : forall k,
  cards (map (fun ir => (fst ir mod 3, snd ir)) (enumerate k results))
  = grid_from k results.
Proof.
  unfold cards. induction results as [|r results IH]; intros k;
    [reflexivity|].
  cbn [enumerate map flat_map fst snd grid_from]. rewrite card_calls, IH.
  reflexivity.
Qed.

(** Drawing one list of calls after another. *)
Lemma draw_app st a : forall done b,
  draw st done (a ++ b)
  = match draw st done a with
    | (done', true) => draw st done' b
    | (done', false) => (done', false)
    end.
Proof.
  induction a as [|c a IH]; intros done b; simpl; [reflexivity|].
  destruct (st done c); [apply IH | reflexivity].
Qed.

(** The loop makes the calls of the cards of the placed rows as one list
    of calls. *)
Lemma render_draw st placed : forall done,
  render st done placed = draw st done (cards placed).
Proof.
  induction placed as [|[col row] rest IH]; intros done; [reflexivity|].
  unfold cards. cbn [render flat_map fst snd]. rewrite draw_app.
  destruct (draw st done (map (InColumn col) (card row))) as [done' [|]];
    [apply IH | reflexivity].
Qed.

(** What is drawn of a list of calls is its longest beginning whose calls
    all return. *)
Lemma draw_spec st calls : forall done,
  exists drawn rest,
    calls = drawn ++ rest /\
    all_return st done drawn /\
    match rest with
    | [] => draw st done calls = (done ++ drawn, true)
    | c :: _ =>
        st (done ++ drawn) c = false /\
        draw st done calls = (done ++ drawn, false)
    end.
Proof.
  induction calls as [|c calls IH]; intros done.
  - exists [], []. split; [reflexivity|]. split.
    + intros [|x pre] y post H; discriminate H.
    + simpl. rewrite app_nil_r. reflexivity.
  - simpl. destruct (st done c) eqn:Hc.
    + destruct (IH (done ++ [c])) as (drawn & rest & -> & Hall & Hrest).
      exists (c :: drawn), rest. split; [reflexivity|]. split.
      * intros [|x pre] y post H; injection H as <- H.
        -- rewrite app_nil_r. exact Hc.
        -- subst drawn. specialize (Hall pre y post eq_refl).
           rewrite <- app_assoc in Hall. exact Hall.
      * rewrite <- app_assoc in Hrest. exact Hrest.
    + exists [], (c :: calls). split; [reflexivity|]. split.
      * intros [|x pre] y post H; discriminate H.
      * rewrite app_nil_r. split; [exact Hc | reflexivity].
Qed.

Lemma draw_all_return st calls : forall done,
  all_return st done calls -> draw st done calls = (done ++ calls, true).
Proof.
  induction calls as [|c calls IH]; intros done Hall; simpl.
  - rewrite app_nil_r. reflexivity.
  - pose proof (Hall [] c calls eq_refl) as Hc. rewrite app_nil_r in Hc.
    rewrite Hc, IH, <- app_assoc; [reflexivity|].
    intros pre y post ->. rewrite <- app_assoc.
    exact (Hall (c :: pre) y post eq_refl).
Qed.

(** The script over a table: the header and the query, then as much of
    the grid as is drawn, then the error panel if a call raised. *)
Lemma app_table st cfg table :
  app st cfg (Table table)
  = if negb (truthy (PROJECT_ID cfg)) || negb (truthy (DATASET_ID cfg))
       || negb (truthy (TABLE_ID cfg))
    then [PageHeader (table_name cfg); ErrorPanel]
    else
      match draw st (queried cfg) (grid (query table)) with
      | (shown, true) => shown
      | (shown, false) => shown ++ [ErrorPanel]
      end.
Proof.
  unfold app. destruct (negb _ || negb _ || negb _); [reflexivity|].
  change ([PageHeader (table_name cfg)] ++ [RunQuery (table_name cfg)])
    with (queried cfg).
  unfold grid. cbn [draw]. destruct (st (queried cfg) (Columns 3));
    [|reflexivity].
  rewrite render_draw. unfold placements. rewrite cards_grid. reflexivity.
Qed.

Lemma grid_from_app a : forall k b,
  grid_from k (a ++ b) = grid_from k a ++ grid_from (k + List.length a) b.
Proof.
  induction a as [|x a IH]; intros k b.
  - cbn [app grid_from List.length]. rewrite Nat.add_0_r. reflexivity.
  - change (grid_from k ((x :: a) ++ b))
      with (card_in (k mod 3) x ++ grid_from (S k) (a ++ b)).
    change (grid_from k (x :: a))
      with (card_in (k mod 3) x ++ grid_from (S k) a).
    change (List.length (x :: a)) with (S (List.length a)).
    rewrite IH, <- app_assoc.
    replace (S k + List.length a) with (k + S (List.length a)) by lia.
    reflexivity.
Qed.

(** The grid up to a row, the card of that row, and what follows. *)
Lemma grid_split earlier row later :
  exists after,
    grid (earlier ++ row :: later)
    = grid earlier ++ card_in (List.length earlier mod 3) row ++ after.
Proof.
  unfold grid. rewrite grid_from_app.
  change (grid_from (0 + List.length earlier) (row :: later))
    with (card_in (List.length earlier mod 3) row
          ++ grid_from (S (List.length earlier)) later).
  eexists. rewrite app_comm_cons. reflexivity.
Qed.

(** A list splits into what a test keeps and what it leaves. *)
Lemma filter_split (f : table_row -> bool) l :
  Permutation l (filter f l ++ filter (fun x => negb (f x)) l).
Proof.
  induction l as [|a l IH]; [reflexivity|]. simpl.
  destruct (f a); simpl.
  - constructor. exact IH.
  - apply Permutation_cons_app. exact IH.
Qed.

Lemma selected_split table :
  let ordered := order_by_processed_at_desc (filter where_clause table) in
  ordered = selected table ++ skipn 20 ordered.
Proof. simpl. unfold selected. symmetry. apply firstn_skipn. Qed.

End GalleryFacts.

(** The filter of the query keeps the rows the gallery is meant to
    show. *)
Lemma where_clause_spec r : Gallery.where_clause r = true <-> qualifies r.
Proof.
  unfold Gallery.where_clause, qualifies.
  destruct (Gallery.generated_image_url r) as [url|].
  - rewrite negb_true_iff, <- not_true_iff_false, startswith_spec. split.
    + intros H. exists url. split; [reflexivity | exact H].
    + intros (url' & [= <-] & H). exact H.
  - split; [discriminate | intros (url & [=] & _)].
Qed.

Lemma select_shows l : Forall2 shows (map Gallery.select l) l.
Proof.
  induction l as [|r l IH]; simpl; constructor; [|exact IH].
  repeat split.
Qed.

(** C5, as stated, fails.  The query returns two rows; the more recent
    one carries the skip marker, [st.image] raises on it, and the run
    ends with the error panel: the row at index 1 is returned, and no
    call of its card is made in any column. *)
Lemma C5_returned_row_is_not_drawn :
  let results := Gallery.query Sample.small_table in
  let run := Gallery.app Sample.streamlit Sample.viewer
               (Gallery.Table Sample.small_table) in
  results = [Gallery.select Sample.skipped_row;
             Gallery.select (Sample.stored_row 3)] /\
  run = [Gallery.PageHeader (lit "proj.marketing.content");
         Gallery.RunQuery (lit "proj.marketing.content");
         Gallery.Columns 3;
         Gallery.InColumn 0 (Gallery.Subheader (lit "Widget"));
         Gallery.ErrorPanel] /\
  forall col u,
    In u (card_in col (Gallery.select (Sample.stored_row 3))) ->
    ~ In u run.
Proof.
  cbv zeta. split; [vm_compute; reflexivity|].
  assert (Hrun : Gallery.app Sample.streamlit Sample.viewer
                   (Gallery.Table Sample.small_table)
                 = [Gallery.PageHeader (lit "proj.marketing.content");
                    Gallery.RunQuery (lit "proj.marketing.content");
                    Gallery.Columns 3;
                    Gallery.InColumn 0 (Gallery.Subheader (lit "Widget"));
                    Gallery.ErrorPanel])
    by (vm_compute; reflexivity).
  split; [exact Hrun|]. rewrite Hrun. intros col u Hu Hin.
  vm_compute in Hu.
  destruct Hu as [<- | [<- | [<- | [<- | [<- | [<- | []]]]]]];
    destruct Hin as [H | [H | [H | [H | [H | []]]]]]; discriminate H.
Qed.

(** C5, amended.  The query returns at most 20 rows, which show the four
    columns of the rows it keeps: rows of the table whose
    [generated_image_url] is not NULL and does not begin with "Error",
    most recent first.  The table is made of the rows kept, of the rows
    of that kind left out by the limit, none of them more recent than a
    row kept, and of the rows that are not of that kind.  The row at
    index [i] of the result is placed in column [i mod 3], and the grid
    is made of the columns and of the card of each row in the column it
    is placed in.  A run of the script sends the query at most once.
    With the configuration complete, it shows the header, sends the
    query and draws the grid from its beginning up to the first
    Streamlit call that raises, where the error panel takes the place of
    the rest; when no call raises the whole grid is drawn. *)
Theorem C5_gallery_query_and_grid :
  forall table,
    let kept := Gallery.selected table in
    let results := Gallery.query table in
    Forall2 shows results kept /\
    List.length results <= 20 /\
    Forall qualifies kept /\
    StronglySorted Gallery.desc kept /\
    (exists left_out dropped,
       Permutation table (kept ++ left_out ++ dropped) /\
       Forall qualifies left_out /\
       Forall (fun r => ~ qualifies r) dropped /\
       List.length results = Nat.min 20 (List.length (kept ++ left_out)) /\
       forall x y, In x kept -> In y left_out -> Gallery.desc x y) /\
    (forall i row,
       nth_error results i = Some row ->
       nth_error (Gallery.placements results) i = Some (i mod 3, row)) /\
    (forall u,
       In u (grid results) <->
       u = Gallery.Columns 3 \/
       exists i row,
         nth_error results i = Some row /\ In u (card_in (i mod 3) row)) /\
    (forall st cfg wh,
       List.length (filter Gallery.is_query (Gallery.app st cfg wh)) <= 1) /\
    (forall st cfg,
       truthy (Gallery.PROJECT_ID cfg) = true ->
       truthy (Gallery.DATASET_ID cfg) = true ->
       truthy (Gallery.TABLE_ID cfg) = true ->
       exists drawn rest,
         grid results = drawn ++ rest /\
         all_return st (queried cfg) drawn /\
         match rest with
         | [] =>
             Gallery.app st cfg (Gallery.Table table) = queried cfg ++ drawn
         | c :: _ =>
             st (queried cfg ++ drawn) c = false /\
             Gallery.app st cfg (Gallery.Table table)
             = queried cfg ++ drawn ++ [Gallery.ErrorPanel]
         end) /\
    (forall st cfg,
       truthy (Gallery.PROJECT_ID cfg) = true ->
       truthy (Gallery.DATASET_ID cfg) = true ->
       truthy (Gallery.TABLE_ID cfg) = true ->
       all_return st (queried cfg) (grid results) ->
       Gallery.app st cfg (Gallery.Table table) = queried cfg ++ grid results).
Proof.
  intros table kept results. subst kept results.
  set (ordered := Gallery.order_by_processed_at_desc
                    (filter Gallery.where_clause table)).
  assert (Hperm : Permutation ordered (filter Gallery.where_clause table))
    by apply GalleryFacts.order_perm.
  assert (Hsorted : StronglySorted Gallery.desc ordered)
    by apply GalleryFacts.order_sorted.
  assert (Hsplit : ordered = Gallery.selected table ++ skipn 20 ordered)
    by apply GalleryFacts.selected_split.
  assert (Hlen : List.length (Gallery.selected table)
                 = Nat.min 20
                     (List.length (filter Gallery.where_clause table))).
  { unfold Gallery.selected. fold ordered.
    rewrite length_firstn, (Permutation_length Hperm). reflexivity. }
  assert (Hq : forall r, In r ordered -> qualifies r).
  { intros r Hr. apply where_clause_spec.
    apply (Permutation_in _ Hperm) in Hr. apply filter_In in Hr. apply Hr. }
  rewrite Hsplit in Hsorted.
  apply GalleryFacts.sorted_app_inv in Hsorted as (Hs1 & _ & Hs12).
  split; [apply select_shows|]. unfold Gallery.query at 1 2.
  rewrite length_map.
  split; [rewrite Hlen; apply Nat.le_min_l|].
  split; [|split; [exact Hs1|split; [|split; [|split; [|split; [|split]]]]]].
  - apply Forall_forall. intros r Hr. apply Hq.
    rewrite Hsplit. apply in_or_app. auto.
  - exists (skipn 20 ordered),
      (filter (fun r => negb (Gallery.where_clause r)) table).
    split; [|split; [|split; [|split; [|exact Hs12]]]].
    + rewrite app_assoc, <- Hsplit, Hperm. apply GalleryFacts.filter_split.
    + apply Forall_forall. intros r Hr. apply Hq.
      rewrite Hsplit. apply in_or_app. auto.
    + apply Forall_forall. intros r Hr Hqr.
      apply filter_In in Hr as [_ Hr]. apply where_clause_spec in Hqr.
      rewrite Hqr in Hr. discriminate Hr.
    + rewrite <- Hsplit, (Permutation_length Hperm). exact Hlen.
  - intros i row Hi. rewrite GalleryFacts.placements_nth, Hi. reflexivity.
  - intros u. apply GalleryFacts.grid_spec.
  - intros st cfg wh. destruct wh as [| |t].
    1, 2: unfold Gallery.app;
          destruct (negb _ || negb _ || negb _); simpl; lia.
    rewrite GalleryFacts.app_table.
    destruct (negb _ || negb _ || negb _); [simpl; lia|].
    destruct (GalleryFacts.draw_spec st (grid (Gallery.query t)) (queried cfg))
      as (drawn & rest & Hg & _ & Hrest).
    assert (Hd : filter Gallery.is_query drawn = []).
    { assert (H : filter Gallery.is_query (drawn ++ rest) = []).
      { rewrite <- Hg. apply GalleryFacts.grid_no_query. }
      rewrite filter_app in H. apply app_eq_nil in H. apply H. }
    destruct rest as [|c rest]; [|destruct Hrest as [_ Hrest]];
      rewrite Hrest, ?filter_app, Hd; simpl; lia.
  - intros st cfg Hp Hd Ht. rewrite GalleryFacts.app_table, Hp, Hd, Ht.
    cbn [negb orb].
    destruct (GalleryFacts.draw_spec st (grid (Gallery.query table))
                (queried cfg)) as (drawn & rest & Hg & Hall & Hrest).
    exists drawn, rest. split; [exact Hg|]. split; [exact Hall|].
    destruct rest as [|c rest].
    + rewrite Hrest. reflexivity.
    + destruct Hrest as [Hc Hrest]. split; [exact Hc|].
      rewrite Hrest, app_assoc. reflexivity.
  - intros st cfg Hp Hd Ht Hall. rewrite GalleryFacts.app_table, Hp, Hd, Ht.
    cbn [negb orb]. rewrite (GalleryFacts.draw_all_return Hall). reflexivity.
Qed.

(** C5 at work, on the example of section 8: of 25 rows, 5 with an error
    marker, the query returns the other 20, most recent first; of 30
    rows, 6 with an error marker, it returns the 20 most recent of the
    other 24; and a Streamlit that draws every call draws the whole grid
    of the 20 rows: the header, the query, the columns and six calls for
    each row. *)
Lemma C5_twenty_five_rows_example :
  List.length (Gallery.query (Sample.stored 25)) = 20 /\
  map Gallery.processed_at (Gallery.selected (Sample.stored 30))
  = [29; 28; 27; 26; 24; 23; 22; 21; 19; 18;
     17; 16; 14; 13; 12; 11; 9; 8; 7; 6]%Z /\
  Gallery.app Sample.lenient Sample.viewer (Gallery.Table (Sample.stored 25))
  = queried Sample.viewer ++ grid (Gallery.query (Sample.stored 25)) /\
  List.length (Gallery.app Sample.lenient Sample.viewer
                 (Gallery.Table (Sample.stored 25))) = 123.
Proof.
  assert (Hrun : Gallery.app Sample.lenient Sample.viewer
                   (Gallery.Table (Sample.stored 25))
                 = queried Sample.viewer
                   ++ grid (Gallery.query (Sample.stored 25))).
  { apply (C5_gallery_query_and_grid (Sample.stored 25));
      try reflexivity.
    intros pre c post _. reflexivity. }
  split; [vm_compute; reflexivity|]. split; [vm_compute; reflexivity|].
  split; [exact Hrun|]. rewrite Hrun. vm_compute. reflexivity.
Defined.

(** C10, as stated, fails.  Two rows carry the skip marker and both are
    returned by the query, but neither is rendered: [st.image] is called
    with the marker as if it were the address of an image and raises, so
    the card of the more recent one ends after its heading, the error
    panel follows, and no call of the card of the older one is made. *)
Lemma C10_skipped_rows_are_not_rendered :
  let results := Gallery.query Sample.two_skips_table in
  let run := Gallery.app Sample.streamlit Sample.viewer
               (Gallery.Table Sample.two_skips_table) in
  results = [Gallery.select Sample.skipped_row;
             Gallery.select (Sample.stored_row 3);
             Gallery.select Sample.older_skipped_row] /\
  run = [Gallery.PageHeader (lit "proj.marketing.content");
         Gallery.RunQuery (lit "proj.marketing.content");
         Gallery.Columns 3;
         Gallery.InColumn 0 (Gallery.Subheader (lit "Widget"));
         Gallery.ErrorPanel] /\
  ~ In (Gallery.InColumn 0 (Gallery.Image skipped)) run /\
  ~ In (Gallery.InColumn 0
          (Gallery.Markdown (lit "**Keywords:** durable|blue"))) run /\
  forall col u,
    In u (card_in col (Gallery.select Sample.older_skipped_row)) ->
    ~ In u run.
Proof.
  cbv zeta. split; [vm_compute; reflexivity|].
  assert (Hrun : Gallery.app Sample.streamlit Sample.viewer
                   (Gallery.Table Sample.two_skips_table)
                 = [Gallery.PageHeader (lit "proj.marketing.content");
                    Gallery.RunQuery (lit "proj.marketing.content");
                    Gallery.Columns 3;
                    Gallery.InColumn 0 (Gallery.Subheader (lit "Widget"));
                    Gallery.ErrorPanel])
    by (vm_compute; reflexivity).
  split; [exact Hrun|]. rewrite Hrun. split; [|split].
  - intros [H | [H | [H | [H | [H | []]]]]]; discriminate H.
  - intros [H | [H | [H | [H | [H | []]]]]]; discriminate H.
  - intros col u Hu Hin. vm_compute in Hu.
    destruct Hu as [<- | [<- | [<- | [<- | [<- | [<- | []]]]]]];
      destruct Hin as [H | [H | [H | [H | [H | []]]]]]; discriminate H.
Qed.

(** C10, amended.  A row whose text failed the test of line 111 is
    recorded with the skip marker as its [generated_image_url], and a
    warehouse row with that value passes the filter of the query: the
    value is not NULL and does not begin with "Error".  When no more than
    20 rows of the table pass the filter, such a row is in the result.
    In a run where every call up to the heading of its card returns, the
    heading is drawn in the column of its index modulo 3 and [st.image]
    is called with the marker: if that call raises, the run ends there
    with the error panel; if it returns, the run goes on after it. *)
Theorem C10_skipped_rows_reach_gallery :
  forall table r,
    Gallery.generated_image_url r = Some skipped ->
    In r table ->
    List.length (filter Gallery.where_clause table) <= 20 ->
    (forall W (svc : Services W) cfg pn txt w,
       nonempty txt && negb (contains (lit "Error:") txt) = false ->
       result_of (image_step svc cfg pn txt w)
       = Ok (lit "Skipped: Text generation failed.")) /\
    skipped = lit "Skipped: Text generation failed." /\
    Gallery.where_clause r = true /\
    In r (Gallery.selected table) /\
    exists earlier row later,
      Gallery.query table = earlier ++ row :: later /\
      shows row r /\
      forall st cfg,
        truthy (Gallery.PROJECT_ID cfg) = true ->
        truthy (Gallery.DATASET_ID cfg) = true ->
        truthy (Gallery.TABLE_ID cfg) = true ->
        let col := List.length earlier mod 3 in
        let before := queried cfg ++ grid earlier in
        let heading :=
          Gallery.InColumn col (Gallery.Subheader (Gallery.product_name r)) in
        let picture := Gallery.InColumn col (Gallery.Image skipped) in
        all_return st (queried cfg) (grid earlier ++ [heading]) ->
        if st (before ++ [heading]) picture
        then exists rest,
               Gallery.app st cfg (Gallery.Table table)
               = before ++ heading :: picture :: rest
        else Gallery.app st cfg (Gallery.Table table)
             = before ++ [heading; Gallery.ErrorPanel].
Proof.
  intros table r Hurl Hin Hlen.
  assert (Hw : Gallery.where_clause r = true).
  { unfold Gallery.where_clause. rewrite Hurl. reflexivity. }
  assert (Hsel : In r (Gallery.selected table)).
  { unfold Gallery.selected. rewrite firstn_all2.
    - apply (Permutation_in _
               (Permutation_sym (GalleryFacts.order_perm _))).
      apply filter_In. split; assumption.
    - rewrite (Permutation_length (GalleryFacts.order_perm _)). exact Hlen. }
  split; [|split; [reflexivity | split; [exact Hw | split; [exact Hsel|]]]].
  - intros W svc cfg pn txt w Hok. unfold image_step, text_ok.
    rewrite Hok. reflexivity.
  - assert (Hq : In (Gallery.select r) (Gallery.query table))
      by (apply in_map; exact Hsel).
    apply in_split in Hq as (earlier & later & Hq).
    exists earlier, (Gallery.select r), later. split; [exact Hq|].
    split; [repeat split|].
    intros st cfg Hp Hd Ht col before heading picture Hall.
    rewrite GalleryFacts.app_table, Hp, Hd, Ht. cbn [negb orb]. rewrite Hq.
    destruct (GalleryFacts.grid_split earlier (Gallery.select r) later)
      as (after & ->).
    assert (Hcard : exists tail,
              card_in col (Gallery.select r) = heading :: picture :: tail).
    { unfold card_in, Gallery.select.
      cbn [Gallery.r_generated_image_url Gallery.r_product_name
           Gallery.r_keywords Gallery.r_generated_content].
      rewrite Hurl. eexists. reflexivity. }
    destruct Hcard as (tail & Hcard). fold col. rewrite Hcard.
    replace (grid earlier ++ (heading :: picture :: tail) ++ after)
      with ((grid earlier ++ [heading]) ++ picture :: tail ++ after)
      by (rewrite <- app_assoc; reflexivity).
    rewrite GalleryFacts.draw_app, (GalleryFacts.draw_all_return Hall).
    cbn [Gallery.draw].
    replace (queried cfg ++ grid earlier ++ [heading])
      with (before ++ [heading])
      by (unfold before; rewrite <- app_assoc; reflexivity).
    destruct (st (before ++ [heading]) picture).
    + match goal with
      | |- context [Gallery.draw st ?done ?calls] =>
          destruct (GalleryFacts.draw_spec st calls done)
            as (drawn & rest & _ & _ & Hrest)
      end.
      destruct rest as [|c rest]; [|destruct Hrest as [_ Hrest]];
        rewrite Hrest; eexists; rewrite <- !app_assoc; reflexivity.
    + rewrite <- app_assoc. reflexivity.
Qed.

(** C10 at work: the row of a failed text step, the most recent of the
    table, is kept by the query; the columns and its heading are drawn,
    [st.image] raises on the marker, and the run ends with the error
    panel. *)
Lemma C10_skipped_row_example :
  Gallery.where_clause Sample.skipped_row = true /\
  In Sample.skipped_row (Gallery.selected Sample.small_table) /\
  Gallery.app Sample.streamlit Sample.viewer (Gallery.Table Sample.small_table)
  = queried Sample.viewer
    ++ [Gallery.Columns 3;
        Gallery.InColumn 0 (Gallery.Subheader (lit "Widget"));
        Gallery.ErrorPanel].
Proof.
  destruct (@C10_skipped_rows_reach_gallery Sample.small_table
              Sample.skipped_row eq_refl (or_intror (or_introl eq_refl))
              (proj1 (Nat.leb_le 2 20) eq_refl))
    as (_ & _ & Hw & Hsel & earlier & row & later & Hq & Hsh & Hrun).
  split; [exact Hw|]. split; [exact Hsel|].
  specialize (Hrun Sample.streamlit Sample.viewer eq_refl eq_refl eq_refl).
  cbv zeta in Hrun.
  assert (He : earlier = []).
  { vm_compute in Hq.
    destruct earlier as [|x [|y earlier]]; [reflexivity | |]; exfalso.
    - injection Hq as _ <- _. destruct Hsh as [Hsh _]. discriminate Hsh.
    - injection Hq as _ _ Hq. destruct earlier; discriminate Hq. }
  subst earlier.
  assert (Hall : all_return Sample.streamlit (queried Sample.viewer)
                   [Gallery.Columns 3;
                    Gallery.InColumn 0 (Gallery.Subheader (lit "Widget"))]).
  { intros [|x [|y pre]] c post H.
    - injection H as <- _. reflexivity.
    - injection H as _ <- _. reflexivity.
    - injection H as _ _ H. destruct pre; discriminate H. }
  exact (Hrun Hall).
Defined.

(** *** A row, end to end *)

Section RowOutcomes.

Variable W : Type.
Variable svc : Services W.
Variable cfg : config.

(** The text step, case by case. *)
Lemma text_step_run pn kw w :
  text_step svc pn kw w =
  match generate_text svc (text_prompt pn kw) w with
  | (Ok resp, w1) =>
      match resp_text resp with
      | Ok t => ([ETextCall (text_prompt pn kw)], w1, Ok (strip t))
      | Raise e =>
          ([ETextCall (text_prompt pn kw); ELog ERROR (MsgTextFailed pn e)],
           w1, Ok text_failed)
      end
  | (Raise e, w1) =>
      ([ETextCall (text_prompt pn kw); ELog ERROR (MsgTextFailed pn e)],
       w1, Ok text_failed)
  end.
Proof.
  unfold text_step, try_except, bind, call, of_result, log, ret, raise.
  destruct (generate_text svc (text_prompt pn kw) w) as [[resp|e] w1];
    [|reflexivity].
  destruct (resp_text resp) as [t|e]; reflexivity.
Qed.

(** Past the tests of lines 88 and 95 a turn of the loop is the text
    step, the image step and the assembly of the record. *)
Lemma process_row_valid b f i row w :
  emits_record row = true ->
  process_row svc cfg b f i row w =
  bind (text_step svc (field 0 row) (field 1 row))
    (fun generated_text =>
       bind (image_step svc cfg (field 0 row) generated_text)
         (fun generated_image_url =>
            bind (now svc)
              (fun d =>
                 ret (Some {| product_name := field 0 row;
                              keywords := field 1 row;
                              generated_content := generated_text;
                              generated_image_url := generated_image_url;
                              source_file := source_locator b f;
                              processed_at := isoformat d |})))) w.
Proof.
  unfold process_row, emits_record. intros H.
  change (strip (nth 0 row [])) with (field 0 row) in H.
  change (strip (nth 1 row [])) with (field 1 row) in H.
  apply andb_true_iff in H as [Hlen Hne]. apply Nat.leb_le in Hlen.
  assert (Hlt : (List.length row <? 2) = false) by (apply Nat.ltb_ge; lia).
  rewrite Hlt.
  destruct (nonempty (field 0 row)), (nonempty (field 1 row));
    try discriminate; reflexivity.
Qed.

(** The test of line 111 in words: the text is empty or holds "Error:"
    somewhere. *)
Lemma text_ok_false t :
  text_ok t = false <->
  t = [] \/ exists before after, t = before ++ lit "Error:" ++ after.
Proof.
  unfold text_ok. rewrite andb_false_iff, negb_false_iff, contains_spec.
  split; (intros [H | H]; [left | right; exact H]).
  - destruct t; [reflexivity | discriminate].
  - subst t. reflexivity.
Qed.

End RowOutcomes.

(** A data row that passes the tests of lines 88 and 95 and whose text
    generation raises, in the call or in reading [.text]: the model is
    called once, the error is logged, the image model is not called and
    nothing is uploaded; the row still gives a record, with "Error: Text
    generation failed." as content and the skip marker as image URL. *)
Theorem failed_text_row :
  forall W (svc : Services W) cfg b f i row w e w1,
    emits_record row = true ->
    (generate_text svc (text_prompt (field 0 row) (field 1 row)) w
     = (Raise e, w1)
     \/ exists resp,
          generate_text svc (text_prompt (field 0 row) (field 1 row)) w
          = (Ok resp, w1) /\ resp_text resp = Raise e) ->
    process_row svc cfg b f i row w
    = ([ETextCall (text_prompt (field 0 row) (field 1 row));
        ELog ERROR (MsgTextFailed (field 0 row) e)],
       snd (utcnow svc w1),
       Ok (Some {| product_name := field 0 row;
                   keywords := field 1 row;
                   generated_content := text_failed;
                   generated_image_url := skipped;
                   source_file := source_locator b f;
                   processed_at := isoformat (fst (utcnow svc w1)) |})).
Proof.
  intros W svc cfg b f i row w e w1 Hrow Hfail.
  rewrite (process_row_valid svc cfg b f i row w Hrow).
  unfold bind at 1. rewrite text_step_run.
  assert (E : match generate_text svc
                      (text_prompt (field 0 row) (field 1 row)) w with
              | (Ok resp, w1) =>
                  match resp_text resp with
                  | Ok t =>
                      ([ETextCall (text_prompt (field 0 row) (field 1 row))],
                       w1, Ok (strip t))
                  | Raise e =>
                      ([ETextCall (text_prompt (field 0 row) (field 1 row));
                        ELog ERROR (MsgTextFailed (field 0 row) e)],
                       w1, Ok text_failed)
                  end
              | (Raise e, w1) =>
                  ([ETextCall (text_prompt (field 0 row) (field 1 row));
                    ELog ERROR (MsgTextFailed (field 0 row) e)],
                   w1, Ok text_failed)
              end
              = ([ETextCall (text_prompt (field 0 row) (field 1 row));
                  ELog ERROR (MsgTextFailed (field 0 row) e)],
                 w1, Ok text_failed)).
  { destruct Hfail as [-> | (resp & -> & ->)]; reflexivity. }
  rewrite E. unfold bind, image_step.
  rewrite text_failed_not_ok. unfold ret, now.
  destruct (utcnow svc w1) as [d w2]. reflexivity.
Qed.

(** [failed_text_row] at work: the text model is down. *)
Lemma failed_text_row_example :
  process_row (Sample.services Sample.silent) Sample.cfg_full
    (lit "uploads") (lit "products.csv") 0
    [lit " Widget "; lit "durable|blue"] 1700000000%Z
  = ([ETextCall (text_prompt (lit "Widget") (lit "durable|blue"));
      ELog ERROR (MsgTextFailed (lit "Widget")
                                (LibraryError (lit "Unavailable")))],
     1700000001%Z,
     Ok (Some {| product_name := lit "Widget";
                 keywords := lit "durable|blue";
                 generated_content := text_failed;
                 generated_image_url := skipped;
                 source_file := lit "gs://uploads/products.csv";
                 processed_at := lit "2023-11-14T22:13:20" |})).
Proof.
  exact (@failed_text_row Z (Sample.services Sample.silent) Sample.cfg_full
           (lit "uploads") (lit "products.csv") 0
           [lit " Widget "; lit "durable|blue"] 1700000000%Z
           (LibraryError (lit "Unavailable")) 1700000000%Z
           eq_refl (or_introl eq_refl)).
Defined.

(** A data row whose text is generated but is empty once trimmed, or holds
    "Error:" somewhere: the trimmed text is kept as the content of the
    record, the image model is not called, and the image URL is the skip
    marker; nothing is logged. *)
Theorem flagged_text_row :
  forall W (svc : Services W) cfg b f i row w resp w1 t,
    emits_record row = true ->
    generate_text svc (text_prompt (field 0 row) (field 1 row)) w
    = (Ok resp, w1) ->
    resp_text resp = Ok t ->
    (strip t = [] \/
     exists before after, strip t = before ++ lit "Error:" ++ after) ->
    process_row svc cfg b f i row w
    = ([ETextCall (text_prompt (field 0 row) (field 1 row))],
       snd (utcnow svc w1),
       Ok (Some {| product_name := field 0 row;
                   keywords := field 1 row;
                   generated_content := strip t;
                   generated_image_url := skipped;
                   source_file := source_locator b f;
                   processed_at := isoformat (fst (utcnow svc w1)) |})).
Proof.
  intros W svc cfg b f i row w resp w1 t Hrow Hgen Htext Hflag.
  apply text_ok_false in Hflag.
  rewrite (process_row_valid svc cfg b f i row w Hrow).
  unfold bind at 1. rewrite text_step_run, Hgen, Htext.
  unfold bind, image_step. rewrite Hflag. unfold ret, now.
  destruct (utcnow svc w1) as [d w2]. reflexivity.
Qed.

(** [flagged_text_row] at work: the sentence " Say goodbye to Error: 404
    pages. " is stored trimmed, without an image. *)
Lemma flagged_text_row_example :
  process_row (Sample.services Sample.wordy) Sample.cfg_full
    (lit "uploads") (lit "products.csv") 0
    [lit "Widget"; lit "durable|blue"] 1700000000%Z
  = ([ETextCall (text_prompt (lit "Widget") (lit "durable|blue"))],
     1700000001%Z,
     Ok (Some {| product_name := lit "Widget";
                 keywords := lit "durable|blue";
                 generated_content := lit "Say goodbye to Error: 404 pages.";
                 generated_image_url := skipped;
                 source_file := lit "gs://uploads/products.csv";
                 processed_at := lit "2023-11-14T22:13:20" |})).
Proof.
  exact (@flagged_text_row Z (Sample.services Sample.wordy) Sample.cfg_full
           (lit "uploads") (lit "products.csv") 0
           [lit "Widget"; lit "durable|blue"] 1700000000%Z
           {| resp_text := Ok (lit " Say goodbye to Error: 404 pages. ") |}
           1700000000%Z (lit " Say goodbye to Error: 404 pages. ")
           eq_refl eq_refl eq_refl
           (or_intror (ex_intro _ (lit "Say goodbye to ")
                         (ex_intro _ (lit " 404 pages.") eq_refl)))).
Defined.

(** A data row for which everything works: the text model is called with
    the prompt of the two trimmed fields, the image model with the prompt
    of the product name and the first 100 characters of the trimmed text;
    the [inline_data] of the first part is uploaded under the name built
    from the first reading of the clock, and the record holds the trimmed
    text, the public URL of that object and the second reading of the
    clock. *)
Theorem illustrated_row :
  forall W (svc : Services W) cfg b f i row
         w resp w1 t iresp w2 first others d1 w3 w4 d2 w5,
    emits_record row = true ->
    let pn := field 0 row in
    let images := PRODUCT_IMAGES_BUCKET_NAME cfg in
    let name := image_blob_name svc pn d1 in
    generate_text svc (text_prompt pn (field 1 row)) w = (Ok resp, w1) ->
    resp_text resp = Ok t ->
    text_ok (strip t) = true ->
    generate_image svc (image_prompt pn (strip t)) w1 = (Ok iresp, w2) ->
    resp_parts iresp = AttrValue (first :: others) ->
    utcnow svc w2 = (d1, w3) ->
    bucket svc images = Ok tt ->
    upload_from_file svc images name (inline_data_data first)
                     (lit "image/png") w3 = (Ok tt, w4) ->
    utcnow svc w4 = (d2, w5) ->
    process_row svc cfg b f i row w
    = ([ETextCall (text_prompt pn (field 1 row));
        EImageCall (image_prompt pn (strip t));
        EUpload images name (inline_data_data first) (lit "image/png")],
       w5,
       Ok (Some {| product_name := pn;
                   keywords := field 1 row;
                   generated_content := strip t;
                   generated_image_url := public_url svc images name;
                   source_file := source_locator b f;
                   processed_at := isoformat d2 |})).
Proof.
  intros W svc cfg b f i row w resp w1 t iresp w2 first others d1 w3 w4 d2 w5
         Hrow pn images name Hgen Htext Hok Himg Hparts Hd1 Hbk Hup Hd2.
  subst pn images name.
  rewrite (process_row_valid svc cfg b f i row w Hrow).
  unfold bind at 1. rewrite text_step_run, Hgen, Htext.
  unfold bind at 1. unfold image_step. rewrite Hok.
  unfold try_except, image_attempt, bind, call, now, of_result, ret.
  rewrite Himg, Hparts, Hd1, Hbk, Hup, Hd2. reflexivity.
Qed.

(** [illustrated_row] at work: "Blue Widget" at second 1700000000. *)
Lemma illustrated_row_example :
  process_row (Sample.services (Sample.happy Sample.widget_csv))
    Sample.cfg_full (lit "uploads") (lit "products.csv") 0
    [lit "Blue Widget"; lit "sturdy"] 1700000000%Z
  = ([ETextCall (text_prompt (lit "Blue Widget") (lit "sturdy"));
      EImageCall (image_prompt (lit "Blue Widget") (lit "A fine product."));
      EUpload (Some (lit "images")) (lit "blue_widget_1700000000.png")
              Sample.png (lit "image/png")],
     1700000002%Z,
     Ok (Some {| product_name := lit "Blue Widget";
                 keywords := lit "sturdy";
                 generated_content := lit "A fine product.";
                 generated_image_url :=
                   lit "https://storage.googleapis.com/images/"
                   ++ lit "blue_widget_1700000000.png";
                 source_file := lit "gs://uploads/products.csv";
                 processed_at := lit "2023-11-14T22:13:20" |})).
Proof.
  exact (@illustrated_row Z (Sample.services (Sample.happy Sample.widget_csv))
           Sample.cfg_full (lit "uploads") (lit "products.csv") 0
           [lit "Blue Widget"; lit "sturdy"] 1700000000%Z
           {| resp_text := Ok (lit " A fine product. ") |} 1700000000%Z
           (lit " A fine product. ")
           {| resp_parts :=
                AttrValue [PartInlineData (lit "image/png") Sample.png] |}
           1700000000%Z (PartInlineData (lit "image/png") Sample.png) []
           {| timestamp_int := 1700000000;
              isoformat := lit "2023-11-14T22:13:20" |}
           1700000001%Z 1700000001%Z
           {| timestamp_int := 1700000001;
              isoformat := lit "2023-11-14T22:13:20" |}
           1700000002%Z
           eq_refl eq_refl eq_refl eq_refl eq_refl eq_refl eq_refl eq_refl
           eq_refl eq_refl).
Defined.

(** *** How often the services are called *)

Section Tally.

Variable W : Type.
Variable svc : Services W.
Variable cfg : config.

Lemma row_class_counts t :
  Forall (fun ev => row_class ev = true) t ->
  count is_download t = 0 /\ count is_copy t = 0 /\
  count is_delete t = 0 /\ count is_insert t = 0.
Proof.
  intros H. repeat split; apply count_zero;
    (eapply Forall_impl; [|exact H]); intros [] Hev;
    try reflexivity; discriminate Hev.
Qed.

Lemma process_row_class b f i row :
  everywhere (fun ev => row_class ev = true) (process_row svc cfg b f i row).
Proof.
  apply everywhere_impl with (P := row_event svc cfg (field 0 row));
    [|apply process_row_events].
  intros [] H; try reflexivity; contradiction.
Qed.

Lemma process_rows_class b f rows : forall i acc,
  everywhere (fun ev => row_class ev = true)
             (process_rows svc cfg b f i rows acc).
Proof.
  induction rows as [|row rest IH]; intros i acc; simpl.
  - apply everywhere_ret.
  - apply everywhere_bind; [apply process_row_class | intros r; apply IH].
Qed.

(** The image step calls the text model never, the image model once or
    not at all, and uploads at most once, after the image model. *)
Lemma image_step_tally pn txt w :
  exists t w' url,
    image_step svc cfg pn txt w = (t, w', Ok url) /\
    count is_text_call t = 0 /\
    count is_image_call t <= 1 /\
    count is_upload t <= count is_image_call t.
Proof.
  unfold image_step. destruct (text_ok txt).
  - unfold try_except, image_attempt, bind, call, now, of_result.
    destruct (generate_image svc (image_prompt pn txt) w) as [[resp|e] w1].
    + destruct (resp_parts resp) as [|e|[|p ps]]; simpl;
        try (do 3 eexists; (split; [reflexivity|]); unfold count; simpl; lia).
      destruct (utcnow svc w1) as [d w2]. simpl.
      destruct (bucket svc (PRODUCT_IMAGES_BUCKET_NAME cfg)) as [[]|e]; simpl;
        [|do 3 eexists; (split; [reflexivity|]); unfold count; simpl; lia].
      destruct (upload_from_file svc _ _ _ _ w2) as [[[]|e] w3]; simpl;
        do 3 eexists; (split; [reflexivity|]); unfold count; simpl; lia.
    + simpl. do 3 eexists; (split; [reflexivity|]); unfold count; simpl; lia.
  - exists [], w, skipped. split; [reflexivity|]. unfold count; simpl; lia.
Qed.

(** A turn of the loop calls the text model once for a row that gives a
    record and never otherwise. *)
Lemma process_row_tally b f i row w :
  let t := trace_of (process_row svc cfg b f i row w) in
  count is_text_call t = (if emits_record row then 1 else 0) /\
  count is_image_call t <= count is_text_call t /\
  count is_upload t <= count is_image_call t.
Proof.
  cbv zeta. destruct (emits_record row) eqn:Hrow.
  - assert (E : exists t1 t2 w3 r,
               process_row svc cfg b f i row w = (t1 ++ t2, w3, r) /\
               (count is_text_call t1 = 1 /\ count is_image_call t1 = 0 /\
                count is_upload t1 = 0) /\
               (count is_text_call t2 = 0 /\ count is_image_call t2 <= 1 /\
                count is_upload t2 <= count is_image_call t2)).
    { rewrite (process_row_valid svc cfg b f i row w Hrow).
      unfold bind at 1. rewrite text_step_run.
      assert (Hgen : exists t1 w1 txt,
                 match generate_text svc
                         (text_prompt (field 0 row) (field 1 row)) w with
                 | (Ok resp, w1) =>
                     match resp_text resp with
                     | Ok t =>
                         ([ETextCall
                             (text_prompt (field 0 row) (field 1 row))],
                          w1, Ok (strip t))
                     | Raise e =>
                         ([ETextCall
                             (text_prompt (field 0 row) (field 1 row));
                           ELog ERROR (MsgTextFailed (field 0 row) e)],
                          w1, Ok text_failed)
                     end
                 | (Raise e, w1) =>
                     ([ETextCall (text_prompt (field 0 row) (field 1 row));
                       ELog ERROR (MsgTextFailed (field 0 row) e)],
                      w1, Ok text_failed)
                 end = (t1, w1, Ok txt) /\
                 count is_text_call t1 = 1 /\ count is_image_call t1 = 0 /\
                 count is_upload t1 = 0).
      { destruct (generate_text svc _ w) as [[resp|e] w1];
          [destruct (resp_text resp) as [t|e]|];
          do 3 eexists; repeat split. }
      destruct Hgen as (t1 & w1 & txt & -> & Ht1).
      destruct (image_step_tally (field 0 row) txt w1)
        as (t2 & w2 & url & E2 & Ht2).
      unfold bind, now, ret. rewrite E2. destruct (utcnow svc w2) as [d w3].
      rewrite !app_nil_r. do 4 eexists.
      split; [reflexivity|]. split; assumption. }
    destruct E as (t1 & t2 & w3 & r & -> & (Ht1 & Hi1 & Hu1) & Ht2 & Hi2 & Hu2).
    unfold trace_of. simpl fst. rewrite !count_app. lia.
  - destruct (@process_row_skip _ svc cfg b f i row w Hrow) as (t & E & Ht).
    rewrite E. unfold trace_of. simpl fst.
    assert (H : forall p, (forall l m, p (ELog l m) = false) ->
                          count p t = 0).
    { intros p Hp. apply count_zero. eapply Forall_impl; [|exact Ht].
      intros [] Hev; try discriminate Hev. apply Hp. }
    rewrite !H by reflexivity. lia.
Qed.

Lemma process_rows_tally b f rows : forall i acc w,
  let t := trace_of (process_rows svc cfg b f i rows acc w) in
  count is_text_call t = List.length (filter emits_record rows) /\
  count is_image_call t <= count is_text_call t /\
  count is_upload t <= count is_image_call t.
Proof.
  induction rows as [|row rest IH]; intros i acc w; cbv zeta.
  - unfold trace_of, ret, count. simpl. lia.
  - simpl process_rows. unfold bind.
    pose proof (process_row_tally b f i row w) as Hrow. cbv zeta in Hrow.
    destruct (process_row_record svc cfg b f i row w) as (t1 & w1 & r & E & _).
    rewrite E in *. unfold trace_of in Hrow. simpl fst in Hrow.
    specialize (IH (S i)
                  (match r with Some rec => acc ++ [rec] | None => acc end) w1).
    cbv zeta in IH. unfold trace_of in IH.
    destruct (process_rows svc cfg b f (S i) rest _ w1) as [[t2 w2] r2].
    unfold trace_of. simpl fst in *. rewrite !count_app.
    simpl filter. destruct (emits_record row); simpl List.length; lia.
Qed.

End Tally.

(** The loop calls the text model once for each record it appends,
    neither more (there is no second attempt) nor less; it calls the
    image model at most as often as the text model, and it uploads at
    most as often as it calls the image model.  It downloads, copies,
    deletes and inserts nothing. *)
Theorem one_text_call_per_record :
  forall W (svc : Services W) cfg b f i rows acc w,
    let out := process_rows svc cfg b f i rows acc w in
    let t := trace_of out in
    (exists recs,
       result_of out = Ok recs /\
       List.length recs = List.length acc + count is_text_call t) /\
    count is_text_call t = List.length (filter emits_record rows) /\
    count is_image_call t <= count is_text_call t /\
    count is_upload t <= count is_image_call t /\
    count is_download t = 0 /\ count is_copy t = 0 /\
    count is_delete t = 0 /\ count is_insert t = 0.
Proof.
  intros W svc cfg b f i rows acc w out t. subst out t.
  pose proof (process_rows_tally svc cfg b f rows i acc w) as Ht.
  pose proof (process_rows_class svc cfg b f rows i acc w) as Hc.
  apply row_class_counts in Hc.
  destruct (process_rows_records svc cfg b f rows i acc w)
    as (t & w' & recs & E & Hkeys).
  cbv zeta in Ht. rewrite E in *. unfold trace_of, result_of in *.
  simpl fst in *. simpl snd.
  split; [|tauto].
  exists recs. split; [reflexivity|].
  apply (f_equal (@List.length _)) in Hkeys.
  rewrite length_app, !length_map in Hkeys. lia.
Qed.

(** *** Trimming *)

Lemma lstrip_idem s : lstrip (lstrip s) = lstrip s.
Proof.
  induction s as [|c s IH]; simpl; [reflexivity|].
  destruct (is_space c) eqn:Hc; [exact IH|]. simpl. rewrite Hc. reflexivity.
Qed.

Lemma lstrip_head s c r : lstrip s = c :: r -> is_space c = false.
Proof.
  induction s as [|a s IH]; simpl; [discriminate|].
  destruct (is_space a) eqn:Ha; [exact IH|]. intros [= <- _]. exact Ha.
Qed.

Lemma lstrip_suffix s : exists spaces, s = spaces ++ lstrip s.
Proof.
  induction s as [|a s [spaces IH]]; simpl; [exists []; reflexivity|].
  destruct (is_space a).
  - exists (a :: spaces). simpl. rewrite <- IH. reflexivity.
  - exists []. reflexivity.
Qed.

Lemma rstrip_prefix s : exists spaces, s = rstrip s ++ spaces.
Proof.
  unfold rstrip. destruct (lstrip_suffix (rev s)) as [spaces H].
  exists (rev spaces). rewrite <- rev_app_distr, <- H, rev_involutive.
  reflexivity.
Qed.

(** [s.strip().strip() == s.strip()] *)
Lemma strip_idem s : strip (strip s) = strip s.
Proof.
  unfold strip.
  assert (Hl : lstrip (rstrip (lstrip s)) = rstrip (lstrip s)).
  { destruct (rstrip (lstrip s)) as [|c r] eqn:E; [reflexivity|].
    destruct (rstrip_prefix (lstrip s)) as [spaces H]. rewrite E in H.
    apply lstrip_head in H. simpl. rewrite H. reflexivity. }
  rewrite Hl. unfold rstrip at 1 2.
  rewrite rev_involutive, lstrip_idem. reflexivity.
Qed.

(** What is left has no white space at either end. *)
Lemma strip_ends s :
  match strip s with
  | [] => True
  | c :: _ => is_space c = false /\ is_space (last (strip s) c) = false
  end.
Proof.
  destruct (strip s) as [|c r] eqn:E; [exact I|]. split.
  - unfold strip in E. destruct (rstrip_prefix (lstrip s)) as [spaces H].
    rewrite E in H. apply lstrip_head in H. exact H.
  - unfold strip, rstrip in E.
    destruct (lstrip (rev (lstrip s))) as [|a u] eqn:Eu; [discriminate|].
    apply lstrip_head in Eu. simpl in E.
    rewrite <- E. rewrite last_last. exact Eu.
Qed.

Lemma trimmed_ends s :
  trimmed s ->
  match s with
  | [] => True
  | c :: _ => is_space c = false /\ is_space (last s c) = false
  end.
Proof.
  unfold trimmed. intros H. pose proof (strip_ends s) as He.
  rewrite H in He. exact He.
Qed.

(** *** The records of a batch *)

Section Batch.

Variable W : Type.
Variable svc : Services W.
Variable cfg : config.

Lemma process_row_record_ok b f i row w :
  match result_of (process_row svc cfg b f i row w) with
  | Ok (Some rec) => record_ok b f rec
  | _ => True
  end.
Proof.
  destruct (emits_record row) eqn:Hrow.
  - rewrite (process_row_valid svc cfg b f i row w Hrow).
    unfold bind at 1. rewrite text_step_run.
    assert (Hgen : exists t1 w1 txt,
               match generate_text svc
                       (text_prompt (field 0 row) (field 1 row)) w with
               | (Ok resp, w1) =>
                   match resp_text resp with
                   | Ok t =>
                       ([ETextCall (text_prompt (field 0 row) (field 1 row))],
                        w1, Ok (strip t))
                   | Raise e =>
                       ([ETextCall (text_prompt (field 0 row) (field 1 row));
                         ELog ERROR (MsgTextFailed (field 0 row) e)],
                        w1, Ok text_failed)
                   end
               | (Raise e, w1) =>
                   ([ETextCall (text_prompt (field 0 row) (field 1 row));
                     ELog ERROR (MsgTextFailed (field 0 row) e)],
                    w1, Ok text_failed)
               end = (t1, w1, Ok txt) /\ trimmed txt).
    { destruct (generate_text svc _ w) as [[resp|e] w1];
        [destruct (resp_text resp) as [t|e]|];
        do 3 eexists; (split; [reflexivity|]);
        first [apply strip_idem | reflexivity]. }
    destruct Hgen as (t1 & w1 & txt & -> & Htxt).
    destruct (image_step_run svc cfg (field 0 row) txt w1)
      as (t2 & w2 & url & E2 & Hurl).
    unfold bind, now, ret. rewrite E2. destruct (utcnow svc w2) as [d w3].
    unfold result_of. simpl snd. unfold record_ok. simpl.
    split; [reflexivity|]. split; [apply strip_idem|].
    split; [apply strip_idem|]. split; [exact Htxt|]. split.
    + unfold emits_record in Hrow.
      change (strip (nth 0 row [])) with (field 0 row) in Hrow.
      change (strip (nth 1 row [])) with (field 1 row) in Hrow.
      apply andb_true_iff in Hrow as [_ Hne].
      apply orb_true_iff in Hne as [Hne | Hne]; [left | right];
        intros Hnil; rewrite Hnil in Hne; discriminate.
    + intros Hbad. rewrite Hbad in Hurl. apply Hurl.
  - destruct (@process_row_skip _ svc cfg b f i row w Hrow) as (t & E & _).
    rewrite E. exact I.
Qed.

Lemma process_rows_records_ok b f rows : forall i acc w,
  Forall (record_ok b f) acc ->
  match result_of (process_rows svc cfg b f i rows acc w) with
  | Ok recs => Forall (record_ok b f) recs
  | Raise _ => True
  end.
Proof.
  induction rows as [|row rest IH]; intros i acc w Hacc; simpl.
  - exact Hacc.
  - unfold bind.
    pose proof (process_row_record_ok b f i row w) as Hrow.
    destruct (process_row svc cfg b f i row w) as [[t1 w1] [r|e]];
      [|exact I].
    unfold result_of in Hrow. simpl snd in Hrow.
    assert (Hacc' : Forall (record_ok b f)
                      (match r with
                       | Some rec => acc ++ [rec]
                       | None => acc
                       end)).
    { destruct r as [rec|]; [|exact Hacc].
      apply Forall_app. split; [exact Hacc | constructor; [exact Hrow|]].
      constructor. }
    specialize (IH (S i) _ w1 Hacc'). unfold result_of in *.
    destruct (process_rows svc cfg b f (S i) rest _ w1) as [[t2 w2] r2].
    exact IH.
Qed.

Lemma process_file_records_ok b f w :
  match result_of (process_file svc cfg b f w) with
  | Ok recs => Forall (record_ok b f) recs
  | Raise _ => True
  end.
Proof.
  unfold process_file, bind, call, of_result, result_of.
  destruct (bucket svc (Some b)) as [[]|e]; simpl; [|exact I].
  destruct (download_as_text svc b f w) as [[content|e] w1]; simpl;
    [|exact I].
  destruct (csv_reader svc content) as [[|h data] stop].
  - destruct stop; exact I.
  - pose proof (@process_rows_records_ok b f data 0 [] w1
                  (Forall_nil _)) as H.
    unfold result_of in H.
    destruct (process_rows svc cfg b f 0 data [] w1) as [[t w2] [recs|e]];
      [|exact I].
    destruct stop as [e|]; simpl; [exact I|].
    destruct recs; simpl; exact H.
Qed.

(** The warnings of line 89 in a run of the loop. *)
Lemma process_row_warnings b f i row w :
  filter is_malformed_warning (trace_of (process_row svc cfg b f i row w))
  = if List.length row <? 2
    then [ELog WARNING (MsgSkippingMalformed (i + 2) f row)]
    else [].
Proof.
  assert (Hnone : forall t,
             Forall (fun ev => is_malformed_warning ev = false) t ->
             filter is_malformed_warning t = []).
  { induction 1 as [|ev t Hev _ IH]; simpl; [reflexivity|].
    rewrite Hev. exact IH. }
  unfold process_row. destruct (List.length row <? 2); [reflexivity|].
  apply Hnone.
  match goal with |- Forall _ (trace_of (?m w)) =>
    enough (H : everywhere (fun ev => is_malformed_warning ev = false) m)
      by apply H
  end.
  unfold text_step, image_step, image_attempt. walk reflexivity.
Qed.

Lemma process_rows_warnings b f rows : forall i acc w,
  filter is_malformed_warning
         (trace_of (process_rows svc cfg b f i rows acc w))
  = malformed_warnings f i rows.
Proof.
  induction rows as [|row rest IH]; intros i acc w; simpl; [reflexivity|].
  unfold bind. pose proof (process_row_warnings b f i row w) as Hrow.
  destruct (process_row_record svc cfg b f i row w) as (t1 & w1 & r & E & _).
  rewrite E in *. unfold trace_of in Hrow. simpl fst in Hrow.
  specialize (IH (S i)
                (match r with Some rec => acc ++ [rec] | None => acc end) w1).
  unfold trace_of in IH.
  destruct (process_rows svc cfg b f (S i) rest _ w1) as [[t2 w2] r2].
  unfold trace_of. simpl fst in *. rewrite filter_app, Hrow, IH. reflexivity.
Qed.

Lemma malformed_warnings_spec f rows : forall i n row,
  In (ELog WARNING (MsgSkippingMalformed n f row)) (malformed_warnings f i rows)
  <-> exists k,
        nth_error rows k = Some row /\ List.length row < 2 /\ n = i + k + 2.
Proof.
  induction rows as [|r rest IH]; intros i n row; simpl.
  - split; [intros [] | intros ([|k] & H & _); discriminate H].
  - rewrite in_app_iff, IH. split.
    + intros [H | (k & Hk & Hlen & ->)].
      * destruct (List.length r <? 2) eqn:Hlt; [|destruct H].
        destruct H as [[= <- <-] | []]. exists 0.
        apply Nat.ltb_lt in Hlt. repeat split; [exact Hlt | lia].
      * exists (S k). repeat split; [exact Hk | exact Hlen | lia].
    + intros ([|k] & Hk & Hlen & ->).
      * injection Hk as ->. left. apply Nat.ltb_lt in Hlen. rewrite Hlen.
        left. f_equal. f_equal. lia.
      * right. exists k. repeat split; [exact Hk | exact Hlen | lia].
Qed.

End Batch.

(** Rows of fewer than two fields are logged as they are met, each once,
    with its own content and with the number of its line when every row
    is one line of the file: the index [enumerate] gives, plus 2 (one for
    the header, one to count from 1).  Nothing else is logged at line 89. *)
Theorem malformed_rows_are_logged :
  forall W (svc : Services W) cfg b f data acc w,
    let t := trace_of (process_rows svc cfg b f 0 data acc w) in
    filter is_malformed_warning t = malformed_warnings f 0 data /\
    (forall n row,
       In (ELog WARNING (MsgSkippingMalformed n f row)) t <->
       exists k,
         nth_error data k = Some row /\ List.length row < 2 /\ n = k + 2) /\
    count is_malformed_warning t
    = List.length (filter (fun row => List.length row <? 2) data).
Proof.
  intros W svc cfg b f data acc w t. subst t.
  pose proof (process_rows_warnings svc cfg b f data 0 acc w) as H.
  split; [exact H|]. split.
  - intros n row.
    rewrite <- (malformed_warnings_spec f data 0 n row), <- H.
    rewrite filter_In. split; [intros Hin; split; [exact Hin | reflexivity]|].
    intros [Hin _]. exact Hin.
  - unfold count. rewrite H. clear H.
    assert (Hlen : forall i,
               List.length (malformed_warnings f i data)
               = List.length
                   (filter (fun row => List.length row <? 2) data)).
    { induction data as [|row rest IH]; intros i; simpl; [reflexivity|].
      rewrite length_app, IH.
      destruct (List.length row <? 2); reflexivity. }
    apply Hlen.
Qed.

Lemma count_zero_inv p t ev : count p t = 0 -> In ev t -> p ev = false.
Proof.
  unfold count. induction t as [|a t IH]; simpl; intros H Hin;
    [destruct Hin|]. destruct Hin as [<- | Hin].
  - destruct (p a); [discriminate | reflexivity].
  - destruct (p a); [discriminate | auto].
Qed.

(** A call of the row loop found in a trace that ends with events of
    another kind is found before them. *)
Lemma work_in_front (t : list event) : forall l pre ev post,
  t ++ l = pre ++ ev :: post ->
  is_row_work ev = true ->
  Forall (fun x => is_row_work x = false) l ->
  exists post', t = pre ++ ev :: post'.
Proof.
  induction t as [|a t IH]; intros l pre ev post E Hw Hl.
  - exfalso. simpl in E. rewrite Forall_forall in Hl.
    rewrite (Hl ev) in Hw; [discriminate Hw|].
    rewrite E. apply in_or_app. right. left. reflexivity.
  - destruct pre as [|p pre]; simpl in E; injection E as <- E.
    + exists t. reflexivity.
    + destruct (IH l pre ev post E Hw Hl) as (post' & ->).
      exists post'. reflexivity.
Qed.

(** In a trace made of events of another kind, one download, events
    that are no downloads and again events of another kind, a call of
    the row loop has the download before it. *)
Lemma work_follows_download (l1 : list event) d t l3 :
  Forall (fun x => is_row_work x = false /\ is_download x = false) l1 ->
  is_download d = true ->
  Forall (fun x => is_download x = false) t ->
  Forall (fun x => is_row_work x = false) l3 ->
  forall pre ev post,
    l1 ++ d :: t ++ l3 = pre ++ ev :: post ->
    is_row_work ev = true ->
    count is_download pre = 1.
Proof.
  intros H1 Hd Ht H3. induction H1 as [|x l1 [Hx1 Hx2] _ IH];
    intros pre ev post E Hw.
  - destruct pre as [|p pre]; simpl in E; injection E as <- E.
    + destruct d; discriminate.
    + destruct (work_in_front _ _ _ _ E Hw H3) as (post' & ->).
      apply Forall_app in Ht as [Ht _].
      unfold count. simpl. rewrite Hd. simpl. f_equal.
      apply count_zero. exact Ht.
  - destruct pre as [|p pre]; simpl in E; injection E as <- E.
    + rewrite Hx1 in Hw. discriminate Hw.
    + unfold count. simpl. rewrite Hx2. apply (IH _ _ _ E Hw).
Qed.

Lemma no_work_of_counts t :
  count is_text_call t = 0 -> count is_image_call t = 0 ->
  count is_upload t = 0 ->
  Forall (fun x => is_row_work x = false) t.
Proof.
  intros H1 H2 H3. apply Forall_forall. intros x Hx. unfold is_row_work.
  rewrite (count_zero_inv _ _ _ H1 Hx), (count_zero_inv _ _ _ H2 Hx),
    (count_zero_inv _ _ _ H3 Hx). reflexivity.
Qed.

(** *** The invocation as a whole *)

Section Whole.

Variable W : Type.
Variable svc : Services W.
Variable cfg : config.

(** Step 8, case by case. *)
Lemma save_run rows w :
  save_to_bigquery svc cfg rows w =
  match rows with
  | [] => ([], w, Ok tt)
  | _ :: _ =>
      match insert_rows_json svc (table_id cfg) rows w with
      | (Ok [], w1) =>
          ([EInsert (table_id cfg) rows;
            ELog INFO (MsgInserted (List.length rows))], w1, Ok tt)
      | (Ok ((_ :: _) as errors), w1) =>
          ([EInsert (table_id cfg) rows; ELog ERROR (MsgInsertErrors errors)],
           w1, Ok tt)
      | (Raise e, w1) =>
          ([EInsert (table_id cfg) rows; ELog ERROR (MsgInsertFailed e)],
           w1, Ok tt)
      end
  end.
Proof.
  unfold save_to_bigquery. destruct rows as [|r rows]; [reflexivity|].
  unfold try_except, bind, call, log.
  destruct (insert_rows_json svc (table_id cfg) (r :: rows) w)
    as [[[|er ers]|e] w1]; reflexivity.
Qed.

(** Before the file step the invocation either ends with nothing but
    logging, or has everything it needs. *)
Lemma handler_cases data w :
  let out := process_csv_and_generate_content svc cfg data w in
  (Forall (fun ev => is_log ev = true) (trace_of out) /\
   exists r, result_of out = Ok r) \/
  (exists key b f w1 w2,
     lazy_imports svc w = (Ok tt, w1) /\
     GOOGLE_API_KEY cfg = Some key /\ nonempty key = true /\
     init_clients svc key w1 = (Ok tt, w2) /\
     data_bucket data = Some b /\ data_name data = Some f).
Proof.
  cbv zeta.
  destruct (truthy (GOOGLE_API_KEY cfg)) eqn:Hkey.
  2: { left. rewrite (handler_no_key svc cfg data w Hkey).
       destruct (lazy_imports svc w) as [[u|e] w1]; simpl;
         (split; [repeat constructor | eexists; reflexivity]). }
  destruct (GOOGLE_API_KEY cfg) as [[|c key]|] eqn:Hk; try discriminate.
  destruct (lazy_imports svc w) as [[[]|e] w1] eqn:Hi.
  2: { left. unfold process_csv_and_generate_content, handler_body.
       unfold bind, log, try_except, quiet, ret. rewrite Hi. simpl.
       split; [repeat constructor | eexists; reflexivity]. }
  destruct (init_clients svc (c :: key) w1) as [[[]|e] w2] eqn:Hc.
  2: { left. unfold process_csv_and_generate_content, handler_body.
       rewrite Hk. unfold bind, log, try_except, quiet, ret.
       rewrite Hi, Hc. simpl.
       split; [repeat constructor | eexists; reflexivity]. }
  destruct (data_bucket data) as [b|] eqn:Hb.
  2: { left. unfold process_csv_and_generate_content, handler_body.
       rewrite Hk, Hb. unfold subscript, bind, log, try_except, quiet, ret,
         raise. rewrite Hi, Hc. simpl.
       split; [repeat constructor | eexists; reflexivity]. }
  destruct (data_name data) as [f|] eqn:Hf.
  2: { left. unfold process_csv_and_generate_content, handler_body.
       rewrite Hk, Hb, Hf. unfold subscript, bind, log, try_except, quiet,
         ret, raise. rewrite Hi, Hc. simpl.
       split; [repeat constructor | eexists; reflexivity]. }
  right. exists (c :: key), b, f, w1, w2. repeat split; assumption.
Qed.

(** The file step downloads first, if it gets that far, and then only
    logs, calls the models and uploads. *)
Lemma process_file_shape b f w :
  let t := trace_of (process_file svc cfg b f w) in
  t = [] \/
  exists t',
    t = EDownload b f :: t' /\ Forall (fun ev => row_class ev = true) t'.
Proof.
  cbv zeta. unfold process_file, bind, call, of_result, trace_of.
  destruct (bucket svc (Some b)) as [[]|e]; simpl; [|left; reflexivity].
  right.
  destruct (download_as_text svc b f w) as [[content|e] w1]; simpl;
    [|exists []; split; [reflexivity | constructor]].
  destruct (csv_reader svc content) as [[|h data] stop].
  - destruct stop; simpl; exists []; (split; [reflexivity | constructor]).
  - pose proof (process_rows_class svc cfg b f data 0 [] w1) as Hc.
    unfold trace_of in Hc.
    destruct (process_rows svc cfg b f 0 data [] w1) as [[t w2] [recs|e]];
      simpl in *; [|exists t; split; [reflexivity | exact Hc]].
    destruct stop as [e|]; simpl.
    + exists (t ++ []). split; [reflexivity|].
      apply Forall_app. split; [exact Hc | constructor].
    + destruct recs; simpl; eexists; (split; [reflexivity|]);
        repeat (apply Forall_app; split); try exact Hc;
        repeat constructor.
Qed.

(** The models are called and the uploads made by the loop alone. *)
Lemma process_file_tally b f w :
  let t := trace_of (process_file svc cfg b f w) in
  count is_download t <= 1 /\
  (0 < count is_text_call t -> count is_download t = 1) /\
  count is_image_call t <= count is_text_call t /\
  count is_upload t <= count is_image_call t /\
  count is_copy t = 0 /\ count is_delete t = 0 /\ count is_insert t = 0.
Proof.
  cbv zeta.
  destruct (process_file_shape b f w) as [E | (t' & E & Hc)].
  { cbv zeta in E. rewrite E. unfold count. simpl. repeat split; lia. }
  cbv zeta in E. pose proof (row_class_counts Hc) as (Hd & Hcp & Hdl & Hin).
  assert (Hm : count is_image_call t' <= count is_text_call t' /\
               count is_upload t' <= count is_image_call t').
  { revert E. unfold process_file, bind, call, of_result, trace_of.
    destruct (bucket svc (Some b)) as [[]|e]; simpl; [|discriminate].
    destruct (download_as_text svc b f w) as [[content|e] w1]; simpl.
    2: { intros [= <-]. unfold count. simpl. lia. }
    destruct (csv_reader svc content) as [[|h data] stop].
    { destruct stop; simpl; intros [= <-]; unfold count; simpl; lia. }
    pose proof (process_rows_tally svc cfg b f data 0 [] w1) as Ht.
    cbv zeta in Ht. unfold trace_of in Ht.
    destruct (process_rows svc cfg b f 0 data [] w1) as [[t w2] [recs|e]];
      simpl in *.
    2: { intros [= <-]. lia. }
    destruct stop as [e|]; simpl.
    { intros [= <-]. rewrite !count_app. unfold count in *. simpl. lia. }
    destruct recs; simpl; intros [= <-]; rewrite !count_app;
      unfold count in *; simpl; lia. }
  rewrite E. unfold count in *. simpl. repeat split; lia.
Qed.

Lemma move_tally b f w :
  let t := trace_of (move_to_failed_bucket svc cfg b f w) in
  count is_copy t <= 1 /\ count is_delete t <= count is_copy t /\
  count is_download t = 0 /\ count is_text_call t = 0 /\
  count is_image_call t = 0 /\ count is_upload t = 0 /\
  count is_insert t = 0.
Proof.
  cbv zeta. rewrite move_run.
  destruct (FAILED_BUCKET_NAME cfg) as [[|c q]|];
    try (unfold count; simpl; repeat split; lia).
  destruct (bucket svc (Some b)) as [[]|e];
    [|unfold count; simpl; repeat split; lia].
  match goal with
  | |- context [bucket svc ?name] => destruct (bucket svc name) as [[]|e]
  end; [|unfold count; simpl; repeat split; lia].
  match goal with
  | |- context [copy_blob svc b f ?q' f w] =>
      destruct (copy_blob svc b f q' f w) as [[dest|e] w1]
  end; [|unfold count; simpl; repeat split; lia].
  destruct (delete_blob svc b f w1) as [[u|e] w2];
    unfold count; simpl; repeat split; lia.
Qed.

Lemma save_tally rows w :
  let t := trace_of (save_to_bigquery svc cfg rows w) in
  count is_insert t <= 1 /\
  count is_copy t = 0 /\ count is_delete t = 0 /\
  count is_download t = 0 /\ count is_text_call t = 0 /\
  count is_image_call t = 0 /\ count is_upload t = 0.
Proof.
  cbv zeta. rewrite save_run. destruct rows as [|r rows];
    [unfold count; simpl; repeat split; lia|].
  destruct (insert_rows_json svc (table_id cfg) (r :: rows) w)
    as [[[|er ers]|e] w1]; unfold count; simpl; repeat split; lia.
Qed.

(** What the row loop does for the outside comes after the download. *)
Lemma invocation_order data w pre ev post :
  trace_of (process_csv_and_generate_content svc cfg data w)
  = pre ++ ev :: post ->
  is_row_work ev = true ->
  count is_download pre = 1.
Proof.
  intros E Hw.
  destruct (handler_cases data w)
    as [[Hlog _] | (key & b & f & w1 & w2 & Hi & Hk & Hne & Hc & Hb & Hf)].
  - exfalso. rewrite Forall_forall in Hlog.
    assert (Hin : In ev (trace_of
                           (process_csv_and_generate_content svc cfg data w)))
      by (rewrite E; apply in_or_app; right; left; reflexivity).
    apply Hlog in Hin. destruct ev; discriminate.
  - rewrite (handler_run svc cfg data w Hi Hk Hne Hc Hb Hf) in E.
    pose proof (process_file_shape b f w2) as Hshape. cbv zeta in Hshape.
    assert (Hrest : exists rest,
              Forall (fun x => is_row_work x = false) rest /\
              pre ++ ev :: post
              = [ELog INFO MsgStarted; ELog INFO (MsgTriggered b f)]
                ++ trace_of (process_file svc cfg b f w2) ++ rest).
    { unfold trace_of in *.
      destruct (process_file svc cfg b f w2) as [[t w3] [rows|e]];
        simpl fst in *.
      - pose proof (save_tally rows w3)
          as (_ & _ & _ & _ & Ht & Him & Hup).
        unfold trace_of in *.
        destruct (save_to_bigquery svc cfg rows w3) as [[t' w4] r'].
        simpl fst in *. exists t'.
        split; [apply no_work_of_counts; assumption | symmetry; exact E].
      - pose proof (move_tally b f w3) as (_ & _ & _ & Ht & Him & Hup & _).
        unfold trace_of in *.
        destruct (move_to_failed_bucket svc cfg b f w3) as [[t' w4] [u|e']];
          simpl fst in *.
        + exists ([ELog ERROR (MsgCritical f e)] ++ t').
          split; [|symmetry; exact E].
          constructor; [reflexivity | apply no_work_of_counts; assumption].
        + exists ([ELog ERROR (MsgCritical f e)] ++ t'
                  ++ [ELog ERROR (MsgFatal e')]).
          split; [|symmetry; exact E].
          constructor; [reflexivity|]. apply Forall_app.
          split; [apply no_work_of_counts; assumption|].
          repeat constructor. }
    destruct Hrest as (rest & Hrest & E').
    destruct Hshape as [Hnil | (t' & Ht & Hclass)].
    + exfalso. rewrite Hnil in E'. simpl in E'.
      assert (Hin : In ev (ELog INFO MsgStarted
                           :: ELog INFO (MsgTriggered b f) :: rest))
        by (rewrite <- E'; apply in_or_app; right; left; reflexivity).
      destruct Hin as [<- | [<- | Hin]]; try discriminate Hw.
      rewrite Forall_forall in Hrest. rewrite (Hrest _ Hin) in Hw.
      discriminate Hw.
    + rewrite Ht in E'. symmetry in E'.
      refine (@work_follows_download
                [ELog INFO MsgStarted; ELog INFO (MsgTriggered b f)]
                (EDownload b f) t' rest _ eq_refl _ Hrest _ _ _ E' Hw).
      * repeat constructor.
      * eapply Forall_impl; [|exact Hclass].
        intros [] Hx; try reflexivity; discriminate Hx.
Qed.

End Whole.

(** Whatever the services do, an invocation downloads at most once,
    inserts at most once, copies at most once and deletes only after a
    copy; it never both inserts and copies; every call of a model and
    every upload has the download before it in the trace; it calls the
    image model at most as often as the text model, and it uploads at
    most as often as it calls the image model. *)
Theorem invocation_event_bounds :
  forall W (svc : Services W) cfg data w,
    let t := trace_of (process_csv_and_generate_content svc cfg data w) in
    count is_download t <= 1 /\
    count is_insert t <= 1 /\
    count is_copy t <= 1 /\
    count is_delete t <= count is_copy t /\
    count is_insert t + count is_copy t <= 1 /\
    (forall pre ev post,
       t = pre ++ ev :: post ->
       is_text_call ev = true \/ is_image_call ev = true
       \/ is_upload ev = true ->
       count is_download pre = 1) /\
    (0 < count is_text_call t -> count is_download t = 1) /\
    count is_image_call t <= count is_text_call t /\
    count is_upload t <= count is_image_call t.
Proof.
  intros W svc cfg data w t. subst t.
  assert (Horder : forall pre ev post,
            trace_of (process_csv_and_generate_content svc cfg data w)
            = pre ++ ev :: post ->
            is_text_call ev = true \/ is_image_call ev = true
            \/ is_upload ev = true ->
            count is_download pre = 1).
  { intros pre ev post E Hev.
    apply (@invocation_order W svc cfg data w pre ev post E).
    unfold is_row_work. destruct Hev as [-> | [-> | ->]];
      rewrite ?orb_true_r; reflexivity. }
  cut (let t := trace_of (process_csv_and_generate_content svc cfg data w) in
       count is_download t <= 1 /\
       count is_insert t <= 1 /\
       count is_copy t <= 1 /\
       count is_delete t <= count is_copy t /\
       count is_insert t + count is_copy t <= 1 /\
       (0 < count is_text_call t -> count is_download t = 1) /\
       count is_image_call t <= count is_text_call t /\
       count is_upload t <= count is_image_call t).
  { cbv zeta. intros (H1 & H2 & H3 & H4 & H5 & H6 & H7 & H8).
    repeat split; assumption. }
  clear Horder. cbv zeta.
  destruct (handler_cases svc cfg data w)
    as [[Hlog _] | (key & b & f & w1 & w2 & Hi & Hk & Hne & Hc & Hb & Hf)].
  - assert (H : forall p, (forall l m, p (ELog l m) = false) ->
                count p (trace_of
                           (process_csv_and_generate_content svc cfg data w))
                = 0).
    { intros p Hp. apply count_zero. eapply Forall_impl; [|exact Hlog].
      intros [] Hev; try discriminate Hev. apply Hp. }
    rewrite !H by reflexivity. repeat split; lia.
  - rewrite (handler_run svc cfg data w Hi Hk Hne Hc Hb Hf).
    pose proof (process_file_tally svc cfg b f w2) as Hpf. cbv zeta in Hpf.
    unfold trace_of in *.
    destruct (process_file svc cfg b f w2) as [[t w3] [rows|e]];
      simpl fst in Hpf.
    + pose proof (save_tally svc cfg rows w3) as Hs. cbv zeta in Hs.
      unfold trace_of in Hs.
      destruct (save_to_bigquery svc cfg rows w3) as [[t' w4] r'].
      simpl fst in *. unfold count in *. simpl.
      rewrite ?filter_app, ?length_app. lia.
    + pose proof (move_tally svc cfg b f w3) as Hm. cbv zeta in Hm.
      unfold trace_of in Hm.
      destruct (move_to_failed_bucket svc cfg b f w3) as [[t' w4] [u|e']];
        simpl fst in *; unfold count in *; simpl;
        rewrite ?filter_app, ?length_app; simpl;
        rewrite ?filter_app, ?length_app; simpl; lia.
Qed.

(** Whatever an invocation inserts goes to the configured table, is not
    empty, and is made of well-formed records of the file that triggered
    it: each names that file as its source, has trimmed fields and
    content, has a product name or keywords, and carries the skip marker
    when its content fails the test of line 111. *)
Theorem inserted_batch_is_well_formed :
  forall W (svc : Services W) cfg data w table rows,
    In (EInsert table rows)
       (trace_of (process_csv_and_generate_content svc cfg data w)) ->
    table = fmt (GCP_PROJECT_ID cfg) ++ lit "." ++ fmt (BQ_DATASET cfg)
            ++ lit "." ++ fmt (BQ_TABLE cfg) /\
    rows <> [] /\
    exists b f,
      data_bucket data = Some b /\ data_name data = Some f /\
      Forall (record_ok b f) rows.
Proof.
  intros W svc cfg data w table rows Hin.
  destruct (handler_cases svc cfg data w)
    as [[Hlog _] | (key & b & f & w1 & w2 & Hi & Hk & Hne & Hc & Hb & Hf)].
  - rewrite Forall_forall in Hlog. apply Hlog in Hin. discriminate Hin.
  - rewrite (handler_run svc cfg data w Hi Hk Hne Hc Hb Hf) in Hin.
    pose proof (process_file_no_insert svc cfg b f w2) as Hpf.
    pose proof (process_file_records_ok svc cfg b f w2) as Hok.
    unfold trace_of, result_of in *.
    destruct (process_file svc cfg b f w2) as [[t w3] [recs|e]];
      simpl fst in *; simpl snd in *.
    + rewrite save_run in Hin.
      assert (Hcase : In (EInsert table rows) t \/
                      (recs <> [] /\ table = table_id cfg /\ rows = recs)).
      { destruct recs as [|r recs]; simpl in Hin.
        - destruct Hin as [[=] | [[=] | Hin]]. rewrite app_nil_r in Hin.
          left. exact Hin.
        - destruct (insert_rows_json svc (table_id cfg) (r :: recs) w3)
            as [[[|er ers]|e] w4]; simpl in Hin;
            destruct Hin as [[=] | [[=] | Hin]];
            apply in_app_or in Hin as [Hin | [[= <- <-] | [[=] | []]]];
            try (left; exact Hin);
            right; repeat split; discriminate. }
      destruct Hcase as [Ht | (Hne' & -> & ->)].
      * rewrite Forall_forall in Hpf. apply Hpf in Ht. discriminate Ht.
      * split; [reflexivity|]. split; [exact Hne'|].
        exists b, f. repeat split; assumption.
    + pose proof (move_no_insert svc cfg b f w3) as Hmv.
      unfold trace_of in Hmv. exfalso.
      assert (Hnone : Forall (fun ev => is_insert ev = false)
                        (fst (fst
                           (match move_to_failed_bucket svc cfg b f w3 with
                            | (t', w4, Ok _) =>
                                ([ELog INFO MsgStarted;
                                  ELog INFO (MsgTriggered b f)] ++ t
                                 ++ [ELog ERROR (MsgCritical f e)] ++ t',
                                 w4, Ok RetNone)
                            | (t', w4, Raise e') =>
                                ([ELog INFO MsgStarted;
                                  ELog INFO (MsgTriggered b f)] ++ t
                                 ++ [ELog ERROR (MsgCritical f e)] ++ t'
                                 ++ [ELog ERROR (MsgFatal e')], w4, Ok RetOK)
                            end)))).
      { destruct (move_to_failed_bucket svc cfg b f w3) as [[t' w4] [u|e']];
          simpl; (constructor; [reflexivity|]); (constructor; [reflexivity|]);
          (apply Forall_app; split; [exact Hpf|]);
          (constructor; [reflexivity|]); [exact Hmv|].
        apply Forall_app. split; [exact Hmv | repeat constructor]. }
      rewrite Forall_forall in Hnone. apply Hnone in Hin. discriminate Hin.
Qed.

(** [inserted_batch_is_well_formed] at work: the one record of the
    example of section 8. *)
Lemma inserted_batch_example :
  exists rows,
    In (EInsert (lit "proj.marketing.content") rows)
       (trace_of (process_csv_and_generate_content
                    (Sample.services (Sample.happy Sample.widget_csv))
                    Sample.cfg_full Sample.upload_event 1700000000%Z)) /\
    List.length rows = 1 /\
    Forall (record_ok (lit "uploads") (lit "products.csv")) rows.
Proof.
  eexists. split; [|split].
  - vm_compute. do 6 right. left. reflexivity.
  - reflexivity.
  - match goal with |- Forall _ ?rows =>
      destruct (@inserted_batch_is_well_formed Z
                  (Sample.services (Sample.happy Sample.widget_csv))
                  Sample.cfg_full Sample.upload_event 1700000000%Z
                  (lit "proj.marketing.content") rows)
        as (_ & _ & b & f & Hb & Hf & Hall)
    end.
    + vm_compute. do 6 right. left. reflexivity.
    + injection Hb as <-. injection Hf as <-. exact Hall.
Defined.

(** A file whose rows gave a batch: the batch is inserted once, whole, in
    the configured table, as the last call of the invocation; the outcome
    is logged after it, at level INFO when the insert reports no row
    error, at level ERROR when it reports some or raises; the invocation
    returns "OK" and the file is neither copied nor deleted. *)
Theorem batch_is_inserted_once :
  forall W (svc : Services W) cfg data w key b f w1 w2 rows,
    lazy_imports svc w = (Ok tt, w1) ->
    GOOGLE_API_KEY cfg = Some key -> nonempty key = true ->
    init_clients svc key w1 = (Ok tt, w2) ->
    data_bucket data = Some b -> data_name data = Some f ->
    result_of (process_file svc cfg b f w2) = Ok rows ->
    rows <> [] ->
    let out := process_csv_and_generate_content svc cfg data w in
    let done := process_file svc cfg b f w2 in
    result_of out = Ok RetOK /\
    trace_of out
    = [ELog INFO MsgStarted; ELog INFO (MsgTriggered b f)]
      ++ trace_of done
      ++ [EInsert (fmt (GCP_PROJECT_ID cfg) ++ lit "." ++ fmt (BQ_DATASET cfg)
                   ++ lit "." ++ fmt (BQ_TABLE cfg)) rows;
          match insert_rows_json svc (table_id cfg) rows (world_of done) with
          | (Ok [], _) => ELog INFO (MsgInserted (List.length rows))
          | (Ok errors, _) => ELog ERROR (MsgInsertErrors errors)
          | (Raise e, _) => ELog ERROR (MsgInsertFailed e)
          end] /\
    count is_insert (trace_of out) = 1 /\
    count is_copy (trace_of out) = 0 /\
    count is_delete (trace_of out) = 0.
Proof.
  intros W svc cfg data w key b f w1 w2 rows Hi Hk Hne Hc Hb Hf Hres Hrows
         out done.
  subst out done.
  rewrite (handler_run svc cfg data w Hi Hk Hne Hc Hb Hf).
  pose proof (process_file_tally svc cfg b f w2) as Hpf. cbv zeta in Hpf.
  unfold trace_of, result_of, world_of in *.
  destruct (process_file svc cfg b f w2) as [[t w3] r]; simpl fst in *;
    simpl snd in *. subst r.
  rewrite save_run. destruct rows as [|r rows]; [contradiction|].
  destruct (insert_rows_json svc (table_id cfg) (r :: rows) w3)
    as [[[|er ers]|e] w4]; simpl;
    (split; [reflexivity|]);
    (split; [reflexivity|]);
    unfold count in *; simpl; rewrite ?filter_app, ?length_app; simpl; lia.
Qed.

(** [batch_is_inserted_once] at work, on the example of section 8. *)
Lemma batch_is_inserted_once_example :
  let out := process_csv_and_generate_content
               (Sample.services (Sample.happy Sample.widget_csv))
               Sample.cfg_full Sample.upload_event 1700000000%Z in
  result_of out = Ok RetOK /\
  last (trace_of out) (ELog INFO MsgStarted) = ELog INFO (MsgInserted 1) /\
  count is_insert (trace_of out) = 1 /\
  count is_copy (trace_of out) = 0 /\
  count is_delete (trace_of out) = 0.
Proof.
  pose proof (fun rows H1 H2 =>
                @batch_is_inserted_once Z
                  (Sample.services (Sample.happy Sample.widget_csv))
                  Sample.cfg_full Sample.upload_event 1700000000%Z
                  (lit "key") (lit "uploads") (lit "products.csv")
                  1700000000%Z 1700000000%Z rows
                  eq_refl eq_refl eq_refl eq_refl eq_refl eq_refl H1 H2) as H.
  cbv zeta in H.
  edestruct H as (H1 & Ht & H2 & H3 & H4);
    [vm_compute; reflexivity | discriminate |].
  split; [exact H1|]. split; [rewrite Ht; vm_compute; reflexivity|].
  repeat split; assumption.
Defined.

(** When the setup of lines 22-55 raises (an import, a client or a model
    handle, or a key that the notification lacks), the handler of line
    175 logs the exception and the invocation returns "OK": no file is
    downloaded, none is moved to quarantine, nothing is inserted. *)
Theorem setup_failure_is_only_logged :
  forall W (svc : Services W) cfg data w e,
    ((exists w1, lazy_imports svc w = (Raise e, w1)) \/
     (exists key w1,
        lazy_imports svc w = (Ok tt, w1) /\
        GOOGLE_API_KEY cfg = Some key /\ nonempty key = true /\
        ((exists w2, init_clients svc key w1 = (Raise e, w2)) \/
         (exists w2,
            init_clients svc key w1 = (Ok tt, w2) /\
            (data_bucket data = None /\ e = KeyError (lit "bucket") \/
             (exists b, data_bucket data = Some b) /\
             data_name data = None /\ e = KeyError (lit "name")))))) ->
    let out := process_csv_and_generate_content svc cfg data w in
    trace_of out = [ELog INFO MsgStarted; ELog ERROR (MsgFatal e)] /\
    result_of out = Ok RetOK.
Proof.
  intros W svc cfg data w e H. cbv zeta.
  unfold process_csv_and_generate_content, handler_body.
  destruct H as [(w1 & Hi) | (key & w1 & Hi & Hk & Hne & H)].
  - unfold bind, log, try_except, quiet, ret. rewrite Hi. simpl.
    split; reflexivity.
  - rewrite Hk. destruct key as [|c key]; [discriminate|].
    destruct H as [(w2 & Hc) | (w2 & Hc & H)].
    + unfold bind, log, try_except, quiet, ret. rewrite Hi, Hc. simpl.
      split; reflexivity.
    + destruct H as [[Hb ->] | ((b & Hb) & Hf & ->)].
      * rewrite Hb. unfold subscript, bind, log, try_except, quiet, ret,
          raise. rewrite Hi, Hc. simpl. split; reflexivity.
      * rewrite Hb, Hf. unfold subscript, bind, log, try_except, quiet, ret,
          raise. rewrite Hi, Hc. simpl. split; reflexivity.
Qed.

(** [setup_failure_is_only_logged] at work: a notification without the
    key "name". *)
Lemma setup_failure_example :
  let out := process_csv_and_generate_content
               (Sample.services (Sample.happy Sample.widget_csv))
               Sample.cfg_full Sample.nameless_event 1700000000%Z in
  trace_of out
  = [ELog INFO MsgStarted; ELog ERROR (MsgFatal (KeyError (lit "name")))] /\
  result_of out = Ok RetOK.
Proof.
  apply (@setup_failure_is_only_logged Z
           (Sample.services (Sample.happy Sample.widget_csv))
           Sample.cfg_full Sample.nameless_event 1700000000%Z
           (KeyError (lit "name"))).
  right. exists (lit "key"), 1700000000%Z. repeat split.
  right. exists 1700000000%Z. split; [reflexivity|].
  right. split; [exists (lit "uploads"); reflexivity | split; reflexivity].
Defined.

(** The only object an invocation ever deletes is the file that triggered
    it, and only after the file step raised and the copy of that file to
    the quarantine container, under the same name, returned. *)
Theorem delete_only_after_copy :
  forall W (svc : Services W) cfg data w b f,
    In (EDelete b f)
       (trace_of (process_csv_and_generate_content svc cfg data w)) ->
    data_bucket data = Some b /\ data_name data = Some f /\
    exists q w3 dest w4 e before after,
      FAILED_BUCKET_NAME cfg = Some q /\
      copy_blob svc b f q f w3 = (Ok dest, w4) /\
      trace_of (process_csv_and_generate_content svc cfg data w)
      = before ++ ELog ERROR (MsgCritical f e)
               :: ECopy b f q f :: EDelete b f :: after /\
      Forall (fun ev => is_copy ev = false /\ is_delete ev = false
                        /\ is_insert ev = false) (before ++ after).
Proof.
  intros W svc cfg data w b' f' Hin.
  destruct (handler_cases svc cfg data w)
    as [[Hlog _] | (key & b & f & w1 & w2 & Hi & Hk & Hne & Hc & Hb & Hf)].
  { rewrite Forall_forall in Hlog. apply Hlog in Hin. discriminate Hin. }
  rewrite (handler_run svc cfg data w Hi Hk Hne Hc Hb Hf) in *.
  pose proof (process_file_tally svc cfg b f w2) as Hpf. cbv zeta in Hpf.
  destruct Hpf as (_ & _ & _ & _ & Hcp & Hdl & Hins).
  unfold trace_of in *.
  destruct (process_file svc cfg b f w2) as [[t w3] [rows|e]];
    simpl fst in *.
  - exfalso. pose proof (save_tally svc cfg rows w3) as Hs. cbv zeta in Hs.
    destruct Hs as (_ & _ & Hsd & _). unfold trace_of in Hsd.
    destruct (save_to_bigquery svc cfg rows w3) as [[t' w4] r'].
    simpl in Hin. destruct Hin as [[=] | [[=] | Hin]].
    apply in_app_or in Hin as [Hin | Hin];
      [apply (count_zero_inv _ _ _ Hdl) in Hin
      | apply (count_zero_inv _ _ _ Hsd) in Hin]; discriminate Hin.
  - assert (Hclean : Forall (fun ev => is_copy ev = false /\
                                       is_delete ev = false /\
                                       is_insert ev = false)
                       ([ELog INFO MsgStarted; ELog INFO (MsgTriggered b f)]
                          ++ t)).
    { apply Forall_forall. intros ev Hev.
      destruct Hev as [<- | [<- | Hev]]; [repeat split.. |].
      repeat split; eapply count_zero_inv; eassumption. }
    rewrite move_run in *.
    destruct (FAILED_BUCKET_NAME cfg) as [[|c q]|] eqn:Hq.
    1, 3: exfalso; simpl in Hin; destruct Hin as [[=] | [[=] | Hin]];
      apply in_app_or in Hin as [Hin | [[=] | [[=] | []]]];
      apply (count_zero_inv _ _ _ Hdl) in Hin; discriminate Hin.
    destruct (bucket svc (Some b)) as [[]|e1].
    2: { exfalso. simpl in Hin. destruct Hin as [[=] | [[=] | Hin]].
         apply in_app_or in Hin as [Hin | [[=] | [[=] | []]]].
         apply (count_zero_inv _ _ _ Hdl) in Hin. discriminate Hin. }
    match type of Hin with
    | context [bucket svc ?name] => destruct (bucket svc name) as [[]|e2]
    end.
    2: { exfalso. simpl in Hin. destruct Hin as [[=] | [[=] | Hin]].
         apply in_app_or in Hin as [Hin | [[=] | [[=] | []]]].
         apply (count_zero_inv _ _ _ Hdl) in Hin. discriminate Hin. }
    match type of Hin with
    | context [copy_blob svc b f ?q' f w3] =>
        destruct (copy_blob svc b f q' f w3) as [[dest|e3] w4] eqn:Hcopy
    end.
    2: { exfalso. simpl in Hin. destruct Hin as [[=] | [[=] | Hin]].
         apply in_app_or in Hin as [Hin | [[=] | [[=] | [[=] | []]]]].
         apply (count_zero_inv _ _ _ Hdl) in Hin. discriminate Hin. }
    assert (Hbf : b' = b /\ f' = f).
    { destruct (delete_blob svc b f w4) as [[u|e4] w5]; simpl in Hin;
        destruct Hin as [[=] | [[=] | Hin]];
        apply in_app_or in Hin
          as [Hin | [[=] | [[=] | [[= <- <-] | [[=] | []]]]]];
        try (split; reflexivity);
        apply (count_zero_inv _ _ _ Hdl) in Hin; discriminate Hin. }
    destruct Hbf as [-> ->]. split; [exact Hb|]. split; [exact Hf|].
    exists (c :: q), w3, dest, w4, e,
      ([ELog INFO MsgStarted; ELog INFO (MsgTriggered b f)] ++ t).
    simpl in Hclean.
    inversion Hclean as [|ev1 l1 H1 Hc1]; subst.
    inversion Hc1 as [|ev2 l2 H2 Hc2]; subst.
    destruct (delete_blob svc b f w4) as [[u|e4] w5]; simpl;
      eexists; (split; [reflexivity|]); (split; [exact Hcopy|]);
      (split; [reflexivity|]);
      (constructor; [exact H1|]); (constructor; [exact H2|]);
      (apply Forall_app; split; [exact Hc2|]); repeat constructor.
Qed.

(** [delete_only_after_copy] at work: the download raised and the file
    went to the quarantine container. *)
Lemma delete_only_after_copy_example :
  exists q w3 dest w4 e before after,
    FAILED_BUCKET_NAME Sample.cfg_full = Some q /\
    copy_blob (Sample.services Sample.unreadable)
              (lit "uploads") (lit "products.csv") q (lit "products.csv") w3
    = (Ok dest, w4) /\
    trace_of (process_csv_and_generate_content
                (Sample.services Sample.unreadable) Sample.cfg_full
                Sample.upload_event 1700000000%Z)
    = before ++ ELog ERROR (MsgCritical (lit "products.csv") e)
             :: ECopy (lit "uploads") (lit "products.csv") q
                      (lit "products.csv")
             :: EDelete (lit "uploads") (lit "products.csv") :: after /\
    Forall (fun ev => is_copy ev = false /\ is_delete ev = false
                      /\ is_insert ev = false) (before ++ after).
Proof.
  apply (@delete_only_after_copy Z (Sample.services Sample.unreadable)
           Sample.cfg_full Sample.upload_event 1700000000%Z
           (lit "uploads") (lit "products.csv")).
  vm_compute. do 5 right. left. reflexivity.
Defined.

(** *** The viewer, further *)

Module ViewerFacts.
Import Gallery.

Lemma filter_perm (f : table_row -> bool) l l' :
  Permutation l l' -> Permutation (filter f l) (filter f l').
Proof.
  induction 1 as [|x l l' _ IH|x y l|l l' l'' _ IH1 _ IH2]; simpl.
  - constructor.
  - destruct (f x); [constructor|]; exact IH.
  - destruct (f x), (f y); try reflexivity. apply perm_swap.
  - etransitivity; eassumption.
Qed.

(** Two orderings of the same rows, most recent first, are the same list
    when no two rows are of the same instant. *)
Lemma sorted_perm_unique l1 : forall l2,
  StronglySorted desc l1 -> StronglySorted desc l2 ->
  Permutation l1 l2 -> NoDup (map processed_at l1) -> l1 = l2.
Proof.
  induction l1 as [|a l1 IH]; intros l2 Hs1 Hs2 Hp Hnd.
  - apply Permutation_nil in Hp. symmetry. exact Hp.
  - destruct l2 as [|b l2].
    { apply Permutation_sym, Permutation_nil in Hp. discriminate Hp. }
    inversion Hs1 as [|? ? Hs1' Ha]; subst.
    inversion Hs2 as [|? ? Hs2' Hb]; subst.
    inversion Hnd as [|? ? Hnotin Hnd']; subst.
    assert (Hab : a = b).
    { assert (Hina : In a (b :: l2))
        by (apply (Permutation_in _ Hp); left; reflexivity).
      assert (Hinb : In b (a :: l1))
        by (apply (Permutation_in _ (Permutation_sym Hp)); left; reflexivity).
      destruct Hina as [<- | Hina]; [reflexivity|].
      destruct Hinb as [<- | Hinb]; [reflexivity|].
      rewrite Forall_forall in Ha, Hb.
      pose proof (Ha _ Hinb) as H1. pose proof (Hb _ Hina) as H2.
      unfold desc in H1, H2. exfalso. apply Hnotin.
      replace (processed_at a) with (processed_at b) by lia.
      apply in_map. exact Hinb. }
    subst b. f_equal. apply IH; try assumption.
    apply Permutation_cons_inv with (a := a). exact Hp.
Qed.

Lemma enumerate_shift (f : nat * result_row -> nat * result_row) l :
  forall s,
    (forall i a, f (3 + i, a) = f (i, a)) ->
    map f (enumerate (3 + s) l) = map f (enumerate s l).
Proof.
  induction l as [|a l IH]; intros s Hf; cbn [enumerate map]; [reflexivity|].
  rewrite Hf. f_equal. exact (IH (S s) Hf).
Qed.

Lemma placements_three a b c rest :
  placements (a :: b :: c :: rest)
  = (0, a) :: (1, b) :: (2, c) :: placements rest.
Proof.
  assert (Hm : forall i, (3 + i) mod 3 = i mod 3).
  { intros i. replace (3 + i) with (i + 1 * 3) by lia.
    apply Nat.Div0.mod_add. }
  unfold placements. cbn [enumerate map fst snd].
  do 3 f_equal. apply (enumerate_shift _ rest 0).
  intros i x. cbn [fst snd]. rewrite Hm. reflexivity.
Qed.

End ViewerFacts.

(** The cards of a column, from the top, are the rows of the result at
    the indices [c], [c + 3], [c + 6], ...: the grid is filled row by
    row, and each column lists its rows most recent first. *)
Theorem column_holds_every_third_row :
  forall results c k,
    c < 3 ->
    nth_error (column c results) k = nth_error results (3 * k + c).
Proof.
  intros results c k Hc. revert results.
  induction k as [|k IH]; intros results.
  - destruct results as [|x [|y [|z rest]]];
      destruct c as [|[|[|c]]]; try lia; reflexivity.
  - destruct results as [|x [|y [|z rest]]];
      try (transitivity (@None Gallery.result_row);
           [|symmetry]; apply nth_error_None;
           destruct c as [|[|[|c]]]; simpl; lia).
    specialize (IH rest). unfold column in *.
    rewrite ViewerFacts.placements_three.
    replace (3 * S k + c) with (S (S (S (3 * k + c)))) by lia.
    change (nth_error (x :: y :: z :: rest) (S (S (S (3 * k + c)))))
      with (nth_error rest (3 * k + c)).
    rewrite <- IH.
    destruct c as [|[|[|c]]]; try lia; reflexivity.
Qed.

(** [column_holds_every_third_row] at work: the second card of the third
    column is the sixth row of the result. *)
Lemma column_example :
  nth_error (column 2 (Gallery.query (Sample.stored 30))) 1
  = nth_error (Gallery.query (Sample.stored 30)) 5.
Proof.
  exact (@column_holds_every_third_row (Gallery.query (Sample.stored 30)) 2 1
           (proj1 (Nat.ltb_lt 2 3) eq_refl)).
Defined.

(** The result of the query does not depend on the order in which the
    warehouse holds its rows, provided no two qualifying rows are of the
    same instant: the same rows come out, in the same order. *)
Theorem query_ignores_table_order :
  forall table table',
    Permutation table table' ->
    NoDup (map Gallery.processed_at (filter Gallery.where_clause table)) ->
    Gallery.selected table = Gallery.selected table' /\
    Gallery.query table = Gallery.query table'.
Proof.
  intros table table' Hp Hnd.
  assert (H : Gallery.order_by_processed_at_desc
                (filter Gallery.where_clause table)
              = Gallery.order_by_processed_at_desc
                  (filter Gallery.where_clause table')).
  { apply ViewerFacts.sorted_perm_unique.
    - apply GalleryFacts.order_sorted.
    - apply GalleryFacts.order_sorted.
    - rewrite !GalleryFacts.order_perm.
      apply ViewerFacts.filter_perm. exact Hp.
    - eapply Permutation_NoDup; [|exact Hnd].
      apply Permutation_map. symmetry. apply GalleryFacts.order_perm. }
  unfold Gallery.query, Gallery.selected. rewrite H. split; reflexivity.
Qed.

(** [query_ignores_table_order] at work: three rows, in two orders. *)
Lemma query_ignores_table_order_example :
  Gallery.selected Sample.small_table = Gallery.selected Sample.shuffled_table
  /\ Gallery.query Sample.small_table = Gallery.query Sample.shuffled_table.
Proof.
  apply query_ignores_table_order.
  - unfold Sample.small_table, Sample.shuffled_table.
    apply Permutation_sym, Permutation_cons_app with (l1 := [_; _]) (l2 := []).
    reflexivity.
  - vm_compute. repeat constructor; simpl; intuition discriminate.
Defined.

(** With one of the three configuration values absent or empty the viewer
    draws its header, where an absent value reads "None", and one error
    panel: it creates no client, sends no query and draws no card,
    whatever the warehouse holds. *)
Theorem viewer_needs_its_configuration :
  forall st cfg wh,
    truthy (Gallery.PROJECT_ID cfg) = false \/
    truthy (Gallery.DATASET_ID cfg) = false \/
    truthy (Gallery.TABLE_ID cfg) = false ->
    Gallery.app st cfg wh
    = [Gallery.PageHeader
         (fmt (Gallery.PROJECT_ID cfg) ++ lit "."
          ++ fmt (Gallery.DATASET_ID cfg) ++ lit "."
          ++ fmt (Gallery.TABLE_ID cfg));
       Gallery.ErrorPanel] /\
    filter Gallery.is_query (Gallery.app st cfg wh) = [].
Proof.
  intros st cfg wh H. unfold Gallery.app, Gallery.table_name.
  assert (E : negb (truthy (Gallery.PROJECT_ID cfg))
              || negb (truthy (Gallery.DATASET_ID cfg))
              || negb (truthy (Gallery.TABLE_ID cfg)) = true).
  { destruct H as [-> | [-> | ->]]; simpl;
      rewrite ?orb_true_r; reflexivity. }
  rewrite E. split; reflexivity.
Qed.

(** [viewer_needs_its_configuration] at work: no table configured. *)
Lemma viewer_without_table_example :
  Gallery.app Sample.streamlit Sample.viewer_without_table
              (Gallery.Table Sample.small_table)
  = [Gallery.PageHeader (lit "proj.marketing.None"); Gallery.ErrorPanel].
Proof.
  exact (proj1 (@viewer_needs_its_configuration Sample.streamlit
                  Sample.viewer_without_table
                  (Gallery.Table Sample.small_table)
                  (or_intror (or_intror eq_refl)))).
Defined.

(** *** From the file to the warehouse *)

(** A file that is reached, downloaded and read to its end, with at least
    one data row that gives a record: the invocation inserts, once, one
    record for each such row, in the order of the rows and with their two
    trimmed fields, and returns "OK"; the text model was called once per
    inserted record. *)
Theorem valid_rows_are_inserted :
  forall W (svc : Services W) cfg data w key b f w1 w2
         content w3 header rows,
    lazy_imports svc w = (Ok tt, w1) ->
    GOOGLE_API_KEY cfg = Some key -> nonempty key = true ->
    init_clients svc key w1 = (Ok tt, w2) ->
    data_bucket data = Some b -> data_name data = Some f ->
    bucket svc (Some b) = Ok tt ->
    download_as_text svc b f w2 = (Ok content, w3) ->
    csv_reader svc content = (header :: rows, None) ->
    filter emits_record rows <> [] ->
    let out := process_csv_and_generate_content svc cfg data w in
    result_of out = Ok RetOK /\
    count is_insert (trace_of out) = 1 /\
    exists batch,
      In (EInsert (table_id cfg) batch) (trace_of out) /\
      map record_key batch = map row_key (filter emits_record rows) /\
      count is_text_call (trace_of out) = List.length batch.
Proof.
  intros W svc cfg data w key b f w1 w2 content w3 header rows
         Hi Hk Hne Hc Hb Hf Hbk Hd Hr Hrows out.
  subst out. rewrite (handler_run svc cfg data w Hi Hk Hne Hc Hb Hf).
  destruct (process_rows_records svc cfg b f rows 0 [] w3)
    as (t & w4 & batch & E & Hkeys).
  pose proof (process_rows_tally svc cfg b f rows 0 [] w3) as Ht.
  pose proof (process_rows_class svc cfg b f rows 0 [] w3) as Hcl.
  apply row_class_counts in Hcl. destruct Hcl as (_ & _ & _ & Hins).
  cbv zeta in Ht. rewrite E in Ht, Hins. unfold trace_of in Ht, Hins.
  simpl fst in Ht, Hins. destruct Ht as (Htext & _).
  simpl in Hkeys.
  assert (Hlen : List.length batch = List.length (filter emits_record rows)).
  { rewrite <- (length_map record_key batch), Hkeys, length_map.
    reflexivity. }
  destruct batch as [|r batch].
  { exfalso. apply Hrows. destruct (filter emits_record rows);
      [reflexivity | discriminate Hlen]. }
  assert (Epf : process_file svc cfg b f w2
                = (EDownload b f :: t, w4, Ok (r :: batch))).
  { unfold process_file, bind, call. rewrite Hbk. simpl.
    rewrite Hd, Hr, E. simpl. rewrite !app_nil_r. reflexivity. }
  rewrite Epf, save_run.
  destruct (insert_rows_json svc (table_id cfg) (r :: batch) w4)
    as [[[|er ers]|e] w5]; unfold trace_of, result_of; simpl;
    (split; [reflexivity|]);
    (split;
     [unfold count in *; simpl; rewrite ?filter_app, ?length_app;
      simpl; lia|]);
    exists (r :: batch);
    (split; [right; right; right; apply in_or_app;
             right; left; reflexivity|]);
    (split; [exact Hkeys|]);
    unfold count in *; simpl; rewrite ?filter_app, ?length_app;
    simpl; simpl in Hlen; lia.
Qed.

(** [valid_rows_are_inserted] at work, on the example of section 8: one
    record, for "Widget". *)
Lemma valid_rows_are_inserted_example :
  let out := process_csv_and_generate_content
               (Sample.services (Sample.happy Sample.widget_csv))
               Sample.cfg_full Sample.upload_event 1700000000%Z in
  result_of out = Ok RetOK /\
  count is_insert (trace_of out) = 1 /\
  exists batch,
    In (EInsert (lit "proj.marketing.content") batch) (trace_of out) /\
    map record_key batch = [(lit "Widget", lit "durable|blue")] /\
    count is_text_call (trace_of out) = List.length batch.
Proof.
  exact (@valid_rows_are_inserted Z
           (Sample.services (Sample.happy Sample.widget_csv))
           Sample.cfg_full Sample.upload_event 1700000000%Z
           (lit "key") (lit "uploads") (lit "products.csv")
           1700000000%Z 1700000000%Z Sample.widget_csv 1700000000%Z
           (hd [] Sample.widget_rows) (tl Sample.widget_rows)
           eq_refl eq_refl eq_refl eq_refl eq_refl eq_refl eq_refl
           eq_refl eq_refl
           (fun H : [[lit "Widget"; lit "durable|blue"]] = [] =>
              match H in _ = l return
                    match l with [] => False | _ :: _ => True end
              with eq_refl => I end)).
Defined.

(** A reader that raises after it yielded rows: the rows were processed
    all the same (the text model was called once for each row that gives
    a record, and images may have been uploaded), but their records are
    dropped: nothing is inserted, and the error goes to the handler of
    line 158. *)
Theorem late_reader_error_drops_the_batch :
  forall W (svc : Services W) cfg data w key b f w1 w2
         content w3 header rows e,
    lazy_imports svc w = (Ok tt, w1) ->
    GOOGLE_API_KEY cfg = Some key -> nonempty key = true ->
    init_clients svc key w1 = (Ok tt, w2) ->
    data_bucket data = Some b -> data_name data = Some f ->
    bucket svc (Some b) = Ok tt ->
    download_as_text svc b f w2 = (Ok content, w3) ->
    csv_reader svc content = (header :: rows, Some e) ->
    let t := trace_of (process_csv_and_generate_content svc cfg data w) in
    count is_text_call t = List.length (filter emits_record rows) /\
    count is_insert t = 0 /\
    In (ELog ERROR (MsgCritical f e)) t.
Proof.
  intros W svc cfg data w key b f w1 w2 content w3 header rows e
         Hi Hk Hne Hc Hb Hf Hbk Hd Hr t.
  subst t. rewrite (handler_run svc cfg data w Hi Hk Hne Hc Hb Hf).
  destruct (process_rows_records svc cfg b f rows 0 [] w3)
    as (t & w4 & batch & E & _).
  pose proof (process_rows_tally svc cfg b f rows 0 [] w3) as Ht.
  pose proof (process_rows_class svc cfg b f rows 0 [] w3) as Hcl.
  apply row_class_counts in Hcl. destruct Hcl as (_ & _ & _ & Hins).
  cbv zeta in Ht. rewrite E in Ht, Hins. unfold trace_of in Ht, Hins.
  simpl fst in Ht, Hins. destruct Ht as (Htext & _).
  pose proof (move_tally svc cfg b f w4) as Hm. cbv zeta in Hm.
  destruct Hm as (_ & _ & _ & Hmt & _ & _ & Hmi). unfold trace_of in Hmt, Hmi.
  assert (Epf : process_file svc cfg b f w2
                = (EDownload b f :: t, w4, Raise e)).
  { unfold process_file, bind, call. rewrite Hbk. simpl.
    rewrite Hd, Hr, E. simpl. rewrite !app_nil_r. reflexivity. }
  rewrite Epf. unfold trace_of.
  destruct (move_to_failed_bucket svc cfg b f w4) as [[t' w5] [u|e']];
    simpl fst in *;
    (split;
     [unfold count in *; simpl; rewrite ?filter_app, ?length_app; simpl;
      rewrite ?filter_app, ?length_app; simpl; lia|]);
    (split;
     [unfold count in *; simpl; rewrite ?filter_app, ?length_app; simpl;
      rewrite ?filter_app, ?length_app; simpl; lia|]);
    right; right; right; apply in_or_app; right; left; reflexivity.
Qed.

(** [late_reader_error_drops_the_batch] at work: the example of section
    8 with a reader that raises at the end of the file. *)
Lemma late_reader_error_example :
  let t := trace_of (process_csv_and_generate_content
                       (Sample.services Sample.torn) Sample.cfg_full
                       Sample.upload_event 1700000000%Z) in
  count is_text_call t = 1 /\ count is_insert t = 0 /\
  In (ELog ERROR (MsgCritical (lit "products.csv")
                              (LibraryError (lit "csv.Error")))) t.
Proof.
  exact (@late_reader_error_drops_the_batch Z
           (Sample.services Sample.torn) Sample.cfg_full
           Sample.upload_event 1700000000%Z
           (lit "key") (lit "uploads") (lit "products.csv")
           1700000000%Z 1700000000%Z Sample.widget_csv 1700000000%Z
           (hd [] Sample.widget_rows) (tl Sample.widget_rows)
           (LibraryError (lit "csv.Error"))
           eq_refl eq_refl eq_refl eq_refl eq_refl eq_refl eq_refl
           eq_refl eq_refl).
Defined.
